(** * HTTP_ON_SOCKET: the request handler of [main.py], embedded in Rocq

    The development follows [src/main.py]: Python text is a list of code
    points, [bytes] a list of bytes, dictionaries that are only looked up are
    finite maps, dictionaries that are serialised are association lists.
    Exceptions, the datastore and the socket are threaded explicitly through
    a small state-and-exception monad.  Calls to [logging] touch neither the
    socket nor the datastore and are left out. *)

From Stdlib Require Import ZArith NArith List Ascii String Bool Lia.
From Stdlib Require Import DecimalString DecimalZ.
From stdpp Require Import base option list gmap.
Import ListNotations.

#[local] Set Warnings "-register-all".
Local Open Scope Z_scope.
Local Open Scope list_scope.

(** ** Python text and bytes *)

Module Text.

(** A Python [str]: its code points. *)
Abbreviation pystr := (list N).
(** A Python [bytes] object. *)
Abbreviation pybytes := (list Byte.byte).

(** A text literal of the source (ASCII only). *)
Definition lit (x : string) : pystr := map N_of_ascii (list_ascii_of_string x).

Definition CR : N := 13%N.
Definition LF : N := 10%N.
Definition CRLF : pystr := [CR; LF].
Definition DQUOTE : N := 34%N.

(** [s.startswith(p)], returning the rest of [s] after [p]. *)
Fixpoint strip_prefix (p s : pystr) : option pystr :=
  match p, s with
  | [], _ => Some s
  | a :: p', b :: s' => if N.eqb a b then strip_prefix p' s' else None
  | _ :: _, [] => None
  end.

(** [s.split(sep, 1)] when [sep] occurs in [s]: the text before the first
    occurrence and the text after it. *)
Fixpoint partition_at (sep s : pystr) : option (pystr * pystr) :=
  match strip_prefix sep s with
  | Some rest => Some ([], rest)
  | None =>
      match s with
      | [] => None
      | c :: s' =>
          match partition_at sep s' with
          | Some (a, b) => Some (c :: a, b)
          | None => None
          end
      end
  end.

(** [sep in s] *)
Definition contains (sep s : pystr) : bool :=
  match partition_at sep s with Some _ => true | None => false end.

(** [s.split(sep, 1)] *)
Definition split1 (sep s : pystr) : list pystr :=
  match partition_at sep s with
  | Some (a, b) => [a; b]
  | None => [s]
  end.

Fixpoint split_fuel (fuel : nat) (sep s : pystr) : list pystr :=
  match fuel with
  | O => [s]
  | S fuel' =>
      match partition_at sep s with
      | Some (a, b) => a :: split_fuel fuel' sep b
      | None => [s]
      end
  end.

(** [s.split(sep)] for a non-empty [sep]: every piece found by a left to
    right scan; each cut consumes at least one character, so [length s]
    cuts are enough. *)
Definition split (sep s : pystr) : list pystr := split_fuel (length s) sep s.

(** [sep.join(pieces)] *)
Fixpoint join (sep : pystr) (pieces : list pystr) : pystr :=
  match pieces with
  | [] => []
  | [p] => p
  | p :: rest => p ++ sep ++ join sep rest
  end.

(** [str.isspace] on one character, as used by [split()] without argument. *)
Definition isspace (c : N) : bool :=
  ((9 <=? c) && (c <=? 13) || (28 <=? c) && (c <=? 32)
   || (c =? 133) || (c =? 160) || (c =? 5760)
   || (8192 <=? c) && (c <=? 8202)
   || (c =? 8232) || (c =? 8233) || (c =? 8239) || (c =? 8287)
   || (c =? 12288))%N.

Fixpoint split_ws_from (cur : pystr) (s : pystr) : list pystr :=
  match s with
  | [] => match cur with [] => [] | _ => [rev cur] end
  | c :: s' =>
      if isspace c
      then match cur with
           | [] => split_ws_from [] s'
           | _ => rev cur :: split_ws_from [] s'
           end
      else split_ws_from (c :: cur) s'
  end.

(** [s.split()]: the maximal runs of non-blank characters. *)
Definition split_ws (s : pystr) : list pystr := split_ws_from [] s.

(** *** UTF-8 *)

Definition byte_of (n : N) : Byte.byte :=
  match Byte.of_N (n mod 256) with Some b => b | None => Byte.x00 end.

Definition is_surrogate (c : N) : bool := ((55296 <=? c) && (c <=? 57343))%N.

(** The encoding of one code point; [None] for a surrogate or a number
    beyond U+10FFFF, which [str.encode('utf-8')] refuses. *)
Definition utf8_encode_char (c : N) : option pybytes :=
  (if c <? 128 then Some [byte_of c]
   else if c <? 2048 then
     Some [byte_of (192 + c / 64); byte_of (128 + c mod 64)]
   else if is_surrogate c then None
   else if c <? 65536 then
     Some [byte_of (224 + c / 4096); byte_of (128 + (c / 64) mod 64);
           byte_of (128 + c mod 64)]
   else if c <? 1114112 then
     Some [byte_of (240 + c / 262144); byte_of (128 + (c / 4096) mod 64);
           byte_of (128 + (c / 64) mod 64); byte_of (128 + c mod 64)]
   else None)%N.

(** [s.encode('utf-8')]; [None] stands for [UnicodeEncodeError]. *)
Fixpoint utf8_encode (s : pystr) : option pybytes :=
  match s with
  | [] => Some []
  | c :: s' =>
      match utf8_encode_char c, utf8_encode s' with
      | Some b, Some bs => Some (b ++ bs)
      | _, _ => None
      end
  end.

Definition is_cont (b : N) : bool := ((128 <=? b) && (b <=? 191))%N.
Definition cont (b : N) : N := (b - 128)%N.

(** Strict decoding on the numeric values of the bytes: shortest form
    only, no surrogates, nothing beyond U+10FFFF. *)
Fixpoint utf8_decode_N (bs : list N) : option pystr :=
  match bs with
  | [] => Some []
  | b0 :: r0 =>
      (if b0 <? 128 then option_map (cons b0) (utf8_decode_N r0)
       else if (194 <=? b0) && (b0 <=? 223) then
         match r0 with
         | b1 :: r1 =>
             if is_cont b1
             then option_map (cons ((b0 - 192) * 64 + cont b1)) (utf8_decode_N r1)
             else None
         | _ => None
         end
       else if (224 <=? b0) && (b0 <=? 239) then
         match r0 with
         | b1 :: b2 :: r2 =>
             if is_cont b1 && is_cont b2
                && negb ((b0 =? 224) && (b1 <? 160))
                && negb ((b0 =? 237) && (159 <? b1))
             then option_map
                    (cons ((b0 - 224) * 4096 + cont b1 * 64 + cont b2))
                    (utf8_decode_N r2)
             else None
         | _ => None
         end
       else if (240 <=? b0) && (b0 <=? 244) then
         match r0 with
         | b1 :: b2 :: b3 :: r3 =>
             if is_cont b1 && is_cont b2 && is_cont b3
                && negb ((b0 =? 240) && (b1 <? 144))
                && negb ((b0 =? 244) && (143 <? b1))
             then option_map
                    (cons ((b0 - 240) * 262144 + cont b1 * 4096
                           + cont b2 * 64 + cont b3))
                    (utf8_decode_N r3)
             else None
         | _ => None
         end
       else None)%N
  end.

(** [raw.decode('utf-8')]; [None] stands for [UnicodeDecodeError]. *)
Definition utf8_decode (raw : pybytes) : option pystr :=
  utf8_decode_N (map Byte.to_N raw).

(** Every code point is below 128. *)
Definition is_ascii (s : pystr) : bool := forallb (fun c => (c <? 128)%N) s.

(** The bytes of an ASCII text. *)
Definition ascii_bytes (s : pystr) : pybytes := map byte_of s.

(** *** Decimal numerals *)

(** [str(n)] for a Python [int], also what an f-string and [json.dumps]
    write for it. *)
Definition str_int (z : Z) : pystr :=
  lit (NilZero.string_of_int (Z.to_int z)).

(** [len(s)] *)
Definition len (s : pystr) : Z := Z.of_nat (length s).

End Text.
Import Text.

(** ** Values *)

(** What a handler puts in a response: integers, texts, lists and
    dictionaries in insertion order. *)
Inductive pyval :=
| PInt (z : Z)
| PStr (s : pystr)
| PList (l : list pyval)
| PDict (items : list (pystr * pyval)).

(** What [json.loads] returns.  A float is kept as its 64 bits. *)
Inductive json :=
| JNull
| JBool (b : bool)
| JInt (z : Z)
| JFloat (bits : N)
| JStr (s : pystr)
| JArr (l : list json)
| JObj (items : list (pystr * json)).

(** ** [json.dumps] with its default settings *)

Module Dumps.

Definition hex_digit (n : N) : N := (if n <? 10 then 48 + n else 87 + n)%N.

(** ['{0:04x}'.format(n)] for [n < 0x10000] *)
Definition hex4 (n : N) : pystr :=
  [hex_digit ((n / 4096) mod 16); hex_digit ((n / 256) mod 16);
   hex_digit ((n / 16) mod 16); hex_digit (n mod 16)]%N.

Definition backslash : N := 92%N.

(** The replacement of one character by [encode_basestring_ascii]:
    printable ASCII other than the quote and the backslash stays, the rest
    is escaped. *)
Definition escape_char (c : N) : pystr :=
  (if c =? 92 then [backslash; backslash]
   else if c =? 34 then [backslash; DQUOTE]
   else if c =? 8 then [backslash; 98]
   else if c =? 12 then [backslash; 102]
   else if c =? 10 then [backslash; 110]
   else if c =? 13 then [backslash; 114]
   else if c =? 9 then [backslash; 116]
   else if (32 <=? c) && (c <=? 126) then [c]
   else if c <? 65536 then [backslash; 117] ++ hex4 c
   else
     let n := c - 65536 in
     let s1 := N.lor 55296 (N.land (N.shiftr n 10) 1023) in
     let s2 := N.lor 56320 (N.land n 1023) in
     [backslash; 117] ++ hex4 s1 ++ [backslash; 117] ++ hex4 s2)%N.

Definition encode_basestring_ascii (s : pystr) : pystr :=
  [DQUOTE] ++ concat (map escape_char s) ++ [DQUOTE].

Fixpoint json_dumps (v : pyval) : pystr :=
  match v with
  | PInt z => str_int z
  | PStr s => encode_basestring_ascii s
  | PList l => lit "[" ++ join (lit ", ") (map json_dumps l) ++ lit "]"
  | PDict items =>
      lit "{"
      ++ join (lit ", ")
           (map (fun kv => match kv with
                           | (k, x) => encode_basestring_ascii k ++ lit ": "
                                       ++ json_dumps x
                           end) items)
      ++ lit "}"
  end.

End Dumps.
Import Dumps.

(** ** Exceptions *)

Inductive column := Email | Password | Message.

(** Exceptions raised by the interpreter or by a library rather than by a
    [raise] statement of the source. *)
Inductive runtime_error :=
| UnicodeDecodeError              (* [raw_request.decode('utf-8')] *)
| UnicodeEncodeError              (* [str.encode('utf-8')] *)
| UnpackError                     (* [a, b, c = xs] or [k, v = xs] with another number of values *)
| DictUpdateError                 (* [dict(pairs)] with an element whose length is not 2 *)
| JSONDecodeError                 (* [json.loads] on a text that is not JSON *)
| RecursionError                  (* [json.loads] on a text nested beyond the interpreter's limit *)
| DigitLimitError                 (* [json.loads] on an integer literal beyond the digit limit: a plain [ValueError] *)
| NotContainer                    (* [key in data] on a number, a boolean or [None] *)
| BadSubscript                    (* [data[key]] on a value that is not a dictionary *)
| KeyError                        (* [data[key]] on a dictionary without [key] *)
| BindOverflow                    (* sqlite3: integer parameter outside 64 bits *)
| BindEncode                      (* sqlite3: text parameter that has no UTF-8 form *)
| BindUnsupported                 (* sqlite3: list or dictionary parameter *)
| NotNullFailed (c : column)      (* sqlite3.IntegrityError: NOT NULL constraint failed *)
| DatabaseFull                    (* sqlite3: AUTOINCREMENT has run out of row ids *)
| OperationalError (code : N)     (* sqlite3: the file cannot be opened, read or written *)
| SocketError (errno : N).        (* [conn.sendall]: [BrokenPipeError], [ConnectionResetError] *)

Inductive exn :=
| ValueError (msg : pystr)        (* [raise ValueError(msg)] *)
| Runtime (e : runtime_error).

(** What [json.loads] raises on a text it does not read.  Only the
    first is a [json.JSONDecodeError]. *)
Inductive loads_error :=
| NotJSON                         (* [json.JSONDecodeError] *)
| TooDeep                         (* [RecursionError] *)
| TooManyDigits.                  (* [ValueError] of the integer conversion *)

Definition raised_by_loads (e : loads_error) : runtime_error :=
  match e with
  | NotJSON => JSONDecodeError
  | TooDeep => RecursionError
  | TooManyDigits => DigitLimitError
  end.

(** The errors that come out of [ThreadSafeDB.execute]. *)
Definition is_storage_error (e : exn) : bool :=
  match e with
  | Runtime (BindOverflow | BindEncode | BindUnsupported | NotNullFailed _
            | DatabaseFull | OperationalError _) => true
  | _ => false
  end.

(** ** The datastore: table [users] of [database.db] *)

Module Store.

(** A row of [users (id INTEGER PRIMARY KEY AUTOINCREMENT, email TEXT NOT
    NULL, password TEXT NOT NULL, message TEXT NOT NULL)]. *)
Record user := mk_user {
  user_id : Z;
  email : pystr;
  password : pystr;
  message : pystr
}.

(** The rows in row-id order, the largest row id ever handed out
    ([sqlite_sequence]), and for each coming call whether the file fails
    it ([Some code]) or not. *)
Record database := mk_database {
  users : list user;
  sequence : Z;
  faults : list (option N)
}.

(** A bound parameter as SQLite receives it. *)
Inductive sqlval :=
| SqlNull
| SqlInt (z : Z)
| SqlReal (bits : N)
| SqlText (s : pystr).

Definition max_rowid : Z := 9223372036854775807.
Definition min_int64 : Z := -9223372036854775808.

(** How the [sqlite3] module binds a value produced by [json.loads]. *)
Definition bind_param (v : json) : exn + sqlval :=
  match v with
  | JNull => inr SqlNull
  | JBool b => inr (SqlInt (if b then 1 else 0))
  | JInt z =>
      if (min_int64 <=? z) && (z <=? max_rowid) then inr (SqlInt z)
      else inl (Runtime BindOverflow)
  | JFloat bits => inr (SqlReal bits)
  | JStr s =>
      match utf8_encode s with
      | Some _ => inr (SqlText s)
      | None => inl (Runtime BindEncode)
      end
  | JArr _ | JObj _ => inl (Runtime BindUnsupported)
  end.

(** Parameters are bound from left to right; the first failure is raised. *)
Fixpoint bind_params (vs : list json) : exn + list sqlval :=
  match vs with
  | [] => inr []
  | v :: vs' =>
      match bind_param v with
      | inl e => inl e
      | inr x =>
          match bind_params vs' with
          | inl e => inl e
          | inr xs => inr (x :: xs)
          end
      end
  end.

Definition set_column (c : column) (t : pystr) (u : user) : user :=
  match c with
  | Email => mk_user (user_id u) t (password u) (message u)
  | Password => mk_user (user_id u) (email u) t (message u)
  | Message => mk_user (user_id u) (email u) (password u) t
  end.

Definition public (u : user) : Z * pystr * pystr :=
  (user_id u, email u, message u).

Section Engine.

(** The text SQLite stores in a TEXT column for a bound float given by its
    64 bits; [None] for a NaN, which SQLite binds as NULL. *)
Variable sqlite_real_text : N -> option pystr.

(** SQLite's comparison [id = ?] of the INTEGER column with a bound text. *)
Variable sql_id_eq : pystr -> Z -> bool.

(** What a TEXT column stores for a bound value; [None] is NULL. *)
Definition text_affinity (v : sqlval) : option pystr :=
  match v with
  | SqlNull => None
  | SqlInt z => Some (str_int z)
  | SqlReal bits => sqlite_real_text bits
  | SqlText s => Some s
  end.

(** The NOT NULL checks of an assignment list, in the order of the list. *)
Fixpoint stored_texts (sets : list (column * sqlval))
  : exn + list (column * pystr) :=
  match sets with
  | [] => inr []
  | (c, v) :: rest =>
      match text_affinity v with
      | None => inl (Runtime (NotNullFailed c))
      | Some t =>
          match stored_texts rest with
          | inl e => inl e
          | inr ts => inr ((c, t) :: ts)
          end
      end
  end.

Definition apply_sets (ts : list (column * pystr)) (u : user) : user :=
  fold_left (fun u ct => set_column (fst ct) (snd ct) u) ts u.

(** A statement takes the rows and the sequence and gives a result with
    the new rows and sequence, or fails and changes nothing. *)
Definition statement (A : Type) : Type :=
  list user -> Z -> exn + (A * list user * Z).

(** ["SELECT id, email, message FROM users WHERE id = ?"], fetched *)
Definition select_user (id : pystr) : statement (list (Z * pystr * pystr)) :=
  fun rows seq =>
    match bind_param (JStr id) with
    | inl e => inl e
    | inr _ => inr (map public (List.filter (fun u => sql_id_eq id (user_id u)) rows), rows, seq)
    end.

(** ["SELECT id, email, message FROM users"], fetched *)
Definition select_users : statement (list (Z * pystr * pystr)) :=
  fun rows seq => inr (map public rows, rows, seq).

(** ["INSERT INTO users (email, password, message) VALUES (?, ?, ?)"];
    the result is [cursor.lastrowid]. *)
Definition insert_user (e p m : json) : statement Z :=
  fun rows seq =>
    match bind_params [e; p; m] with
    | inl err => inl err
    | inr vals =>
        if max_rowid <=? seq then inl (Runtime DatabaseFull)
        else
          match stored_texts (combine [Email; Password; Message] vals) with
          | inl err => inl err
          | inr ts =>
              let id := seq + 1 in
              inr (id, rows ++ [apply_sets ts (mk_user id [] [] [])], id)
          end
    end.

(** ["DELETE FROM users WHERE id = ?"] *)
Definition delete_user (id : pystr) : statement unit :=
  fun rows seq =>
    match bind_param (JStr id) with
    | inl e => inl e
    | inr _ => inr (tt, List.filter (fun u => negb (sql_id_eq id (user_id u))) rows, seq)
    end.

(** ["UPDATE users SET c1 = ?, ... WHERE id = ?"]; the NOT NULL checks
    run only when a row is updated. *)
Definition update_user (sets : list (column * json)) (id : pystr)
  : statement unit :=
  fun rows seq =>
    match bind_params (map snd sets ++ [JStr id]) with
    | inl e => inl e
    | inr vals =>
        if existsb (fun u => sql_id_eq id (user_id u)) rows then
          match stored_texts (combine (map fst sets) vals) with
          | inl e => inl e
          | inr ts =>
              inr (tt,
                   map (fun u => if sql_id_eq id (user_id u)
                                 then apply_sets ts u else u) rows,
                   seq)
          end
        else inr (tt, rows, seq)
    end.

(** [ThreadSafeDB.execute]: connect, run the statement, commit, close.
    A failure of the file or of the statement leaves the table as it
    was. *)
Definition execute {A} (stmt : statement A) (d : database)
  : (exn + A) * database :=
  match faults d with
  | Some code :: rest =>
      (inl (Runtime (OperationalError code)),
       mk_database (users d) (sequence d) rest)
  | pending =>
      let rest := tl pending in
      match stmt (users d) (sequence d) with
      | inl e => (inl e, mk_database (users d) (sequence d) rest)
      | inr (a, rows, seq) => (inr a, mk_database rows seq rest)
      end
  end.

End Engine.

End Store.
Import Store.

(** ** Reading the request (the first half of [handle_client]) *)

Module Parse.

(** Sequencing of steps that may raise. *)
Definition and_then {A B} (r : exn + A) (k : A -> exn + B) : exn + B :=
  match r with
  | inl e => inl e
  | inr a => k a
  end.

Notation "'let?' x ':=' r 'in' k" := (and_then r (fun x => k))
  (at level 10, x name, r at level 100, k at level 200, only parsing).

(** [a, b, c = xs] *)
Definition unpack3 (xs : list pystr) : exn + (pystr * pystr * pystr) :=
  match xs with
  | [a; b; c] => inr (a, b, c)
  | _ => inl (Runtime UnpackError)
  end.

(** [a, b = xs] *)
Definition unpack2 (xs : list pystr) : exn + (pystr * pystr) :=
  match xs with
  | [a; b] => inr (a, b)
  | _ => inl (Runtime UnpackError)
  end.

(** The loop [for header in ...: if ': ' in header: ...] filling
    [headers_dict]. *)
Fixpoint read_headers (lines : list pystr) (headers_dict : gmap pystr pystr)
  : exn + gmap pystr pystr :=
  match lines with
  | [] => inr headers_dict
  | header :: rest =>
      if contains (lit ": ") header then
        let? kv := unpack2 (split1 (lit ": ") header) in
        read_headers rest (<[fst kv := snd kv]> headers_dict)
      else read_headers rest headers_dict
  end.

(** [dict(pairs)]: every element must have exactly two items; a later
    key replaces an earlier one. *)
Fixpoint dict_of (pairs : list (list pystr)) (d : gmap pystr pystr)
  : exn + gmap pystr pystr :=
  match pairs with
  | [] => inr d
  | [k; v] :: rest => dict_of rest (<[k := v]> d)
  | _ :: _ => inl (Runtime DictUpdateError)
  end.

(** [_parse_parameters(params_str)] *)
Definition _parse_parameters (params_str : pystr) : exn + gmap pystr pystr :=
  dict_of
    (map (split (lit "="))
       (List.filter (fun param => contains (lit "=") param)
          (split (lit "&") params_str)))
    ∅.

(** What the dispatch uses of a request.  [headers_dict] is filled but
    not read again by the source, so it is kept here only to show that. *)
Record request := mk_request {
  req_method : pystr;
  req_path : pystr;
  req_parameters : gmap pystr pystr;
  req_body : option pystr;
  req_headers_dict : gmap pystr pystr
}.

(** [headers = parts[0]] of the decoded request *)
Definition header_block (request_text : pystr) : pystr :=
  nth 0 (split1 (CRLF ++ CRLF) request_text) [].

(** [body = parts[1] if len(parts) > 1 else None] *)
Definition body_of (request_text : pystr) : option pystr :=
  let parts := split1 (CRLF ++ CRLF) request_text in
  if (1 <? length parts)%nat then Some (nth 1 parts []) else None.

(** [first_line = headers.split('\r\n')[0]] *)
Definition first_line_of (request_text : pystr) : pystr :=
  nth 0 (split CRLF (header_block request_text)) [].

(** Lines 79 to 97 of [main.py]: from the bytes [conn.recv(8192)]
    returned to method, path, parameters and body. *)
Definition parse_request (raw_request : pybytes) : exn + request :=
  let? request_text :=
    match utf8_decode raw_request with
    | Some t => inr t
    | None => inl (Runtime UnicodeDecodeError)
    end in
  let headers := header_block request_text in
  let body := body_of request_text in
  let first_line := first_line_of request_text in
  let? mpv := unpack3 (split_ws first_line) in
  let method := fst (fst mpv) in
  let path := snd (fst mpv) in
  let? headers_dict := read_headers (tl (split CRLF headers)) ∅ in
  let? pp :=
    if contains (lit "?") path then
      let? ps := unpack2 (split1 (lit "?") path) in
      let? parameters := _parse_parameters (snd ps) in
      inr (fst ps, parameters)
    else inr (path, ∅) in
  inr (mk_request method (fst pp) (snd pp) body headers_dict).

End Parse.
Import Parse.

(** ** The state the handlers act on, and their monad *)

(** The client socket ([conn]) and the datastore ([self.db]). *)
Record world := mk_world {
  sent : list pybytes;       (* one element per [conn.sendall] *)
  closed : bool;             (* [conn.close()] was called *)
  store : database
}.

Definition M (A : Type) : Type := world -> (exn + A) * world.

Definition ret {A} (a : A) : M A := fun w => (inr a, w).

Definition raise {A} (e : exn) : M A := fun w => (inl e, w).

Definition bind {A B} (m : M A) (k : A -> M B) : M B :=
  fun w =>
    match m w with
    | (inl e, w') => (inl e, w')
    | (inr a, w') => k a w'
    end.

(** [try: m  except Exception as e: h e] *)
Definition try_except {A} (m : M A) (h : exn -> M A) : M A :=
  fun w =>
    match m w with
    | (inl e, w') => h e w'
    | (inr a, w') => (inr a, w')
    end.

Declare Scope py_scope.
Delimit Scope py_scope with py.
Notation "'let!' x ':=' m 'in' k" := (bind m (fun x => k))
  (at level 10, x name, m at level 100, k at level 200, only parsing) : py_scope.
Local Open Scope py_scope.

(** A pure computation that may raise. *)
Definition lift {A} (r : exn + A) : M A :=
  match r with inl e => raise e | inr a => ret a end.

(** The client socket as far as the server writes to it:
    [conn.sendall(data)]. *)
Class Connection := sendall : pybytes -> M unit.

(** A connection whose peer takes every message.  A statement that names
    no connection is about this one. *)
#[export] Instance reliable : Connection :=
  fun data w => (inr tt, mk_world (sent w ++ [data]) (closed w) (store w)).

(** A connection on which [sendall] can fail: [refuses history data]
    tells, from the messages that went through so far, whether the
    attempt to send [data] raises [OSError], and with which [errno].  A
    refused message leaves no trace. *)
Definition unreliable (refuses : list pybytes -> pybytes -> option N)
  : Connection :=
  fun data w =>
    match refuses (sent w) data with
    | Some errno => (inl (Runtime (SocketError errno)), w)
    | None => (inr tt, mk_world (sent w ++ [data]) (closed w) (store w))
    end.

(** [conn.close()] *)
Definition close : world -> world :=
  fun w => mk_world (sent w) true (store w).

(** [s.encode('utf-8')] *)
Definition encode (s : pystr) : M pybytes :=
  match utf8_encode s with
  | Some b => ret b
  | None => raise (Runtime UnicodeEncodeError)
  end.

(** Truth value of an optional text: [None] and [''] are false. *)
Definition truthy (x : option pystr) : bool :=
  match x with
  | Some (_ :: _) => true
  | _ => false
  end.

(** ** Operations on the value [json.loads] returned *)

(** [data[key]] on a dictionary: the first binding of [key]. *)
Fixpoint lookup_item (key : pystr) (items : list (pystr * json)) : option json :=
  match items with
  | [] => None
  | (k, v) :: rest => if decide (k = key) then Some v else lookup_item key rest
  end.

Definition is_str (key : pystr) (v : json) : bool :=
  match v with
  | JStr s => if decide (s = key) then true else false
  | _ => false
  end.

(** [key in data] for a text [key] *)
Definition py_in (key : pystr) (data : json) : exn + bool :=
  match data with
  | JObj items =>
      inr (match lookup_item key items with Some _ => true | None => false end)
  | JArr l => inr (existsb (is_str key) l)
  | JStr s => inr (contains key s)
  | JNull | JBool _ | JInt _ | JFloat _ => inl (Runtime NotContainer)
  end.

(** [data[key]] for a text [key] *)
Definition getitem (data : json) (key : pystr) : exn + json :=
  match data with
  | JObj items =>
      match lookup_item key items with
      | Some v => inr v
      | None => inl (Runtime KeyError)
      end
  | _ => inl (Runtime BadSubscript)
  end.

(** [all(key in data for key in keys)]: stops at the first [False]. *)
Fixpoint all_in (keys : list pystr) (data : json) : exn + bool :=
  match keys with
  | [] => inr true
  | key :: rest =>
      match py_in key data with
      | inl e => inl e
      | inr false => inr false
      | inr true => all_in rest data
      end
  end.

(** ** The server: class [HTTPServer] *)

Section Server.

(** [conn], the socket [handle_client] was given. *)
Context {conn : Connection}.

(** [json.loads]: the value read, or the exception raised. *)
Variable json_loads : pystr -> loads_error + json.

(** The two conversions of SQLite the statements depend on (see
    [Store.text_affinity] and [Store.select_user]). *)
Variable sqlite_real_text : N -> option pystr.
Variable sql_id_eq : pystr -> Z -> bool.

(** [str(e)] for an exception the source did not raise itself. *)
Variable runtime_message : runtime_error -> pystr.

(** [self._server_name] *)
Variable server_name : pystr.

(** [str(e)] *)
Definition str_exn (e : exn) : pystr :=
  match e with
  | ValueError msg => msg
  | Runtime r => runtime_message r
  end.

(** [self.db.execute(...)] *)
Definition db_execute {A} (stmt : statement A) : M A :=
  fun w =>
    match execute stmt (store w) with
    | (r, d) => (r, mk_world (sent w) (closed w) d)
    end.

(** [_send_response(conn, status_code, content)] *)
Definition _send_response (status_code : Z) (content : pyval) : M unit :=
  let response :=
    PDict [(lit "status_code", PInt status_code); (lit "data", content)] in
  let json_response := json_dumps response in
  let headers :=
    lit "HTTP/1.1 " ++ str_int status_code ++ CRLF
    ++ lit "Content-Type: application/json" ++ CRLF
    ++ lit "Content-Length: " ++ str_int (len json_response) ++ CRLF
    ++ CRLF in
  let! h := encode headers in
  let! b := encode json_response in
  sendall (h ++ b).

(** [{'error': msg}] *)
Definition error_payload (msg : pystr) : pyval :=
  PDict [(lit "error", PStr msg)].

(** [{'id': user[0], 'email': user[1], 'message': user[2]}] *)
Definition user_payload (user : Z * pystr * pystr) : pyval :=
  match user with
  | (id, e, m) =>
      PDict [(lit "id", PInt id); (lit "email", PStr e); (lit "message", PStr m)]
  end.

(** [_get_users(conn, parameters)] *)
Definition _get_users (parameters : gmap pystr pystr) : M unit :=
  let user_id := parameters !! lit "id" in
  if truthy user_id then
    let! result := db_execute (select_user sql_id_eq (default [] user_id)) in
    match result with
    | user :: _ => _send_response 200 (user_payload user)
    | [] => _send_response 404 (error_payload (lit "User not found"))
    end
  else
    let! users := db_execute select_users in
    _send_response 200
      (PDict [(lit "count", PInt (Z.of_nat (length users)));
              (lit "users", PList (map user_payload users))]).

(** [json.loads(body)] *)
Definition loads (body : pystr) : M json :=
  match json_loads body with
  | inr data => ret data
  | inl e => raise (Runtime (raised_by_loads e))
  end.

(** [except json.JSONDecodeError: raise ValueError("Invalid JSON format")];
    any other exception passes through. *)
Definition except_JSONDecodeError {A} (e : exn) : M A :=
  match e with
  | Runtime JSONDecodeError => raise (ValueError (lit "Invalid JSON format"))
  | _ => raise e
  end.

(** [_create_user(conn, body)] *)
Definition _create_user (body : option pystr) : M unit :=
  if negb (truthy body) then raise (ValueError (lit "Request body is empty"))
  else
    try_except
      (let! data := loads (default [] body) in
       let! present := lift (all_in [lit "email"; lit "password"; lit "message"] data) in
       if negb present then
         raise (ValueError (lit "Missing required fields: email, password, message"))
       else
         let! e := lift (getitem data (lit "email")) in
         let! p := lift (getitem data (lit "password")) in
         let! m := lift (getitem data (lit "message")) in
         let! user_id := db_execute (insert_user sqlite_real_text e p m) in
         _send_response 201
           (PDict [(lit "message", PStr (lit "User created successfully"));
                   (lit "user_id", PInt user_id)]))
      except_JSONDecodeError.

(** [_delete_user(conn, parameters)] *)
Definition _delete_user (parameters : gmap pystr pystr) : M unit :=
  let user_id := parameters !! lit "id" in
  if negb (truthy user_id) then raise (ValueError (lit "Missing user id parameter"))
  else
    let user_id := default [] user_id in
    let! _ := db_execute (delete_user sql_id_eq user_id) in
    _send_response 200
      (PDict [(lit "message", PStr (lit "User " ++ user_id ++ lit " deleted"))]).

(** [if key in data: updates.append(...); params.append(data[key])] *)
Definition collect (c : column) (key : pystr) (data : json)
    (sets : list (column * json)) : M (list (column * json)) :=
  let! present := lift (py_in key data) in
  if (present : bool) then
    let! v := lift (getitem data key) in
    ret (sets ++ [(c, v)])
  else ret sets.

(** [_update_user(conn, parameters, body)] *)
Definition _update_user (parameters : gmap pystr pystr) (body : option pystr)
  : M unit :=
  let user_id := parameters !! lit "id" in
  if negb (truthy user_id) then raise (ValueError (lit "Missing user id parameter"))
  else if negb (truthy body) then raise (ValueError (lit "Request body is empty"))
  else
    let user_id := default [] user_id in
    try_except
      (let! data := loads (default [] body) in
       let! sets := collect Email (lit "email") data [] in
       let! sets := collect Password (lit "password") data sets in
       let! sets := collect Message (lit "message") data sets in
       match sets with
       | [] => raise (ValueError (lit "No fields to update"))
       | _ =>
           let! _ := db_execute (update_user sqlite_real_text sql_id_eq sets user_id) in
           _send_response 200
             (PDict [(lit "message", PStr (lit "User " ++ user_id ++ lit " updated"))])
       end)
      except_JSONDecodeError.

(** The [try] block of [_handle_users]. *)
Definition users_dispatch (method : pystr) (parameters : gmap pystr pystr)
    (body : option pystr) : M unit :=
  if decide (method = lit "GET") then _get_users parameters
  else if decide (method = lit "POST") then _create_user body
  else if decide (method = lit "DELETE") then _delete_user parameters
  else if decide (method = lit "PATCH") then _update_user parameters body
  else _send_response 405 (error_payload (lit "Method not allowed")).

(** [_handle_users(conn, method, parameters, body)] *)
Definition _handle_users (method : pystr) (parameters : gmap pystr pystr)
    (body : option pystr) : M unit :=
  try_except (users_dispatch method parameters body)
    (fun e => _send_response 400 (error_payload (str_exn e))).

(** *** The about page *)

Definition version : pystr := lit "1.0".

Definition supported_paths : list (pystr * pystr) :=
  [(lit "/about", lit "Server information");
   (lit "/users", lit "User management endpoint")].

Definition supported_methods : list pystr :=
  [lit "GET"; lit "POST"; lit "DELETE"; lit "PATCH"].

Definition path_item (item : pystr * pystr) : pystr :=
  lit "<li><span class=" ++ [DQUOTE] ++ lit "path" ++ [DQUOTE] ++ lit ">"
  ++ fst item ++ lit "</span>: " ++ snd item ++ lit "</li>".

Definition method_item (method : pystr) : pystr :=
  lit "<li><span class=" ++ [DQUOTE] ++ lit "method" ++ [DQUOTE] ++ lit ">"
  ++ method ++ lit "</span></li>".

(** The lines of the f-string between its opening and closing quotes;
    [start_time] is [time.strftime("%Y-%m-%d %H:%M:%S")]. *)
Definition html_lines (start_time : pystr) : list pystr :=
  [ lit "        <!DOCTYPE html>";
    lit "        <html lang=" ++ [DQUOTE] ++ lit "en" ++ [DQUOTE] ++ lit ">";
    lit "        <head>";
    lit "            <meta charset=" ++ [DQUOTE] ++ lit "UTF-8" ++ [DQUOTE] ++ lit ">";
    lit "            <meta name=" ++ [DQUOTE] ++ lit "viewport" ++ [DQUOTE] ++ lit " content=" ++ [DQUOTE] ++ lit "width=device-width, initial-scale=1.0" ++ [DQUOTE] ++ lit ">";
    lit "            <title>About " ++ server_name ++ lit "</title>";
    lit "            <style>";
    lit "                body {";
    lit "                    font-family: Arial, sans-serif;";
    lit "                    line-height: 1.6;";
    lit "                    margin: 0;";
    lit "                    padding: 20px;";
    lit "                    color: #333;";
    lit "                }";
    lit "                .container {";
    lit "                    max-width: 800px;";
    lit "                    margin: 0 auto;";
    lit "                }";
    lit "                h1 {";
    lit "                    color: #2c3e50;";
    lit "                    border-bottom: 2px solid #3498db;";
    lit "                    padding-bottom: 10px;";
    lit "                }";
    lit "                .info-section {";
    lit "                    margin-bottom: 20px;";
    lit "                    background: #f9f9f9;";
    lit "                    padding: 15px;";
    lit "                    border-radius: 5px;";
    lit "                }";
    lit "                .info-section h2 {";
    lit "                    margin-top: 0;";
    lit "                    color: #3498db;";
    lit "                }";
    lit "                ul {";
    lit "                    list-style-type: none;";
    lit "                    padding: 0;";
    lit "                }";
    lit "                li {";
    lit "                    margin-bottom: 5px;";
    lit "                }";
    lit "                .path {";
    lit "                    font-weight: bold;";
    lit "                    color: #e74c3c;";
    lit "                }";
    lit "                .method {";
    lit "                    display: inline-block;";
    lit "                    padding: 2px 6px;";
    lit "                    background: #3498db;";
    lit "                    color: white;";
    lit "                    border-radius: 3px;";
    lit "                    margin-right: 5px;";
    lit "                    font-size: 0.8em;";
    lit "                }";
    lit "            </style>";
    lit "        </head>";
    lit "        <body>";
    lit "            <div class=" ++ [DQUOTE] ++ lit "container" ++ [DQUOTE] ++ lit ">";
    lit "                <h1>" ++ server_name ++ lit "</h1>";
    [];
    lit "                <div class=" ++ [DQUOTE] ++ lit "info-section" ++ [DQUOTE] ++ lit ">";
    lit "                    <h2>Server Information</h2>";
    lit "                    <p><strong>Version:</strong> " ++ version ++ lit "</p>";
    lit "                    <p><strong>Started at:</strong> " ++ start_time ++ lit "</p>";
    lit "                </div>";
    [];
    lit "                <div class=" ++ [DQUOTE] ++ lit "info-section" ++ [DQUOTE] ++ lit ">";
    lit "                    <h2>Supported Paths</h2>";
    lit "                    <ul>";
    lit "                        " ++ concat (map path_item supported_paths);
    lit "                    </ul>";
    lit "                </div>";
    [];
    lit "                <div class=" ++ [DQUOTE] ++ lit "info-section" ++ [DQUOTE] ++ lit ">";
    lit "                    <h2>Supported Methods</h2>";
    lit "                    <ul>";
    lit "                        " ++ concat (map method_item supported_methods);
    lit "                    </ul>";
    lit "                </div>";
    lit "            </div>";
    lit "        </body>";
    lit "        </html>" ].

Definition html_content (start_time : pystr) : pystr :=
  join [LF] ([] :: html_lines start_time ++ [lit "        "]).

(** [_about(conn)] *)
Definition _about (start_time : pystr) : M unit :=
  let html_content := html_content start_time in
  let headers :=
    lit "HTTP/1.1 200 OK" ++ CRLF
    ++ lit "Content-Type: text/html" ++ CRLF
    ++ lit "Content-Length: " ++ str_int (len html_content) ++ CRLF
    ++ CRLF in
  let! h := encode headers in
  let! b := encode html_content in
  sendall (h ++ b).

(** *** [handle_client] *)

(** Lines 99 to 104: the routing on the path. *)
Definition route (start_time : pystr) (r : request) : M unit :=
  if decide (req_path r = lit "/about") then _about start_time
  else if decide (req_path r = lit "/users") then
    _handle_users (req_method r) (req_parameters r) (req_body r)
  else _send_response 404 (error_payload (lit "Path not found")).

(** The [try] block of [handle_client]; [raw_request] is what
    [conn.recv(8192)] returned and [start_time] the clock reading the
    about page would show. *)
Definition handle_request (start_time : pystr) (raw_request : pybytes) : M unit :=
  match raw_request with
  | [] => ret tt
  | _ =>
      let! r := lift (parse_request raw_request) in
      route start_time r
  end.

(** [handle_client(conn)]: the [try] block, the catch-all that answers 500
    and the [finally] that closes the socket.  The left component tells
    whether an exception left the function. *)
Definition handle_client (start_time : pystr) (raw_request : pybytes)
  : world -> (exn + unit) * world :=
  fun w =>
    match try_except (handle_request start_time raw_request)
            (fun e => _send_response 500 (error_payload (lit "Internal server error")))
            w with
    | (r, w') => (r, close w')
    end.

End Server.

(** ** Concrete stand-ins for the library functions

    The server is stated over any [json.loads], any float-to-text
    conversion, any id comparison and any message table.  The instances
    below make the examples run: a reader for JSON without floats and
    without [\u] escapes, which refuses an integer literal beyond the
    digit limit as [int()] does and does not bound the nesting, and the
    comparison of an id with the decimal numeral the text spells. *)

Module Sample.

Definition is_json_ws (c : N) : bool :=
  ((c =? 32) || (c =? 9) || (c =? 10) || (c =? 13))%N.

Fixpoint skip_ws (s : pystr) : pystr :=
  match s with
  | c :: r => if is_json_ws c then skip_ws r else s
  | [] => []
  end.

Definition unescape (c : N) : option N :=
  (if c =? 34 then Some 34 else if c =? 92 then Some 92
   else if c =? 47 then Some 47 else if c =? 98 then Some 8
   else if c =? 102 then Some 12 else if c =? 110 then Some 10
   else if c =? 114 then Some 13 else if c =? 116 then Some 9
   else None)%N.

(** The characters of a string literal after its opening quote. *)
Fixpoint string_body (acc : pystr) (s : pystr) : option (pystr * pystr) :=
  match s with
  | [] => None
  | c :: r =>
      (if c =? 34 then Some (rev acc, r)
       else if c =? 92 then
         match r with
         | e :: r' =>
             match unescape e with
             | Some x => string_body (x :: acc) r'
             | None => None
             end
         | [] => None
         end
       else if c <? 32 then None
       else string_body (c :: acc) r)%N
  end.

Definition is_digit (c : N) : bool := ((48 <=? c) && (c <=? 57))%N.

Fixpoint digits (acc : Z) (s : pystr) : Z * pystr :=
  match s with
  | c :: r => if is_digit c then digits (10 * acc + Z.of_N (c - 48)) r else (acc, s)
  | [] => (acc, [])
  end.

Definition starts_with (p : N -> bool) (s : pystr) : bool :=
  match s with c :: _ => p c | [] => false end.

(** [sys.get_int_max_str_digits()] of CPython 3.11. *)
Definition max_str_digits : nat := 4300.

(** An integer literal: digits without a superfluous leading zero, not
    followed by a fraction or an exponent; [int()] refuses a literal of
    more than [max_str_digits] digits. *)
Definition unsigned_int (s : pystr) : loads_error + (Z * pystr) :=
  match s with
  | c :: r =>
      if negb (is_digit c) then inl NotJSON
      else if (c =? 48)%N && starts_with is_digit r then inl NotJSON
      else
        let '(z, rest) := digits 0 s in
        if starts_with (fun d => (d =? 46) || (d =? 101) || (d =? 69))%N rest
        then inl NotJSON
        else if (max_str_digits <? length s - length rest)%nat
        then inl TooManyDigits
        else inr (z, rest)
  | [] => inl NotJSON
  end.

(** One JSON value at the head of [s], and the text after it. *)
Fixpoint value (fuel : nat) (s : pystr) : loads_error + (json * pystr) :=
  match fuel with
  | O => inl NotJSON
  | S fuel' =>
      match skip_ws s with
      | [] => inl NotJSON
      | c :: r =>
          (if c =? 123 then
             match skip_ws r with
             | 125 :: r' => inr (JObj [], r')
             | _ => members fuel' [] r
             end
           else if c =? 91 then
             match skip_ws r with
             | 93 :: r' => inr (JArr [], r')
             | _ => elements fuel' [] r
             end
           else if c =? 34 then
             match string_body [] r with
             | Some (t, r') => inr (JStr t, r')
             | None => inl NotJSON
             end
           else if c =? 45 then
             match unsigned_int r with
             | inr (z, r') => inr (JInt (- z), r')
             | inl e => inl e
             end
           else
             match strip_prefix (lit "true") (c :: r),
                   strip_prefix (lit "false") (c :: r),
                   strip_prefix (lit "null") (c :: r) with
             | Some r', _, _ => inr (JBool true, r')
             | _, Some r', _ => inr (JBool false, r')
             | _, _, Some r' => inr (JNull, r')
             | _, _, _ =>
                 match unsigned_int (c :: r) with
                 | inr (z, r') => inr (JInt z, r')
                 | inl e => inl e
                 end
             end)%N
      end
  end

(** The members of an object after [{] or [,]; the latest binding of a
    key goes first, so that it is the one a lookup finds. *)
with members (fuel : nat) (acc : list (pystr * json)) (s : pystr)
  : loads_error + (json * pystr) :=
  match fuel with
  | O => inl NotJSON
  | S fuel' =>
      match skip_ws s with
      | 34%N :: r =>
          match string_body [] r with
          | Some (k, r1) =>
              match skip_ws r1 with
              | 58%N :: r2 =>
                  match value fuel' r2 with
                  | inr (v, r3) =>
                      match skip_ws r3 with
                      | 44%N :: r4 => members fuel' ((k, v) :: acc) r4
                      | 125%N :: r4 => inr (JObj ((k, v) :: acc), r4)
                      | _ => inl NotJSON
                      end
                  | inl e => inl e
                  end
              | _ => inl NotJSON
              end
          | None => inl NotJSON
          end
      | _ => inl NotJSON
      end
  end

(** The elements of an array after [[] or [,]. *)
with elements (fuel : nat) (acc : list json) (s : pystr)
  : loads_error + (json * pystr) :=
  match fuel with
  | O => inl NotJSON
  | S fuel' =>
      match value fuel' s with
      | inr (v, r) =>
          match skip_ws r with
          | 44%N :: r' => elements fuel' (v :: acc) r'
          | 93%N :: r' => inr (JArr (rev (v :: acc)), r')
          | _ => inl NotJSON
          end
      | inl e => inl e
      end
  end.

(** The whole text must be one value between optional blanks. *)
Definition json_loads (body : pystr) : loads_error + json :=
  match value (S (length body)) body with
  | inr (v, rest) => match skip_ws rest with [] => inr v | _ => inl NotJSON end
  | inl e => inl e
  end.

(** Floats do not occur in the examples. *)
Definition sqlite_real_text (bits : N) : option pystr := None.

Definition to_string (s : pystr) : string :=
  string_of_list_ascii (map ascii_of_N s).

(** The id equals the integer a plain decimal numeral spells. *)
Definition sql_id_eq (text : pystr) (id : Z) : bool :=
  match NilZero.int_of_string (to_string text) with
  | Some d => Z.of_int d =? id
  | None => false
  end.

(** Messages in the style of CPython and SQLite; nothing below depends on
    their wording. *)
Definition runtime_message (e : runtime_error) : pystr :=
  match e with
  | UnicodeDecodeError => lit "'utf-8' codec can't decode bytes"
  | UnicodeEncodeError => lit "'utf-8' codec can't encode characters"
  | UnpackError => lit "not enough values to unpack"
  | DictUpdateError => lit "dictionary update sequence element has length 3; 2 is required"
  | JSONDecodeError => lit "Expecting value"
  | RecursionError => lit "maximum recursion depth exceeded while decoding a JSON array from a unicode string"
  | DigitLimitError => lit "Exceeds the limit (4300 digits) for integer string conversion"
  | NotContainer => lit "argument is not iterable"
  | BadSubscript => lit "indices must be integers"
  | KeyError => lit "key"
  | BindOverflow => lit "Python int too large to convert to SQLite INTEGER"
  | BindEncode => lit "'utf-8' codec can't encode characters: surrogates not allowed"
  | BindUnsupported => lit "Error binding parameter: type is not supported"
  | NotNullFailed Email => lit "NOT NULL constraint failed: users.email"
  | NotNullFailed Password => lit "NOT NULL constraint failed: users.password"
  | NotNullFailed Message => lit "NOT NULL constraint failed: users.message"
  | DatabaseFull => lit "database or disk is full"
  | OperationalError _ => lit "unable to open database file"
  | SocketError _ => lit "[Errno 32] Broken pipe"
  end.

(** The name given in [__main__]. *)
Definition server_name : pystr := lit "User Management Server".

(** A text literal in which an apostrophe stands for a double quote. *)
Definition dq (x : string) : pystr :=
  map (fun c => if (c =? 39)%N then DQUOTE else c) (lit x).

(** A raw request from its lines. *)
Definition raw (lines : list pystr) : pybytes := ascii_bytes (join CRLF lines).

Definition empty_db : database := mk_database [] 0 [].

Definition fresh (d : database) : world := mk_world [] false d.

(** The server on one connection [w]. *)
Definition client (request : list pystr) (w : world) : (exn + unit) * world :=
  handle_client json_loads sqlite_real_text sql_id_eq runtime_message
    server_name (lit "2024-01-01 00:00:00") (raw request) w.

(** The /users dispatcher with the stand-ins. *)
Definition users_endpoint (method : pystr) (parameters : gmap pystr pystr)
    (body : option pystr) (w : world) : (exn + unit) * world :=
  _handle_users json_loads sqlite_real_text sql_id_eq runtime_message
    method parameters body w.

(** *** Requests and tables of the worked cases *)

Definition json_ok : pystr := dq "{'email': 'a@b.com', 'password': 'x', 'message': 'hi'}".
Definition json_null_email : pystr := dq "{'email': null, 'password': 'x', 'message': 'hi'}".
Definition json_number_email : pystr := dq "{'email': 5, 'password': 'x', 'message': 'hi'}".

Definition request_to (first_line : string) (body : pystr) : list pystr :=
  [lit first_line; lit "Host: localhost"; []; body].

Definition parsed (method path : string) (parameters : gmap pystr pystr)
    (body : pystr) : request :=
  mk_request (lit method) (lit path) parameters (Some body)
    {[ lit "Host" := lit "localhost" ]}.

Definition alice : user := mk_user 1 (lit "a@b.com") (lit "x") (lit "hi").
Definition one_user : database := mk_database [alice] 1 [].
Definition failing_db : database := mk_database [alice] 1 [Some 14%N].

(** The scenario of the specification. *)
Definition scenario : list (list pystr) :=
  [request_to "POST /users HTTP/1.1" json_ok;
   request_to "GET /users?id=1 HTTP/1.1" [];
   request_to "PATCH /users?id=1 HTTP/1.1" (dq "{'message': 'bye'}");
   request_to "GET /users?id=1 HTTP/1.1" [];
   request_to "DELETE /users?id=1 HTTP/1.1" [];
   request_to "GET /users?id=1 HTTP/1.1" []].

(** One connection per request, on the datastore the previous one left. *)
Fixpoint run (requests : list (list pystr)) (d : database)
  : list (list pybytes) :=
  match requests with
  | [] => []
  | request :: rest =>
      let w := snd (client request (fresh d)) in
      sent w :: run rest (store w)
  end.

End Sample.

(** ** Vocabulary of the statements *)

(** What leaves [_create_user] and [_update_user] when [json.loads]
    raises: [except json.JSONDecodeError] turns that one error into
    [ValueError("Invalid JSON format")] and lets any other pass. *)
Definition refused_body (err : loads_error) : exn :=
  match err with
  | NotJSON => ValueError (lit "Invalid JSON format")
  | TooDeep | TooManyDigits => Runtime (raised_by_loads err)
  end.

(** The error text of the answer to a body [json.loads] refuses:
    [str(e)] of that exception. *)
Definition refusal_text (runtime_message : runtime_error -> pystr)
    (err : loads_error) : pystr :=
  match err with
  | NotJSON => lit "Invalid JSON format"
  | TooDeep => runtime_message RecursionError
  | TooManyDigits => runtime_message DigitLimitError
  end.

(** The header block [_send_response] writes for a status and a body of
    [n] bytes. *)
Definition json_head (status_code : Z) (n : Z) : pystr :=
  lit "HTTP/1.1 " ++ str_int status_code ++ CRLF
  ++ lit "Content-Type: application/json" ++ CRLF
  ++ lit "Content-Length: " ++ str_int n ++ CRLF
  ++ CRLF.

(** The envelope [{'status_code': ..., 'data': ...}] as JSON text. *)
Definition envelope (status_code : Z) (content : pyval) : pystr :=
  json_dumps (PDict [(lit "status_code", PInt status_code); (lit "data", content)]).

(** The bytes of a JSON response with the given status and payload. *)
Definition json_reply (status_code : Z) (content : pyval) : pybytes :=
  ascii_bytes (json_head status_code (len (envelope status_code content)))
  ++ ascii_bytes (envelope status_code content).

(** The world after one more [sendall]. *)
Definition after_send (data : pybytes) (w : world) : world :=
  mk_world (sent w ++ [data]) (closed w) (store w).

(** The world with another datastore. *)
Definition with_store (d : database) (w : world) : world :=
  mk_world (sent w) (closed w) d.

(** The file does not fail the coming call. *)
Definition ready (d : database) : bool :=
  match faults d with
  | Some _ :: _ => false
  | _ => true
  end.

(** The datastore after a call that left the table as it was. *)
Definition served (d : database) : database :=
  mk_database (users d) (sequence d) (tl (faults d)).

(** The rows a comparison [id = ?] selects. *)
Definition matching (sql_id_eq : pystr -> Z -> bool) (id : pystr)
    (rows : list user) : list user :=
  List.filter (fun u => sql_id_eq id (user_id u)) rows.

(** A text that has a UTF-8 form: no surrogate, nothing beyond U+10FFFF. *)
Definition encodable (s : pystr) : Prop :=
  Forall (fun c => utf8_encode_char c <> None) s.

(** One [&]-separated piece of a query string with at most one [=]:
    a text without [=], or a key and a value around one [=]. *)
Inductive piece :=
| Bare (t : pystr)
| Pair (k v : pystr).

Definition piece_text (p : piece) : pystr :=
  match p with
  | Bare t => t
  | Pair k v => k ++ lit "=" ++ v
  end.

(** Neither [&] nor [=] occurs. *)
Definition plain (t : pystr) : Prop :=
  Forall (fun c => c <> 38%N /\ c <> 61%N) t.

Definition piece_ok (p : piece) : Prop :=
  match p with
  | Bare t => plain t
  | Pair k v => plain k /\ plain v
  end.

(** What a piece contributes to the parameters. *)
Definition record_piece (d : gmap pystr pystr) (p : piece) : gmap pystr pystr :=
  match p with
  | Bare _ => d
  | Pair k v => <[k := v]> d
  end.

(** How a handler can fail: before the datastore is called, with the
    world as it was, or in the datastore call, with nothing sent and the
    table as it was. *)
Definition fails_cleanly (m : M unit) : Prop :=
  forall w e w1,
    m w = (inl e, w1) ->
    (is_storage_error e = false /\ w1 = w)
    \/ (is_storage_error e = true /\ w1 = with_store (served (store w)) w).

(** Two datastores that differ at most in the password column. *)
Definition same_public (d1 d2 : database) : Prop :=
  map public (users d1) = map public (users d2)
  /\ sequence d1 = sequence d2
  /\ faults d1 = faults d2.

(** Two worlds an observer of the socket cannot tell apart and whose
    tables differ at most in the passwords. *)
Definition same_view (w1 w2 : world) : Prop :=
  sent w1 = sent w2 /\ closed w1 = closed w2
  /\ same_public (store w1) (store w2).

(** A computation whose outcome and whose writes do not depend on the
    stored passwords. *)
Definition blind {A} (m : M A) : Prop :=
  forall w1 w2,
    same_view w1 w2 ->
    fst (m w1) = fst (m w2) /\ same_view (snd (m w1)) (snd (m w2)).

(** The same for a statement. *)
Definition blind_statement {A} (stmt : statement A) : Prop :=
  forall rows1 rows2 seq,
    map public rows1 = map public rows2 ->
    match stmt rows1 seq, stmt rows2 seq with
    | inl e1, inl e2 => e1 = e2
    | inr (a1, r1, s1), inr (a2, r2, s2) =>
        a1 = a2 /\ map public r1 = map public r2 /\ s1 = s2
    | _, _ => False
    end.

(** The connection of the next client on the same datastore. *)
Definition next_connection (w : world) : world := mk_world [] false (store w).

(** No carriage return occurs. *)
Definition no_CR (t : pystr) : Prop := Forall (fun c => c <> CR) t.

(** A header line: not empty and without carriage return. *)
Definition header_line_ok (h : pystr) : Prop := h <> [] /\ no_CR h.

(** The text of a request: the first line and the header lines, each
    ended by CRLF, then, when there is a body, the blank line and the
    body. *)
Definition frame (first_line : pystr) (header_lines : list pystr)
    (body : option pystr) : pystr :=
  join CRLF (first_line :: header_lines)
  ++ match body with
     | Some b => CRLF ++ CRLF ++ b
     | None => []
     end.

(** Two parsed requests that differ at most in [headers_dict]. *)
Definition same_request (r1 r2 : request) : Prop :=
  req_method r1 = req_method r2 /\ req_path r1 = req_path r2
  /\ req_parameters r1 = req_parameters r2 /\ req_body r1 = req_body r2.

(** A field of a fetched record equals the value that was submitted. *)
Definition agrees (submitted : json) (fetched : pyval) : Prop :=
  match submitted, fetched with
  | JInt z, PInt z' => z = z'
  | JStr t, PStr t' => t = t'
  | _, _ => False
  end.

(** The query string [id=7&debug&id=8&q=] in pieces. *)
Definition sample_pieces : list piece :=
  [Pair (lit "id") (lit "7"); Bare (lit "debug"); Pair (lit "id") (lit "8");
   Pair (lit "q") []].

(** The invariant AUTOINCREMENT maintains: no row has an id beyond the
    largest one handed out. *)
Definition ids_bounded (d : database) : Prop :=
  Forall (fun u => user_id u <= sequence d) (users d).

(** A statement keeps the invariant when its new rows and sequence do. *)
Definition statement_keeps_ids {A} (stmt : statement A) : Prop :=
  forall rows seq a rows' seq',
    Forall (fun u => user_id u <= seq) rows ->
    stmt rows seq = inr (a, rows', seq') ->
    Forall (fun u => user_id u <= seq') rows'.

(** A computation that keeps the invariant of the datastore. *)
Definition keeps_ids {A} (m : M A) : Prop :=
  forall w, ids_bounded (store w) -> ids_bounded (store (snd (m w))).

(** What a computation writes to the socket: nothing when it raises
    and, when it returns, exactly one [sendall], of bytes that satisfy
    [P].  It does not close the socket. *)
Definition sends {A} (P : pybytes -> Prop) (m : M A) : Prop :=
  forall w,
    match m w with
    | (inl _, w') => sent w' = sent w /\ closed w' = closed w
    | (inr _, w') =>
        (exists data, P data /\ sent w' = sent w ++ [data])
        /\ closed w' = closed w
    end.

(** A computation that leaves the socket alone. *)
Definition silent {A} (m : M A) : Prop :=
  forall w, sent (snd (m w)) = sent w /\ closed (snd (m w)) = closed w.

(** The bytes are a JSON response whose status satisfies [S]. *)
Definition json_status (S : Z -> Prop) (data : pybytes) : Prop :=
  exists status_code content, S status_code /\ data = json_reply status_code content.

(** The statuses the /users dispatcher answers with. *)
Definition users_status (status_code : Z) : Prop :=
  In status_code [200; 201; 400; 404; 405].

(** What one request can do to the table: nothing, append one row whose
    id is the next of the sequence, remove rows, or rewrite rows in place
    without touching an id. *)
Inductive table_effect (rows : list user) (seq : Z) : list user -> Z -> Prop :=
| Unchanged : table_effect rows seq rows seq
| Inserted (u : user) :
    user_id u = seq + 1 -> table_effect rows seq (rows ++ [u]) (seq + 1)
| Deleted (keep : user -> bool) :
    table_effect rows seq (List.filter keep rows) seq
| Updated (rows' : list user) :
    map user_id rows' = map user_id rows -> table_effect rows seq rows' seq.

(** The table and the sequence are as before. *)
Definition no_effect (rows : list user) (seq : Z) (rows' : list user) (seq' : Z)
  : Prop :=
  rows' = rows /\ seq' = seq.

(** A computation that calls the datastore at most once, with an effect
    on the table described by [E]: the datastore is as before, or one
    call failed and left the table alone, or one call went through. *)
Definition touches (E : list user -> Z -> list user -> Z -> Prop) {A}
    (m : M A) : Prop :=
  forall w,
    store (snd (m w)) = store w
    \/ store (snd (m w)) = served (store w)
    \/ (faults (store (snd (m w))) = tl (faults (store w))
        /\ E (users (store w)) (sequence (store w))
             (users (store (snd (m w)))) (sequence (store (snd (m w))))).

(** A computation that does not call the datastore. *)
Definition spares {A} (m : M A) : Prop :=
  forall w, store (snd (m w)) = store w.

(** The effect of a statement that goes through. *)
Definition statement_effect (E : list user -> Z -> list user -> Z -> Prop) {A}
    (stmt : statement A) : Prop :=
  forall rows seq a rows' seq',
    stmt rows seq = inr (a, rows', seq') -> E rows seq rows' seq'.

(** No two rows share an id. *)
Definition ids_unique (d : database) : Prop := NoDup (map user_id (users d)).




(** The assignments [_update_user] collects from a JSON object. *)
Definition supplied (items : list (pystr * json)) : list (column * json) :=
  (match lookup_item (lit "email") items with
   | Some v => [(Email, v)]
   | None => []
   end
   ++ match lookup_item (lit "password") items with
      | Some v => [(Password, v)]
      | None => []
      end)
  ++ match lookup_item (lit "message") items with
     | Some v => [(Message, v)]
     | None => []
     end.

(** A token of the request line: not empty and without a blank
    character. *)
Definition token (t : pystr) : Prop :=
  t <> [] /\ Forall (fun c => isspace c = false) t.

(** The request line: method, target and version with one space between
    them. *)
Definition request_line (method target version : pystr) : pystr :=
  method ++ lit " " ++ target ++ lit " " ++ version.

(** How often a character occurs in a text. *)
Definition occurrences (c : N) (s : pystr) : nat := count_occ N.eq_dec s c.

(** A line of the header block: a field, written [key: value], or a line
    without [": "]. *)
Inductive header_line :=
| Field (key value : pystr)
| Loose (t : pystr).

Definition header_text (h : header_line) : pystr :=
  match h with
  | Field key value => key ++ lit ": " ++ value
  | Loose t => t
  end.

(** The line is not empty and has no carriage return; the key of a field
    has no colon, and a loose line has no [": "]. *)
Definition header_ok (h : header_line) : Prop :=
  header_line_ok (header_text h)
  /\ match h with
     | Field key _ => Forall (fun c => c <> 58%N) key
     | Loose t => contains (lit ": ") t = false
     end.

(** What a line contributes to [headers_dict]. *)
Definition record_header (d : gmap pystr pystr) (h : header_line)
  : gmap pystr pystr :=
  match h with
  | Field key value => <[key := value]> d
  | Loose _ => d
  end.

(** The head of the about page for a declared length [n]. *)
Definition about_head (n : Z) : pystr :=
  lit "HTTP/1.1 200 OK" ++ CRLF
  ++ lit "Content-Type: text/html" ++ CRLF
  ++ lit "Content-Length: " ++ str_int n ++ CRLF
  ++ CRLF.

(** The bytes the UTF-8 form of a character takes beyond the first. *)
Definition extra_bytes (c : N) : nat :=
  if (c <? 128)%N then 0%nat
  else if (c <? 2048)%N then 1%nat
  else if (c <? 65536)%N then 2%nat
  else 3%nat.

(** The bytes the UTF-8 form of a text takes beyond one per character. *)
Definition excess (s : pystr) : nat := list_sum (map extra_bytes s).

(** Requests served one after another, each on a connection of its own
    and on the datastore the previous one left: what each client
    received, and the datastore at the end. *)
Fixpoint one_after_another {R} (serve : R -> world -> (exn + unit) * world)
    (requests : list R) (d : database) : list (list pybytes) * database :=
  match requests with
  | [] => ([], d)
  | request :: rest =>
      let w := snd (serve request (mk_world [] false d)) in
      let '(replies, d') := one_after_another serve rest (store w) in
      (sent w :: replies, d')
  end.

(** ** Text lemmas *)

Section TextFacts.

Lemma is_ascii_app s t : is_ascii (s ++ t) = is_ascii s && is_ascii t.
Proof. unfold is_ascii. apply forallb_app. Qed.

Lemma is_ascii_concat (l : list pystr) :
  Forall (fun s => is_ascii s = true) l -> is_ascii (concat l) = true.
Proof.
  induction 1 as [|s l Hs _ IH]; simpl; [reflexivity|].
  rewrite is_ascii_app, Hs, IH. reflexivity.
Qed.

Lemma is_ascii_join sep (l : list pystr) :
  is_ascii sep = true ->
  Forall (fun s => is_ascii s = true) l -> is_ascii (join sep l) = true.
Proof.
  intros Hsep. induction 1 as [|s l Hs Hl IH]; [reflexivity|].
  destruct l as [|t l']; [exact Hs|].
  change (join sep (s :: t :: l')) with (s ++ sep ++ join sep (t :: l')).
  rewrite !is_ascii_app, Hs, Hsep, IH. reflexivity.
Qed.

Lemma utf8_encode_ascii s :
  is_ascii s = true -> utf8_encode s = Some (ascii_bytes s).
Proof.
  induction s as [|c s IH]; simpl; [reflexivity|].
  intros H. apply andb_prop in H as [Hc Hs].
  unfold utf8_encode_char. rewrite Hc, (IH Hs). reflexivity.
Qed.

Lemma ascii_bytes_length s : length (ascii_bytes s) = length s.
Proof. apply length_map. Qed.

Lemma uint_ascii (d : Decimal.uint) :
  is_ascii (lit (NilEmpty.string_of_uint d)) = true.
Proof. induction d; simpl; auto. Qed.

Lemma str_int_ascii z : is_ascii (str_int z) = true.
Proof.
  unfold str_int.
  destruct (Z.to_int z) as [d|d]; simpl;
    destruct d; simpl; try reflexivity; apply uint_ascii.
Qed.

Lemma hex_digit_ascii n : (n < 16)%N -> (hex_digit n <? 128)%N = true.
Proof.
  intros H. unfold hex_digit. destruct (n <? 10)%N eqn:E; apply N.ltb_lt; lia.
Qed.

Lemma hex4_ascii n : is_ascii (hex4 n) = true.
Proof.
  unfold hex4, is_ascii. simpl.
  rewrite !hex_digit_ascii; [reflexivity|..]; apply N.mod_lt; discriminate.
Qed.

Lemma escape_char_ascii c : is_ascii (escape_char c) = true.
Proof.
  unfold escape_char.
  repeat match goal with
         | |- context [if ?b then _ else _] => destruct b eqn:?
         end; try reflexivity.
  - apply andb_prop in Heqb6 as [_ H]. simpl. rewrite andb_true_r.
    apply N.leb_le in H. apply N.ltb_lt. lia.
  - simpl. apply hex4_ascii.
  - cbv zeta. rewrite !is_ascii_app, !hex4_ascii. reflexivity.
Qed.

Lemma encode_basestring_ascii_ascii s :
  is_ascii (encode_basestring_ascii s) = true.
Proof.
  unfold encode_basestring_ascii. rewrite !is_ascii_app.
  rewrite is_ascii_concat; [reflexivity|].
  apply List.Forall_forall. intros x Hx. apply List.in_map_iff in Hx as [c [<- _]].
  apply escape_char_ascii.
Qed.

(** Induction on a payload through its lists and dictionaries. *)
Lemma pyval_nested_ind (P : pyval -> Prop) :
  (forall z, P (PInt z)) ->
  (forall s, P (PStr s)) ->
  (forall l, Forall P l -> P (PList l)) ->
  (forall items, Forall (fun kv => P (snd kv)) items -> P (PDict items)) ->
  forall v, P v.
Proof.
  intros HI HS HL HD. fix IH 1. intros [z|s|l|items].
  - apply HI.
  - apply HS.
  - apply HL. induction l as [|x l IHl]; constructor; [apply IH | exact IHl].
  - apply HD. induction items as [|[k x] items IHl]; constructor;
      [apply IH | exact IHl].
Qed.

(** [json.dumps] escapes whatever is not printable ASCII. *)
Lemma json_dumps_ascii v : is_ascii (json_dumps v) = true.
Proof.
  induction v as [z|s|l IHl|items IHl] using pyval_nested_ind; cbn [json_dumps].
  - apply str_int_ascii.
  - apply encode_basestring_ascii_ascii.
  - rewrite !is_ascii_app. rewrite is_ascii_join; [reflexivity..|].
    apply List.Forall_forall. intros x Hx. apply List.in_map_iff in Hx as [y [<- Hy]].
    rewrite List.Forall_forall in IHl. apply IHl. exact Hy.
  - rewrite !is_ascii_app. rewrite is_ascii_join; [reflexivity..|].
    apply List.Forall_forall. intros x Hx. apply List.in_map_iff in Hx as [[k y] [<- Hy]].
    rewrite List.Forall_forall in IHl. specialize (IHl _ Hy). simpl in IHl.
    rewrite !is_ascii_app, encode_basestring_ascii_ascii, IHl. reflexivity.
Qed.

Lemma json_head_ascii status_code n : is_ascii (json_head status_code n) = true.
Proof.
  unfold json_head. rewrite !is_ascii_app, !str_int_ascii. reflexivity.
Qed.

End TextFacts.

(** ** Splitting *)

Section SplitFacts.

Lemma strip_prefix_app p s r : strip_prefix p s = Some r -> s = p ++ r.
Proof.
  revert s. induction p as [|a p IH]; intros s; simpl.
  - intros [= ->]. reflexivity.
  - destruct s as [|b s]; [discriminate|].
    destruct (N.eqb_spec a b) as [->|]; [|discriminate].
    intros H. rewrite (IH _ H). reflexivity.
Qed.

Lemma strip_prefix_self p r : strip_prefix p (p ++ r) = Some r.
Proof. induction p as [|a p IH]; simpl; [reflexivity|]. rewrite N.eqb_refl. exact IH. Qed.

Lemma strip_prefix_head c sep x s :
  x <> c -> strip_prefix (c :: sep) (x :: s) = None.
Proof. intros H. simpl. destruct (N.eqb_spec c x); congruence. Qed.

(** The cut found by [partition_at] splits the text around the separator. *)
Lemma partition_at_app sep s a b :
  partition_at sep s = Some (a, b) -> s = a ++ sep ++ b.
Proof.
  revert a b. induction s as [|c s IH]; intros a b; simpl.
  - destruct (strip_prefix sep []) eqn:E; [|discriminate].
    intros [= <- <-]. apply strip_prefix_app in E. exact E.
  - destruct (strip_prefix sep (c :: s)) eqn:E.
    + intros [= <- <-]. apply strip_prefix_app in E. exact E.
    + destruct (partition_at sep s) as [[a' b']|] eqn:E'; [|discriminate].
      intros [= <- <-]. rewrite (IH _ _ eq_refl). reflexivity.
Qed.

Lemma partition_at_cons sep c s :
  strip_prefix sep (c :: s) = None ->
  partition_at sep (c :: s)
  = match partition_at sep s with
    | Some (a, b) => Some (c :: a, b)
    | None => None
    end.
Proof. intros H. simpl. rewrite H. reflexivity. Qed.

(** A stretch without the first character of the separator is skipped. *)
Lemma partition_at_skip c sep l s :
  Forall (fun x => x <> c) l ->
  partition_at (c :: sep) (l ++ s)
  = match partition_at (c :: sep) s with
    | Some (a, b) => Some (l ++ a, b)
    | None => None
    end.
Proof.
  induction 1 as [|x l Hx _ IH].
  - simpl app. destruct (partition_at (c :: sep) s) as [[a b]|]; reflexivity.
  - change ((x :: l) ++ s) with (x :: (l ++ s)).
    rewrite partition_at_cons by (apply strip_prefix_head; exact Hx).
    rewrite IH. destruct (partition_at (c :: sep) s) as [[a b]|]; reflexivity.
Qed.

Lemma partition_at_here sep b : partition_at sep (sep ++ b) = Some ([], b).
Proof.
  destruct (sep ++ b) as [|c s] eqn:E; simpl; rewrite <- E, strip_prefix_self; reflexivity.
Qed.

Lemma partition_at_free c sep a b :
  Forall (fun x => x <> c) a ->
  partition_at (c :: sep) (a ++ (c :: sep) ++ b) = Some (a, b).
Proof.
  intros H. rewrite (partition_at_skip _ _ _ _ H), partition_at_here, app_nil_r.
  reflexivity.
Qed.

Lemma partition_at_absent c sep s :
  Forall (fun x => x <> c) s -> partition_at (c :: sep) s = None.
Proof.
  intros H. rewrite <- (app_nil_r s), (partition_at_skip _ _ _ _ H). reflexivity.
Qed.

Lemma split_fuel_enough sep s n m :
  sep <> [] -> (length s <= n)%nat -> (length s <= m)%nat ->
  split_fuel n sep s = split_fuel m sep s.
Proof.
  intros Hsep. revert s m. induction n as [|n IH]; intros s m Hn Hm.
  - destruct s; [|simpl in Hn; lia]. destruct m; simpl; [reflexivity|].
    destruct (strip_prefix sep []) eqn:E; [|reflexivity].
    apply strip_prefix_app in E. destruct sep; [congruence|discriminate].
  - simpl. destruct (partition_at sep s) as [[a b]|] eqn:E.
    + pose proof (partition_at_app _ _ _ _ E) as Hs.
      assert (length b < length s)%nat as Hb.
      { rewrite Hs, !length_app. destruct sep; [congruence|]. simpl. lia. }
      destruct m as [|m]; [lia|]. simpl. rewrite E. f_equal.
      apply IH; lia.
    + destruct m; simpl; [reflexivity|]. rewrite E. reflexivity.
Qed.

Lemma split_cut sep s a b :
  sep <> [] -> partition_at sep s = Some (a, b) ->
  split sep s = a :: split sep b.
Proof.
  intros Hsep E. unfold split.
  pose proof (partition_at_app _ _ _ _ E) as Hs.
  assert (length b < length s)%nat as Hb.
  { rewrite Hs, !length_app. destruct sep; [congruence|]. simpl. lia. }
  destruct (length s) as [|n] eqn:Hn; [lia|]. simpl. rewrite E. f_equal.
  apply split_fuel_enough; [exact Hsep|lia|lia].
Qed.

Lemma split_whole sep s : partition_at sep s = None -> split sep s = [s].
Proof. intros E. unfold split. destruct (length s); simpl; [|rewrite E]; reflexivity. Qed.

Lemma join_cons sep p q rest :
  join sep (p :: q :: rest) = p ++ sep ++ join sep (q :: rest).
Proof. reflexivity. Qed.

(** Splitting undoes joining when no piece holds the first character of
    the separator. *)
Lemma split_join c sep (pieces : list pystr) :
  pieces <> [] ->
  Forall (Forall (fun x => x <> c)) pieces ->
  split (c :: sep) (join (c :: sep) pieces) = pieces.
Proof.
  intros Hne H. induction H as [|p rest Hp Hrest IH]; [congruence|].
  destruct rest as [|q rest].
  - simpl. apply split_whole, partition_at_absent, Hp.
  - rewrite join_cons.
    rewrite (split_cut _ _ p (join (c :: sep) (q :: rest)));
      [|discriminate|apply partition_at_free, Hp].
    f_equal. apply IH. discriminate.
Qed.

Lemma contains_free c sep s :
  Forall (fun x => x <> c) s -> contains (c :: sep) s = false.
Proof. intros H. unfold contains. rewrite partition_at_absent; auto. Qed.

Lemma contains_around c sep a b :
  Forall (fun x => x <> c) a -> contains (c :: sep) (a ++ (c :: sep) ++ b) = true.
Proof. intros H. unfold contains. rewrite partition_at_free; auto. Qed.

(** *** Pieces keep the properties of the characters *)

Lemma partition_at_Forall (P : N -> Prop) sep s a b :
  partition_at sep s = Some (a, b) -> Forall P s -> Forall P a /\ Forall P b.
Proof.
  intros E H. rewrite (partition_at_app _ _ _ _ E) in H.
  apply Forall_app in H as [Ha H]. apply Forall_app in H as [_ Hb]. auto.
Qed.

Lemma split_fuel_Forall (P : N -> Prop) n sep s :
  Forall P s -> Forall (Forall P) (split_fuel n sep s).
Proof.
  revert s. induction n as [|n IH]; intros s H; simpl.
  - constructor; [exact H|constructor].
  - destruct (partition_at sep s) as [[a b]|] eqn:E.
    + destruct (partition_at_Forall P _ _ _ _ E H) as [Ha Hb].
      constructor; [exact Ha|apply IH, Hb].
    + constructor; [exact H|constructor].
Qed.

Lemma split_Forall (P : N -> Prop) sep s :
  Forall P s -> Forall (Forall P) (split sep s).
Proof. apply split_fuel_Forall. Qed.

Lemma split1_Forall (P : N -> Prop) sep s :
  Forall P s -> Forall (Forall P) (split1 sep s).
Proof.
  intros H. unfold split1. destruct (partition_at sep s) as [[a b]|] eqn:E.
  - destruct (partition_at_Forall P _ _ _ _ E H) as [Ha Hb].
    repeat constructor; assumption.
  - repeat constructor; assumption.
Qed.

Lemma split_ws_from_Forall (P : N -> Prop) cur s :
  Forall P cur -> Forall P s -> Forall (Forall P) (split_ws_from cur s).
Proof.
  intros Hcur Hs. revert cur Hcur.
  induction Hs as [|c s Hc Hs IH]; intros cur Hcur; simpl.
  - destruct cur; constructor; [|constructor].
    apply Forall_rev. exact Hcur.
  - destruct (isspace c).
    + destruct cur as [|x cur'].
      * apply IH. constructor.
      * constructor; [apply Forall_rev; exact Hcur|apply IH; constructor].
    + apply IH. constructor; assumption.
Qed.

Lemma split_ws_Forall (P : N -> Prop) s :
  Forall P s -> Forall (Forall P) (split_ws s).
Proof. intros H. apply split_ws_from_Forall; [constructor|exact H]. Qed.

Lemma nth_Forall (P : N -> Prop) (l : list pystr) i :
  Forall (Forall P) l -> Forall P (nth i l []).
Proof.
  intros H. revert i. induction H as [|x l Hx _ IH]; intros [|i]; simpl;
    try constructor; auto.
Qed.

End SplitFacts.

(** ** The query string *)

Lemma plain_no_amp t : plain t -> Forall (fun x => x <> 38%N) t.
Proof. apply List.Forall_impl. intros c [H _]. exact H. Qed.

Lemma plain_no_eq t : plain t -> Forall (fun x => x <> 61%N) t.
Proof. apply List.Forall_impl. intros c [_ H]. exact H. Qed.

Lemma piece_text_no_amp p : piece_ok p -> Forall (fun x => x <> 38%N) (piece_text p).
Proof.
  destruct p as [t|k v]; simpl.
  - apply plain_no_amp.
  - intros [Hk Hv]. apply Forall_app. split; [apply plain_no_amp, Hk|].
    constructor; [discriminate|apply plain_no_amp, Hv].
Qed.

Lemma dict_of_pieces (pieces : list piece) (d : gmap pystr pystr) :
  Forall piece_ok pieces ->
  dict_of
    (map (split (lit "="))
       (List.filter (fun param => contains (lit "=") param)
          (map piece_text pieces))) d
  = inr (fold_left record_piece pieces d).
Proof.
  intros H. revert d. induction H as [|p rest Hp _ IH]; intros d; [reflexivity|].
  change (lit "=") with ([61%N]) in *.
  destruct p as [t|k v]; cbn [map piece_text List.filter fold_left record_piece].
  - rewrite (contains_free 61 [] t) by (apply plain_no_eq, Hp). apply IH.
  - destruct Hp as [Hk Hv].
    change (lit "=") with ([61%N]).
    rewrite (contains_around 61 [] k v) by (apply plain_no_eq, Hk).
    cbn [map].
    change (k ++ [61%N] ++ v) with (join [61%N] [k; v]).
    rewrite (split_join 61 [] [k; v]);
      [|discriminate|repeat constructor; apply plain_no_eq; assumption].
    cbn [dict_of]. apply IH.
Qed.

(** X19: of a query string whose pieces between the [&] hold at most one
    [=] each, [_parse_parameters] returns the dictionary built from left
    to right: a piece without [=] is dropped, and a piece with one [=]
    binds the text before it to the text after it, a later binding of a
    key replacing an earlier one. *)
Theorem X19_parse_parameters_pairs (pieces : list piece) :
  pieces <> [] ->
  Forall piece_ok pieces ->
  _parse_parameters (join (lit "&") (map piece_text pieces))
  = inr (fold_left record_piece pieces ∅).
Proof.
  intros Hne Hok. unfold _parse_parameters.
  change (lit "&") with ([38%N]).
  rewrite (split_join 38 [] (map piece_text pieces)).
  - apply dict_of_pieces, Hok.
  - destruct pieces; [congruence|discriminate].
  - apply List.Forall_map. revert Hok. apply List.Forall_impl. apply piece_text_no_amp.
Qed.

(** ** What the parser hands on can be encoded again *)

Section ParsedText.

Lemma valid_char (v : N) :
  (v < 55296 \/ (57343 < v /\ v < 1114112))%N -> utf8_encode_char v <> None.
Proof.
  intros H. unfold utf8_encode_char, is_surrogate.
  destruct (N.ltb_spec v 128); [discriminate|].
  destruct (N.ltb_spec v 2048); [discriminate|].
  destruct (N.leb_spec 55296 v), (N.leb_spec v 57343); simpl; try lia.
  all: destruct (N.ltb_spec v 65536); [discriminate|].
  all: destruct (N.ltb_spec v 1114112); [discriminate|lia].
Qed.

Lemma is_cont_range b : is_cont b = true -> (128 <= b <= 191)%N.
Proof.
  unfold is_cont. intros H. apply andb_prop in H as [H1 H2].
  apply N.leb_le in H1, H2. lia.
Qed.

Lemma utf8_decode_N_encodable (n : nat) :
  forall bs t, (length bs <= n)%nat -> utf8_decode_N bs = Some t -> encodable t.
Proof.
  induction n as [|n IH]; intros bs t Hlen.
  - destruct bs; [|simpl in Hlen; lia]. intros [= <-]. constructor.
  - destruct bs as [|b0 r0]; [intros [= <-]; constructor|].
    simpl in Hlen. cbn [utf8_decode_N].
    destruct (N.ltb_spec b0 128) as [H0|H0].
    { destruct (utf8_decode_N r0) as [t0|] eqn:E; [|discriminate].
      intros [= <-]. constructor; [apply valid_char; lia|].
      apply (IH r0); [lia|exact E]. }
    destruct ((194 <=? b0)%N && (b0 <=? 223)%N) eqn:H2.
    { apply andb_prop in H2 as [Ha Hb]. apply N.leb_le in Ha, Hb.
      destruct r0 as [|b1 r1]; [discriminate|].
      destruct (is_cont b1) eqn:C1; [|discriminate].
      apply is_cont_range in C1.
      destruct (utf8_decode_N r1) as [t1|] eqn:E; [|discriminate].
      intros [= <-]. constructor; [apply valid_char; unfold cont; lia|].
      apply (IH r1); [simpl in Hlen; lia|exact E]. }
    destruct ((224 <=? b0)%N && (b0 <=? 239)%N) eqn:H3.
    { apply andb_prop in H3 as [Ha Hb]. apply N.leb_le in Ha, Hb.
      destruct r0 as [|b1 [|b2 r2]]; try discriminate.
      destruct (is_cont b1) eqn:C1; [|discriminate].
      destruct (is_cont b2) eqn:C2; [|discriminate].
      apply is_cont_range in C1, C2. cbn [andb].
      destruct (negb ((b0 =? 224)%N && (b1 <? 160)%N)) eqn:G1; [|discriminate].
      destruct (negb ((b0 =? 237)%N && (159 <? b1)%N)) eqn:G2; [|discriminate].
      cbn [andb].
      destruct (utf8_decode_N r2) as [t2|] eqn:E; [|discriminate].
      intros [= <-]. constructor; [|apply (IH r2); [simpl in Hlen; lia|exact E]].
      apply valid_char. unfold cont.
      apply negb_true_iff, andb_false_iff in G2.
      destruct (N.eqb_spec b0 237), (N.ltb_spec 159 b1);
        destruct G2 as [G2|G2]; try discriminate; lia. }
    destruct ((240 <=? b0)%N && (b0 <=? 244)%N) eqn:H4; [|discriminate].
    apply andb_prop in H4 as [Ha Hb]. apply N.leb_le in Ha, Hb.
    destruct r0 as [|b1 [|b2 [|b3 r3]]]; try discriminate.
    destruct (is_cont b1) eqn:C1; [|discriminate].
    destruct (is_cont b2) eqn:C2; [|discriminate].
    destruct (is_cont b3) eqn:C3; [|discriminate].
    apply is_cont_range in C1, C2, C3. cbn [andb].
    destruct (negb ((b0 =? 240)%N && (b1 <? 144)%N)) eqn:G1; [|discriminate].
    destruct (negb ((b0 =? 244)%N && (143 <? b1)%N)) eqn:G2; [|discriminate].
    cbn [andb].
    destruct (utf8_decode_N r3) as [t3|] eqn:E; [|discriminate].
    intros [= <-]. constructor; [|apply (IH r3); [simpl in Hlen; lia|exact E]].
    apply valid_char. unfold cont.
    apply negb_true_iff, andb_false_iff in G1, G2.
    destruct (N.eqb_spec b0 240), (N.ltb_spec b1 144),
      (N.eqb_spec b0 244), (N.ltb_spec 143 b1);
      destruct G1 as [G1|G1]; destruct G2 as [G2|G2]; try discriminate; lia.
Qed.

Lemma utf8_decode_encodable raw t : utf8_decode raw = Some t -> encodable t.
Proof. apply (utf8_decode_N_encodable (length (map Byte.to_N raw))). lia. Qed.

Lemma filter_Forall {A} (P : A -> Prop) f (l : list A) :
  Forall P l -> Forall P (List.filter f l).
Proof.
  intros H. apply List.Forall_forall. intros x Hx.
  apply List.filter_In in Hx as [Hx _].
  rewrite List.Forall_forall in H. auto.
Qed.

Lemma dict_of_encodable (items : list (list pystr)) (d d' : gmap pystr pystr) :
  Forall (Forall encodable) items ->
  map_Forall (fun _ v => encodable v) d ->
  dict_of items d = inr d' ->
  map_Forall (fun _ v => encodable v) d'.
Proof.
  intros H. revert d. induction H as [|p rest Hp _ IH]; intros d Hd; simpl.
  - intros [= <-]. exact Hd.
  - destruct p as [|k [|v [|x p']]]; try discriminate.
    apply IH. apply map_Forall_insert_2; [|exact Hd].
    inversion Hp as [|? ? _ Hv]. inversion Hv. assumption.
Qed.

Lemma parse_parameters_encodable s d :
  encodable s -> _parse_parameters s = inr d ->
  map_Forall (fun _ v => encodable v) d.
Proof.
  intros Hs. unfold _parse_parameters. apply dict_of_encodable.
  - apply List.Forall_map, filter_Forall.
    apply (split_Forall _ (lit "&")) in Hs. revert Hs.
    apply List.Forall_impl. intros piece. apply split_Forall.
  - apply map_Forall_empty.
Qed.

(** The texts of a parsed request come out of a decoded text, so each has
    a UTF-8 form. *)
Lemma parse_request_encodable raw_request r :
  parse_request raw_request = inr r ->
  encodable (req_method r) /\ encodable (req_path r)
  /\ map_Forall (fun _ v => encodable v) (req_parameters r)
  /\ (forall b, req_body r = Some b -> encodable b).
Proof.
  unfold parse_request, and_then.
  destruct (utf8_decode raw_request) as [t|] eqn:Ht; [|discriminate].
  apply utf8_decode_encodable in Ht.
  assert (encodable (first_line_of t)) as Hline.
  { unfold first_line_of, header_block. apply nth_Forall, split_Forall.
    apply nth_Forall, split1_Forall, Ht. }
  apply split_ws_Forall in Hline.
  destruct (split_ws (first_line_of t)) as [|a [|b [|c [|x l]]]]; try discriminate.
  cbn [unpack3 fst snd].
  inversion Hline as [|? ? Ha Hl]; subst. inversion Hl as [|? ? Hb _]; subst.
  destruct (read_headers _ _) as [e|hd]; [discriminate|].
  assert (forall b0, body_of t = Some b0 -> encodable b0) as Hbody.
  { unfold body_of. intros b0.
    destruct (1 <? length (split1 (CRLF ++ CRLF) t))%nat; [|discriminate].
    intros [= <-]. apply nth_Forall, split1_Forall, Ht. }
  destruct (contains (lit "?") b).
  - pose proof (split1_Forall _ (lit "?") b Hb) as Hq.
    destruct (split1 (lit "?") b) as [|p [|q [|x l]]]; try discriminate.
    cbn [unpack2 fst snd]. inversion Hq as [|? ? Hp Hq']; subst.
    inversion Hq' as [|? ? Hqs _]; subst.
    destruct (_parse_parameters q) as [e|d] eqn:Hd; [discriminate|].
    intros [= <-]. cbn. repeat split; auto.
    apply (parse_parameters_encodable q); assumption.
  - intros [= <-]. cbn. repeat split; auto. apply map_Forall_empty.
Qed.

End ParsedText.

(** ** The response writer *)

Lemma encode_ascii s w :
  is_ascii s = true -> encode s w = (inr (ascii_bytes s), w).
Proof. intros H. unfold encode. rewrite (utf8_encode_ascii s H). reflexivity. Qed.

Lemma _send_response_ok status_code content w :
  _send_response status_code content w
  = (inr tt, after_send (json_reply status_code content) w).
Proof.
  unfold _send_response, bind.
  fold (envelope status_code content).
  fold (json_head status_code (len (envelope status_code content))).
  rewrite encode_ascii by apply json_head_ascii.
  rewrite encode_ascii by apply json_dumps_ascii.
  reflexivity.
Qed.

(** C7: [_send_response] serialises the envelope [{status_code, data}],
    announces as Content-Length the number of bytes of the UTF-8 form of
    that body, and makes one [sendall] of the header block
    [HTTP/1.1 <status>\r\nContent-Type: application/json\r\n
    Content-Length: <n>\r\n\r\n] followed by the body; the status line ends
    right after the number, without a reason phrase. *)
Theorem C7_send_response_frame (status_code : Z) (content : pyval) (w : world) :
  exists head_bytes body_bytes : pybytes,
    utf8_encode
      (json_dumps (PDict [(lit "status_code", PInt status_code);
                          (lit "data", content)]))
    = Some body_bytes
    /\ utf8_encode
         (lit "HTTP/1.1 " ++ str_int status_code ++ CRLF
          ++ lit "Content-Type: application/json" ++ CRLF
          ++ lit "Content-Length: " ++ str_int (Z.of_nat (length body_bytes))
          ++ CRLF ++ CRLF)
       = Some head_bytes
    /\ _send_response status_code content w
       = (inr tt,
          mk_world (sent w ++ [head_bytes ++ body_bytes]) (closed w) (store w)).
Proof.
  exists (ascii_bytes (json_head status_code (len (envelope status_code content)))).
  exists (ascii_bytes (envelope status_code content)).
  split; [apply utf8_encode_ascii, json_dumps_ascii|].
  split.
  - rewrite ascii_bytes_length. apply (utf8_encode_ascii (json_head _ _)).
    apply json_head_ascii.
  - apply _send_response_ok.
Qed.

(** ** The datastore gateway *)

Lemma encodable_encode s : encodable s -> exists b, utf8_encode s = Some b.
Proof.
  induction 1 as [|c s Hc _ [b IH]]; simpl; [eauto|].
  destruct (utf8_encode_char c) as [x|]; [|congruence].
  rewrite IH. eauto.
Qed.

Lemma bind_text s : encodable s -> bind_param (JStr s) = inr (SqlText s).
Proof. intros H. destruct (encodable_encode s H) as [b Hb]. simpl. rewrite Hb. reflexivity. Qed.

Lemma execute_ready {A} (stmt : statement A) d :
  ready d = true ->
  execute stmt d
  = match stmt (users d) (sequence d) with
    | inl e => (inl e, served d)
    | inr (a, rows, seq) => (inr a, mk_database rows seq (tl (faults d)))
    end.
Proof.
  unfold ready, execute, served. destruct (faults d) as [|[c|] rest]; try discriminate; reflexivity.
Qed.

Lemma execute_fault {A} (stmt : statement A) d code rest :
  faults d = Some code :: rest ->
  execute stmt d
  = (inl (Runtime (OperationalError code)), served d).
Proof. intros H. unfold execute, served. rewrite H. reflexivity. Qed.

(** Whatever [execute] raises is a storage error, and a failing call
    leaves the table as it was. *)
Lemma execute_raises {A} (stmt : statement A) d e d' :
  (forall rows seq e, stmt rows seq = inl e -> is_storage_error e = true) ->
  execute stmt d = (inl e, d') ->
  is_storage_error e = true /\ d' = served d.
Proof.
  intros Hstmt. unfold execute, served.
  destruct (faults d) as [|[c|] rest]; simpl.
  - destruct (stmt (users d) (sequence d)) as [e0|[[a rows] seq]] eqn:E;
      intros [= <- <-]; eauto.
  - intros [= <- <-]. auto.
  - destruct (stmt (users d) (sequence d)) as [e0|[[a rows] seq]] eqn:E;
      intros [= <- <-]; eauto.
Qed.

(** ** The handlers *)

Section ServerFacts.

Variable json_loads : pystr -> loads_error + json.
Variable sqlite_real_text : N -> option pystr.
Variable sql_id_eq : pystr -> Z -> bool.
Variable runtime_message : runtime_error -> pystr.
Variable server_name : pystr.

Local Abbreviation get_users := (_get_users sql_id_eq).
Local Abbreviation create_user := (_create_user json_loads sqlite_real_text).
Local Abbreviation delete_user_h := (_delete_user sql_id_eq).
Local Abbreviation update_user_h := (_update_user json_loads sqlite_real_text sql_id_eq).
Local Abbreviation dispatch := (users_dispatch json_loads sqlite_real_text sql_id_eq).
Local Abbreviation handle_users :=
  (_handle_users json_loads sqlite_real_text sql_id_eq runtime_message).
Local Abbreviation about := (_about server_name).
Local Abbreviation route_to :=
  (route json_loads sqlite_real_text sql_id_eq runtime_message server_name).
Local Abbreviation request_of :=
  (handle_request json_loads sqlite_real_text sql_id_eq runtime_message server_name).
Local Abbreviation client :=
  (handle_client json_loads sqlite_real_text sql_id_eq runtime_message server_name).
Local Abbreviation message_of := (str_exn runtime_message).

(** Settle the comparisons of a method or a path with the literals of
    the source. *)
Ltac settle_literals :=
  repeat match goal with
         | |- context [decide (?a = ?a)] =>
             destruct (decide (a = a)) as [_|?]; [|congruence]
         | |- context [decide (lit ?a = lit ?b)] =>
             let E := fresh "E" in
             destruct (decide (lit a = lit b)) as [E|_];
             [vm_compute in E; discriminate E|]
         end.

Lemma db_execute_eq {A} (stmt : statement A) w :
  db_execute stmt w
  = (fst (execute stmt (store w)), with_store (snd (execute stmt (store w))) w).
Proof. unfold db_execute. destruct (execute stmt (store w)). reflexivity. Qed.

Lemma truthy_some (x : option pystr) :
  truthy x = true -> exists c s, x = Some (c :: s).
Proof. destruct x as [[|c s]|]; try discriminate. eauto. Qed.

Lemma get_users_by_id parameters uid w :
  parameters !! lit "id" = Some uid -> uid <> [] -> encodable uid ->
  ready (store w) = true ->
  get_users parameters w
  = (inr tt,
     after_send
       match matching sql_id_eq uid (users (store w)) with
       | u :: _ => json_reply 200 (user_payload (public u))
       | [] => json_reply 404 (error_payload (lit "User not found"))
       end
       (with_store (served (store w)) w)).
Proof.
  intros Hid Hne Henc Hready. unfold _get_users. rewrite Hid.
  destruct uid as [|c uid']; [congruence|]. cbn [truthy default from_option id].
  unfold bind. rewrite db_execute_eq, (execute_ready _ _ Hready).
  unfold select_user. rewrite (bind_text _ Henc). cbn [fst snd].
  fold (matching sql_id_eq (c :: uid') (users (store w))).
  destruct (matching sql_id_eq (c :: uid') (users (store w))) as [|u rest];
    cbn [map]; rewrite _send_response_ok; reflexivity.
Qed.

Lemma get_users_all parameters w :
  truthy (parameters !! lit "id") = false ->
  ready (store w) = true ->
  get_users parameters w
  = (inr tt,
     after_send
       (json_reply 200
          (PDict [(lit "count", PInt (Z.of_nat (length (users (store w)))));
                  (lit "users",
                   PList (map (fun u => user_payload (public u))
                            (users (store w))))]))
       (with_store (served (store w)) w)).
Proof.
  intros Hid Hready. unfold _get_users. rewrite Hid.
  unfold bind. rewrite db_execute_eq, (execute_ready _ _ Hready).
  unfold select_users. cbn [fst snd].
  rewrite _send_response_ok, length_map, map_map. reflexivity.
Qed.

Lemma handle_users_ok method parameters body w w' :
  dispatch method parameters body w = (inr tt, w') ->
  handle_users method parameters body w = (inr tt, w').
Proof. intros H. unfold _handle_users, try_except. rewrite H. reflexivity. Qed.

Lemma handle_users_raise method parameters body w e w' :
  dispatch method parameters body w = (inl e, w') ->
  handle_users method parameters body w
  = (inr tt, after_send (json_reply 400 (error_payload (message_of e))) w').
Proof.
  intros H. unfold _handle_users, try_except. rewrite H.
  apply _send_response_ok.
Qed.

Lemma client_routes start_time raw_request r w :
  raw_request <> [] -> parse_request raw_request = inr r ->
  client start_time raw_request w
  = (let '(res, w') :=
       try_except (route_to start_time r)
         (fun e => _send_response 500 (error_payload (lit "Internal server error")))
         w in
     (res, close w')).
Proof.
  intros Hne Hparse. unfold handle_client, handle_request, try_except, bind.
  destruct raw_request as [|b raw']; [congruence|].
  rewrite Hparse. reflexivity.
Qed.

Lemma client_answers start_time raw_request r w w' :
  raw_request <> [] -> parse_request raw_request = inr r ->
  route_to start_time r w = (inr tt, w') ->
  client start_time raw_request w = (inr tt, close w').
Proof.
  intros Hne Hparse Hroute. rewrite (client_routes _ _ _ _ Hne Hparse).
  unfold try_except. rewrite Hroute. reflexivity.
Qed.

Lemma route_users start_time r w :
  req_path r = lit "/users" ->
  route_to start_time r w
  = handle_users (req_method r) (req_parameters r) (req_body r) w.
Proof. intros H. unfold route. rewrite H. settle_literals. reflexivity. Qed.

Lemma dispatch_get parameters body w :
  dispatch (lit "GET") parameters body w = get_users parameters w.
Proof. unfold users_dispatch. settle_literals. reflexivity. Qed.

Lemma dispatch_post parameters body w :
  dispatch (lit "POST") parameters body w = create_user body w.
Proof. unfold users_dispatch. settle_literals. reflexivity. Qed.

Lemma dispatch_delete parameters body w :
  dispatch (lit "DELETE") parameters body w = delete_user_h parameters w.
Proof. unfold users_dispatch. settle_literals. reflexivity. Qed.

Lemma dispatch_patch parameters body w :
  dispatch (lit "PATCH") parameters body w = update_user_h parameters body w.
Proof. unfold users_dispatch. settle_literals. reflexivity. Qed.

Lemma dispatch_other method parameters body w :
  method <> lit "GET" -> method <> lit "POST" ->
  method <> lit "DELETE" -> method <> lit "PATCH" ->
  dispatch method parameters body w
  = (inr tt, after_send (json_reply 405 (error_payload (lit "Method not allowed"))) w).
Proof.
  intros H1 H2 H3 H4. unfold users_dispatch.
  repeat match goal with
         | |- context [decide (method = ?x)] =>
             destruct (decide (method = x)); [congruence|]
         end.
  apply _send_response_ok.
Qed.

Lemma delete_missing parameters w :
  truthy (parameters !! lit "id") = false ->
  delete_user_h parameters w
  = (inl (ValueError (lit "Missing user id parameter")), w).
Proof. intros H. unfold _delete_user. rewrite H. reflexivity. Qed.

Lemma delete_issued parameters uid w :
  parameters !! lit "id" = Some uid -> uid <> [] -> encodable uid ->
  ready (store w) = true ->
  delete_user_h parameters w
  = (inr tt,
     after_send
       (json_reply 200
          (PDict [(lit "message", PStr (lit "User " ++ uid ++ lit " deleted"))]))
       (with_store
          (mk_database
             (List.filter (fun u => negb (sql_id_eq uid (user_id u)))
                (users (store w)))
             (sequence (store w)) (tl (faults (store w))))
          w)).
Proof.
  intros Hid Hne Henc Hready. unfold _delete_user. rewrite Hid.
  destruct uid as [|c uid']; [congruence|]. cbn [truthy negb default from_option id].
  unfold bind. rewrite db_execute_eq, (execute_ready _ _ Hready).
  unfold delete_user. rewrite (bind_text _ Henc). cbn [fst snd].
  apply _send_response_ok.
Qed.

Lemma update_missing parameters body w :
  truthy (parameters !! lit "id") = false ->
  update_user_h parameters body w
  = (inl (ValueError (lit "Missing user id parameter")), w).
Proof. intros H. unfold _update_user. rewrite H. reflexivity. Qed.

Lemma create_invalid_json body err w :
  body <> [] -> json_loads body = inl err ->
  create_user (Some body) w = (inl (refused_body err), w).
Proof.
  intros Hne Hbad. unfold _create_user.
  destruct body as [|c body']; [congruence|]. cbn [truthy negb default from_option id].
  unfold try_except, bind, loads. rewrite Hbad. destruct err; reflexivity.
Qed.

Lemma update_invalid_json parameters body err w :
  truthy (parameters !! lit "id") = true ->
  body <> [] -> json_loads body = inl err ->
  update_user_h parameters (Some body) w = (inl (refused_body err), w).
Proof.
  intros Hid Hne Hbad. unfold _update_user. rewrite Hid.
  destruct body as [|c body']; [congruence|]. cbn [truthy negb default from_option id].
  unfold try_except, bind, loads. rewrite Hbad. destruct err; reflexivity.
Qed.

Lemma refused_body_text err :
  str_exn runtime_message (refused_body err) = refusal_text runtime_message err.
Proof. destruct err; reflexivity. Qed.

(** C2, as the code has it: a POST to /users, or a PATCH to /users with
    a non-empty [id] parameter, whose body is not empty and is refused
    by [json.loads], is answered 400.  The error is "Invalid JSON format"
    when [json.loads] raised [JSONDecodeError]; when it raised another
    exception ([RecursionError] on a text nested too deep, the
    [ValueError] of the integer digit limit), which
    [except json.JSONDecodeError] lets pass, the error is the text of
    that exception.  A PATCH without a non-empty [id] is answered 400
    with "Missing user id parameter", whatever its body.  None of them is
    answered 500, and nothing else is sent or stored. *)
Theorem C2_invalid_json start_time raw_request r body err w :
  raw_request <> [] -> parse_request raw_request = inr r ->
  req_path r = lit "/users" ->
  req_body r = Some body -> body <> [] -> json_loads body = inl err ->
  (req_method r = lit "POST" ->
   client start_time raw_request w
   = (inr tt,
      close (after_send
               (json_reply 400
                  (error_payload
                     match err with
                     | NotJSON => lit "Invalid JSON format"
                     | TooDeep => runtime_message RecursionError
                     | TooManyDigits => runtime_message DigitLimitError
                     end))
               w)))
  /\ (req_method r = lit "PATCH" ->
      client start_time raw_request w
      = (inr tt,
         close (after_send
                  (json_reply 400
                     (error_payload
                        (if truthy (req_parameters r !! lit "id")
                         then match err with
                              | NotJSON => lit "Invalid JSON format"
                              | TooDeep => runtime_message RecursionError
                              | TooManyDigits => runtime_message DigitLimitError
                              end
                         else lit "Missing user id parameter")))
                  w))).
Proof.
  intros Hne Hparse Hpath Hbody Hbne Hbad.
  fold (refusal_text runtime_message err). rewrite <- refused_body_text.
  split; intros Hm.
  - apply (client_answers _ _ r _ _ Hne Hparse).
    rewrite (route_users _ _ _ Hpath), Hm, Hbody.
    apply (handle_users_raise _ _ _ _ (refused_body err)).
    rewrite dispatch_post. apply create_invalid_json; assumption.
  - apply (client_answers _ _ r _ _ Hne Hparse).
    rewrite (route_users _ _ _ Hpath), Hm, Hbody.
    destruct (truthy (req_parameters r !! lit "id")) eqn:Hid.
    + apply (handle_users_raise _ _ _ _ (refused_body err)).
      rewrite dispatch_patch. apply update_invalid_json; assumption.
    + apply (handle_users_raise _ _ _ _ (ValueError (lit "Missing user id parameter"))).
      rewrite dispatch_patch. apply update_missing; assumption.
Qed.

(** C5, as the code has it: on GET /users with a datastore that answers,
    a non-empty [id] parameter selects the rows whose id matches it; the
    first of them is returned with status 200 as [{id, email, message}],
    and when there is none the answer is 404 [{error: "User not found"}].
    When [id] is absent or empty the answer is 200 with
    [{count, users}], every row in the order of the datastore; on an
    empty table that is [{count: 0, users: []}]. *)
Theorem C5_get_users start_time raw_request r w :
  raw_request <> [] -> parse_request raw_request = inr r ->
  req_path r = lit "/users" -> req_method r = lit "GET" ->
  ready (store w) = true ->
  client start_time raw_request w
  = (inr tt,
     close
       (after_send
          match req_parameters r !! lit "id" with
          | Some (c :: rest) =>
              match matching sql_id_eq (c :: rest) (users (store w)) with
              | u :: _ =>
                  json_reply 200
                    (PDict [(lit "id", PInt (user_id u));
                            (lit "email", PStr (email u));
                            (lit "message", PStr (message u))])
              | [] => json_reply 404 (error_payload (lit "User not found"))
              end
          | _ =>
              json_reply 200
                (PDict [(lit "count", PInt (Z.of_nat (length (users (store w)))));
                        (lit "users",
                         PList
                           (map (fun u =>
                                   PDict [(lit "id", PInt (user_id u));
                                          (lit "email", PStr (email u));
                                          (lit "message", PStr (message u))])
                              (users (store w))))])
          end
          (with_store (served (store w)) w)))
  /\ (truthy (req_parameters r !! lit "id") = false ->
      users (store w) = [] ->
      client start_time raw_request w
      = (inr tt,
         close
           (after_send
              (json_reply 200
                 (PDict [(lit "count", PInt 0); (lit "users", PList [])]))
              (with_store (served (store w)) w)))).
Proof.
  intros Hne Hparse Hpath Hm Hready.
  assert (forall reply,
             get_users (req_parameters r) w
             = (inr tt, after_send reply (with_store (served (store w)) w)) ->
             client start_time raw_request w
             = (inr tt, close (after_send reply (with_store (served (store w)) w))))
    as Hstep.
  { intros reply H. apply (client_answers _ _ r _ _ Hne Hparse).
    rewrite (route_users _ _ _ Hpath), Hm.
    apply handle_users_ok. rewrite dispatch_get. exact H. }
  split.
  - apply Hstep.
    destruct (req_parameters r !! lit "id") as [[|c rest]|] eqn:Hid.
    + apply get_users_all; [rewrite Hid; reflexivity|exact Hready].
    + rewrite (get_users_by_id _ (c :: rest) _ Hid); [|discriminate| |exact Hready].
      * destruct (matching sql_id_eq (c :: rest) (users (store w))); reflexivity.
      * destruct (parse_request_encodable _ _ Hparse) as (_ & _ & Hp & _).
        apply (Hp _ _ Hid).
    + apply get_users_all; [rewrite Hid; reflexivity|exact Hready].
  - intros Hid Hempty. apply Hstep.
    rewrite (get_users_all _ _ Hid Hready), Hempty. reflexivity.
Qed.

(** C6, as the code has it: a DELETE on /users whose [id] parameter is
    absent or empty is answered 400 with "Missing user id parameter" and
    nothing is deleted.  With a non-empty [id] and a datastore that
    answers, the delete is issued without looking the row up and the
    answer is 200 with the message "User <id> deleted", also when no row
    matched, in which case the table is as before. *)
Theorem C6_delete_user start_time raw_request r w :
  raw_request <> [] -> parse_request raw_request = inr r ->
  req_path r = lit "/users" -> req_method r = lit "DELETE" ->
  match req_parameters r !! lit "id" with
  | Some (c :: rest) =>
      ready (store w) = true ->
      client start_time raw_request w
      = (inr tt,
         close
           (after_send
              (json_reply 200
                 (PDict [(lit "message",
                          PStr (lit "User " ++ (c :: rest) ++ lit " deleted"))]))
              (with_store
                 (mk_database
                    (List.filter
                       (fun u => negb (sql_id_eq (c :: rest) (user_id u)))
                       (users (store w)))
                    (sequence (store w)) (tl (faults (store w))))
                 w)))
      /\ (matching sql_id_eq (c :: rest) (users (store w)) = [] ->
          List.filter (fun u => negb (sql_id_eq (c :: rest) (user_id u)))
            (users (store w))
          = users (store w))
  | _ =>
      client start_time raw_request w
      = (inr tt,
         close
           (after_send
              (json_reply 400 (error_payload (lit "Missing user id parameter")))
              w))
  end.
Proof.
  intros Hne Hparse Hpath Hm.
  assert (truthy (req_parameters r !! lit "id") = false ->
          client start_time raw_request w
          = (inr tt,
             close
               (after_send
                  (json_reply 400 (error_payload (lit "Missing user id parameter")))
                  w))) as Hmissing.
  { intros Hid. apply (client_answers _ _ r _ _ Hne Hparse).
    rewrite (route_users _ _ _ Hpath), Hm.
    apply (handle_users_raise _ _ _ _ (ValueError (lit "Missing user id parameter"))).
    rewrite dispatch_delete. apply delete_missing, Hid. }
  destruct (req_parameters r !! lit "id") as [[|c rest]|] eqn:Hid;
    [apply Hmissing; reflexivity| |apply Hmissing; reflexivity].
  intros Hready. split.
  - apply (client_answers _ _ r _ _ Hne Hparse).
    rewrite (route_users _ _ _ Hpath), Hm.
    apply handle_users_ok. rewrite dispatch_delete.
    apply delete_issued; [exact Hid|discriminate| |exact Hready].
    destruct (parse_request_encodable _ _ Hparse) as (_ & _ & Hp & _).
    apply (Hp _ _ Hid).
  - unfold matching. generalize (users (store w)).
    induction l as [|u l IH]; [reflexivity|]. simpl.
    destruct (sql_id_eq (c :: rest) (user_id u)); [discriminate|].
    intros H. simpl. rewrite (IH H). reflexivity.
Qed.

Lemma request_of_parsed start_time raw_request r w :
  raw_request <> [] -> parse_request raw_request = inr r ->
  request_of start_time raw_request w = route_to start_time r w.
Proof.
  intros Hne Hparse. unfold handle_request, bind.
  destruct raw_request; [congruence|]. rewrite Hparse. reflexivity.
Qed.

(** C4: once the request is parsed, the path alone decides between the
    about page (whatever the method), the /users handler and the answer
    404 [{error: "Path not found"}]; on /users the method selects the
    list/get, create, delete or update handler, run under the catch that
    answers 400, and any other method is answered 405
    [{error: "Method not allowed"}]. *)
Theorem C4_routing start_time raw_request r w :
  raw_request <> [] -> parse_request raw_request = inr r ->
  (req_path r = lit "/about" ->
   request_of start_time raw_request w = about start_time w)
  /\ (req_path r = lit "/users" ->
      request_of start_time raw_request w
      = handle_users (req_method r) (req_parameters r) (req_body r) w
      /\ (req_method r = lit "GET" ->
          request_of start_time raw_request w
          = try_except (get_users (req_parameters r))
              (fun e => _send_response 400 (error_payload (message_of e))) w)
      /\ (req_method r = lit "POST" ->
          request_of start_time raw_request w
          = try_except (create_user (req_body r))
              (fun e => _send_response 400 (error_payload (message_of e))) w)
      /\ (req_method r = lit "DELETE" ->
          request_of start_time raw_request w
          = try_except (delete_user_h (req_parameters r))
              (fun e => _send_response 400 (error_payload (message_of e))) w)
      /\ (req_method r = lit "PATCH" ->
          request_of start_time raw_request w
          = try_except (update_user_h (req_parameters r) (req_body r))
              (fun e => _send_response 400 (error_payload (message_of e))) w)
      /\ (req_method r <> lit "GET" -> req_method r <> lit "POST" ->
          req_method r <> lit "DELETE" -> req_method r <> lit "PATCH" ->
          client start_time raw_request w
          = (inr tt,
             close (after_send
                      (json_reply 405 (error_payload (lit "Method not allowed")))
                      w))))
  /\ (req_path r <> lit "/about" -> req_path r <> lit "/users" ->
      client start_time raw_request w
      = (inr tt,
         close (after_send
                  (json_reply 404 (error_payload (lit "Path not found"))) w))).
Proof.
  intros Hne Hparse.
  pose proof (request_of_parsed start_time _ _ w Hne Hparse) as Hreq.
  split; [|split].
  - intros Hpath. rewrite Hreq. unfold route. rewrite Hpath.
    settle_literals. reflexivity.
  - intros Hpath. rewrite Hreq, (route_users _ _ _ Hpath).
    split; [reflexivity|].
    repeat split; try (intros Hm; rewrite Hm; unfold _handle_users, try_except).
    + rewrite dispatch_get. reflexivity.
    + rewrite dispatch_post. reflexivity.
    + rewrite dispatch_delete. reflexivity.
    + rewrite dispatch_patch. reflexivity.
    + intros H1 H2 H3 H4. apply (client_answers _ _ r _ _ Hne Hparse).
      rewrite (route_users _ _ _ Hpath). apply handle_users_ok.
      apply dispatch_other; assumption.
  - intros H1 H2. apply (client_answers _ _ r _ _ Hne Hparse).
    unfold route.
    destruct (decide (req_path r = lit "/about")); [congruence|].
    destruct (decide (req_path r = lit "/users")); [congruence|].
    apply _send_response_ok.
Qed.

Lemma dispatch_empty_id method parameters body w :
  parameters !! lit "id" = Some [] ->
  dispatch method parameters body w
  = dispatch method (delete (lit "id") parameters) body w.
Proof.
  intros Hid. unfold users_dispatch, _get_users, _delete_user, _update_user.
  rewrite Hid, lookup_delete_eq. reflexivity.
Qed.

(** C9: a request whose [id] parameter is present with an empty value is
    handled exactly as one without [id]: GET /users answers with the full
    list, DELETE and PATCH answer 400 with "Missing user id parameter". *)
Theorem C9_empty_id_is_absent (parameters : gmap pystr pystr) :
  parameters !! lit "id" = Some [] ->
  (forall method body w,
      handle_users method parameters body w
      = handle_users method (delete (lit "id") parameters) body w)
  /\ (forall body w,
         ready (store w) = true ->
         handle_users (lit "GET") parameters body w
         = (inr tt,
            after_send
              (json_reply 200
                 (PDict [(lit "count", PInt (Z.of_nat (length (users (store w)))));
                         (lit "users",
                          PList (map (fun u => user_payload (public u))
                                   (users (store w))))]))
              (with_store (served (store w)) w)))
  /\ (forall method body w,
         method = lit "DELETE" \/ method = lit "PATCH" ->
         handle_users method parameters body w
         = (inr tt,
            after_send
              (json_reply 400 (error_payload (lit "Missing user id parameter")))
              w)).
Proof.
  intros Hid. split; [|split].
  - intros method body w. unfold _handle_users, try_except.
    rewrite (dispatch_empty_id _ _ _ _ Hid). reflexivity.
  - intros body w Hready. apply handle_users_ok. rewrite dispatch_get.
    apply get_users_all; [rewrite Hid; reflexivity|exact Hready].
  - intros method body w [-> | ->];
      apply (handle_users_raise _ _ _ _ (ValueError (lit "Missing user id parameter"))).
    + rewrite dispatch_delete. apply delete_missing. rewrite Hid. reflexivity.
    + rewrite dispatch_patch. apply update_missing. rewrite Hid. reflexivity.
Qed.

(** *** Failures inside a /users handler *)

Lemma bind_param_error v e : bind_param v = inl e -> is_storage_error e = true.
Proof.
  destruct v as [| |z| |t| |]; simpl; try discriminate;
    try (intros [= <-]; reflexivity).
  - destruct (_ && _); [discriminate|]. intros [= <-]. reflexivity.
  - destruct (utf8_encode t); [discriminate|]. intros [= <-]. reflexivity.
Qed.

Lemma bind_params_error vs e : bind_params vs = inl e -> is_storage_error e = true.
Proof.
  induction vs as [|v vs IH]; simpl; [discriminate|].
  destruct (bind_param v) as [e0|x] eqn:E.
  - intros [= <-]. apply (bind_param_error _ _ E).
  - destruct (bind_params vs); [|discriminate]. intros [= <-]. auto.
Qed.

Lemma stored_texts_error sets e :
  stored_texts sqlite_real_text sets = inl e -> is_storage_error e = true.
Proof.
  induction sets as [|[c v] sets IH]; simpl; [discriminate|].
  destruct (text_affinity sqlite_real_text v).
  - destruct (stored_texts sqlite_real_text sets); [|discriminate].
    intros [= <-]. auto.
  - intros [= <-]. reflexivity.
Qed.

Lemma select_user_error id rows seq e :
  select_user sql_id_eq id rows seq = inl e -> is_storage_error e = true.
Proof.
  unfold select_user. destruct (bind_param (JStr id)) eqn:E; [|discriminate].
  intros [= <-]. apply (bind_param_error _ _ E).
Qed.

Lemma select_users_error rows seq e :
  select_users rows seq = inl e -> is_storage_error e = true.
Proof. discriminate. Qed.

Lemma insert_user_error a b c rows seq e :
  insert_user sqlite_real_text a b c rows seq = inl e -> is_storage_error e = true.
Proof.
  unfold insert_user. destruct (bind_params [a; b; c]) as [e0|vals] eqn:E.
  - intros [= <-]. apply (bind_params_error _ _ E).
  - destruct (max_rowid <=? seq); [intros [= <-]; reflexivity|].
    destruct (stored_texts _ _) eqn:E'; [|discriminate].
    intros [= <-]. apply (stored_texts_error _ _ E').
Qed.

Lemma delete_user_error id rows seq e :
  delete_user sql_id_eq id rows seq = inl e -> is_storage_error e = true.
Proof.
  unfold delete_user. destruct (bind_param (JStr id)) eqn:E; [|discriminate].
  intros [= <-]. apply (bind_param_error _ _ E).
Qed.

Lemma update_user_error sets id rows seq e :
  update_user sqlite_real_text sql_id_eq sets id rows seq = inl e ->
  is_storage_error e = true.
Proof.
  unfold update_user. destruct (bind_params _) as [e0|vals] eqn:E.
  - intros [= <-]. apply (bind_params_error _ _ E).
  - destruct (existsb _ rows); [|discriminate].
    destruct (stored_texts _ _) eqn:E'; [|discriminate].
    intros [= <-]. apply (stored_texts_error _ _ E').
Qed.

Lemma db_execute_raises {A} (stmt : statement A) w e w1 :
  (forall rows seq e, stmt rows seq = inl e -> is_storage_error e = true) ->
  db_execute stmt w = (inl e, w1) ->
  is_storage_error e = true /\ w1 = with_store (served (store w)) w.
Proof.
  intros Hstmt. rewrite db_execute_eq.
  destruct (execute stmt (store w)) as [r d] eqn:E. cbn [fst snd].
  intros [= -> <-].
  destruct (execute_raises _ _ _ _ Hstmt E) as [He ->]. auto.
Qed.

Lemma py_in_error key data e : py_in key data = inl e -> is_storage_error e = false.
Proof. destruct data; simpl; try discriminate; intros [= <-]; reflexivity. Qed.

Lemma all_in_error keys data e : all_in keys data = inl e -> is_storage_error e = false.
Proof.
  induction keys as [|k keys IH]; simpl; [discriminate|].
  destruct (py_in k data) as [e0|[|]] eqn:E; try discriminate; auto.
  intros [= <-]. apply (py_in_error _ _ _ E).
Qed.

Lemma getitem_error data key e : getitem data key = inl e -> is_storage_error e = false.
Proof.
  destruct data; simpl; try (intros [= <-]; reflexivity).
  destruct (lookup_item key items); [discriminate|]. intros [= <-]. reflexivity.
Qed.

Lemma get_users_fails parameters : fails_cleanly (get_users parameters).
Proof.
  intros w e w1. unfold _get_users, bind.
  destruct (truthy (parameters !! lit "id")).
  - destruct (db_execute _ w) as [[e0|res] w'] eqn:E.
    + intros [= <- <-]. right.
      apply (db_execute_raises _ _ _ _ (select_user_error _)) in E. exact E.
    + destruct res; rewrite _send_response_ok; discriminate.
  - destruct (db_execute _ w) as [[e0|res] w'] eqn:E.
    + intros [= <- <-]. right.
      apply (db_execute_raises _ _ _ _ select_users_error) in E. exact E.
    + rewrite _send_response_ok; discriminate.
Qed.

Lemma delete_user_fails parameters : fails_cleanly (delete_user_h parameters).
Proof.
  intros w e w1. unfold _delete_user, bind.
  destruct (negb (truthy (parameters !! lit "id"))).
  - intros [= <- <-]. left. auto.
  - destruct (db_execute _ w) as [[e0|res] w'] eqn:E.
    + intros [= <- <-]. right.
      apply (db_execute_raises _ _ _ _ (delete_user_error _)) in E. exact E.
    + rewrite _send_response_ok; discriminate.
Qed.

Lemma lift_raises {A} (r : exn + A) w e w1 :
  lift r w = (inl e, w1) -> r = inl e /\ w1 = w.
Proof. destruct r; simpl; unfold raise, ret; intros [= <- <-]; auto. Qed.

Lemma except_JSONDecodeError_storage e w :
  is_storage_error e = true ->
  @except_JSONDecodeError unit e w = (inl e, w).
Proof. destruct e as [m|[]]; try discriminate; reflexivity. Qed.

Lemma except_JSONDecodeError_other e w e' w1 :
  is_storage_error e = false ->
  @except_JSONDecodeError unit e w = (inl e', w1) ->
  is_storage_error e' = false /\ w1 = w.
Proof.
  destruct e as [m|[]]; try discriminate; intros _ [= <- <-]; auto.
Qed.

(** A [try] block that fails cleanly still does under
    [except json.JSONDecodeError]. *)
Lemma try_json_fails (m : M unit) :
  fails_cleanly m -> fails_cleanly (try_except m except_JSONDecodeError).
Proof.
  intros Hm w e w1. unfold try_except.
  destruct (m w) as [[e0|[]] w'] eqn:E; [|discriminate].
  destruct (Hm _ _ _ E) as [[He ->]|[He ->]].
  - intros H. left. apply (except_JSONDecodeError_other _ _ _ _ He H).
  - rewrite (except_JSONDecodeError_storage _ _ He). intros [= <- <-]. auto.
Qed.

Lemma raise_fails e : is_storage_error e = false -> fails_cleanly (raise e).
Proof. intros He w e' w1 [= <- <-]. auto. Qed.

Lemma lift_bind_fails {A} (r : exn + A) (k : A -> M unit) :
  (forall e, r = inl e -> is_storage_error e = false) ->
  (forall a, r = inr a -> fails_cleanly (k a)) ->
  fails_cleanly (bind (lift r) k).
Proof.
  intros Hr Hk w e w1. unfold bind. destruct r as [e0|a]; simpl.
  - intros [= <- <-]. left. auto.
  - apply Hk. reflexivity.
Qed.

Lemma execute_then_send_fails {A} (stmt : statement A) (k : A -> Z * pyval) :
  (forall rows seq e, stmt rows seq = inl e -> is_storage_error e = true) ->
  fails_cleanly
    (bind (db_execute stmt) (fun a => _send_response (fst (k a)) (snd (k a)))).
Proof.
  intros Hstmt w e w1. unfold bind.
  destruct (db_execute stmt w) as [[e0|a] w'] eqn:E.
  - intros [= <- <-]. right. apply (db_execute_raises _ _ _ _ Hstmt E).
  - rewrite _send_response_ok. discriminate.
Qed.

Lemma create_user_fails body : fails_cleanly (create_user body).
Proof.
  unfold _create_user. destruct (negb (truthy body)); [apply raise_fails; reflexivity|].
  apply try_json_fails. unfold loads.
  destruct (json_loads (default [] body)) as [err|data];
    [intros w e w1 [= <- <-]; left; destruct err; auto|].
  change (bind (ret data) ?k) with (k data). cbv beta.
  apply lift_bind_fails; [apply all_in_error|]. intros [|] _;
    [|apply raise_fails; reflexivity].
  cbn [negb].
  apply lift_bind_fails; [apply getitem_error|]. intros e _.
  apply lift_bind_fails; [apply getitem_error|]. intros p _.
  apply lift_bind_fails; [apply getitem_error|]. intros m _.
  apply (execute_then_send_fails _
           (fun user_id =>
              (201, PDict [(lit "message", PStr (lit "User created successfully"));
                           (lit "user_id", PInt user_id)]))).
  apply insert_user_error.
Qed.

Lemma collect_fails c key data sets (k : list (column * json) -> M unit) :
  (forall sets', fails_cleanly (k sets')) ->
  fails_cleanly (bind (collect c key data sets) k).
Proof.
  intros Hk. unfold collect.
  intros w e w1. unfold bind at 1 2.
  destruct (py_in key data) as [e0|[|]] eqn:E; simpl.
  - intros [= <- <-]. left. split; [apply (py_in_error _ _ _ E)|reflexivity].
  - unfold bind. destruct (getitem data key) as [e0|v] eqn:G; simpl.
    + intros [= <- <-]. left. split; [apply (getitem_error _ _ _ G)|reflexivity].
    + apply Hk.
  - apply Hk.
Qed.

Lemma update_user_fails parameters body :
  fails_cleanly (update_user_h parameters body).
Proof.
  unfold _update_user.
  destruct (negb (truthy (parameters !! lit "id"))); [apply raise_fails; reflexivity|].
  destruct (negb (truthy body)); [apply raise_fails; reflexivity|].
  apply try_json_fails. unfold loads.
  destruct (json_loads (default [] body)) as [err|data];
    [intros w e w1 [= <- <-]; left; destruct err; auto|].
  change (bind (ret data) ?k) with (k data). cbv beta.
  apply collect_fails. intros s1.
  apply collect_fails. intros s2.
  apply collect_fails. intros s3.
  destruct s3 as [|x s3]; [apply raise_fails; reflexivity|].
  apply (execute_then_send_fails _
           (fun _ =>
              (200, PDict [(lit "message",
                            PStr (lit "User " ++ default [] (parameters !! lit "id")
                                  ++ lit " updated"))]))).
  apply update_user_error.
Qed.

Lemma dispatch_fails method parameters body :
  fails_cleanly (dispatch method parameters body).
Proof.
  unfold users_dispatch.
  repeat match goal with
         | |- context [decide (method = ?x)] => destruct (decide (method = x))
         end.
  - apply get_users_fails.
  - apply create_user_fails.
  - apply delete_user_fails.
  - apply update_user_fails.
  - intros w e w1. rewrite _send_response_ok. discriminate.
Qed.

(** C1, as the code has it: when the datastore call of a /users handler
    fails, the error is caught by the [except Exception] of
    [_handle_users]: the one answer is status 400 with the error's text
    as its [error] field, nothing else is sent and the table is as
    before. *)
Theorem C1_storage_error_answered_400 start_time raw_request r w e w1 :
  raw_request <> [] -> parse_request raw_request = inr r ->
  req_path r = lit "/users" ->
  dispatch (req_method r) (req_parameters r) (req_body r) w = (inl e, w1) ->
  is_storage_error e = true ->
  client start_time raw_request w
  = (inr tt,
     close
       (after_send (json_reply 400 (error_payload (message_of e)))
          (with_store (served (store w)) w))).
Proof.
  intros Hne Hparse Hpath Hfail He.
  apply (client_answers _ _ r _ _ Hne Hparse).
  rewrite (route_users _ _ _ Hpath).
  rewrite (handle_users_raise _ _ _ _ _ _ Hfail).
  destruct (dispatch_fails _ _ _ _ _ _ Hfail) as [[He' _]|[_ ->]]; [congruence|].
  reflexivity.
Qed.

End ServerFacts.

(** ** Stored passwords do not reach the socket *)

Section Privacy.

Variable json_loads : pystr -> loads_error + json.
Variable sqlite_real_text : N -> option pystr.
Variable sql_id_eq : pystr -> Z -> bool.
Variable runtime_message : runtime_error -> pystr.
Variable server_name : pystr.

Lemma public_id u1 u2 : public u1 = public u2 -> user_id u1 = user_id u2.
Proof. unfold public. intros [= H _ _]. exact H. Qed.

Lemma map_public_cons u1 rows1 u2 rows2 :
  map public (u1 :: rows1) = map public (u2 :: rows2) ->
  public u1 = public u2 /\ map public rows1 = map public rows2.
Proof. simpl. intros H. split; congruence. Qed.

Lemma filter_public (f : Z -> bool) rows1 rows2 :
  map public rows1 = map public rows2 ->
  map public (List.filter (fun u => f (user_id u)) rows1)
  = map public (List.filter (fun u => f (user_id u)) rows2).
Proof.
  revert rows2. induction rows1 as [|u1 rows1 IH]; intros [|u2 rows2];
    try discriminate; [reflexivity|].
  intros H. apply map_public_cons in H as [Hu Hrest]. simpl. rewrite (public_id _ _ Hu).
  destruct (f (user_id u2)); simpl; rewrite ?Hu, (IH _ Hrest); reflexivity.
Qed.

Lemma existsb_public (f : Z -> bool) rows1 rows2 :
  map public rows1 = map public rows2 ->
  existsb (fun u => f (user_id u)) rows1 = existsb (fun u => f (user_id u)) rows2.
Proof.
  revert rows2. induction rows1 as [|u1 rows1 IH]; intros [|u2 rows2];
    try discriminate; [reflexivity|].
  intros H. apply map_public_cons in H as [Hu Hrest]. simpl. rewrite (public_id _ _ Hu), (IH _ Hrest). reflexivity.
Qed.

Lemma set_column_public c t u1 u2 :
  public u1 = public u2 -> public (set_column c t u1) = public (set_column c t u2).
Proof. unfold public. intros [= H1 H2 H3]. destruct c; simpl; congruence. Qed.

Lemma apply_sets_public ts u1 u2 :
  public u1 = public u2 -> public (apply_sets ts u1) = public (apply_sets ts u2).
Proof.
  unfold apply_sets. revert u1 u2.
  induction ts as [|[c t] ts IH]; intros u1 u2 H; simpl; [exact H|].
  apply IH, set_column_public, H.
Qed.

Lemma update_rows_public (f : Z -> bool) ts rows1 rows2 :
  map public rows1 = map public rows2 ->
  map public (map (fun u => if f (user_id u) then apply_sets ts u else u) rows1)
  = map public (map (fun u => if f (user_id u) then apply_sets ts u else u) rows2).
Proof.
  revert rows2. induction rows1 as [|u1 rows1 IH]; intros [|u2 rows2];
    try discriminate; [reflexivity|].
  intros H. apply map_public_cons in H as [Hu Hrest]. simpl. rewrite (public_id _ _ Hu), (IH _ Hrest).
  destruct (f (user_id u2)); [rewrite (apply_sets_public ts _ _ Hu)|rewrite Hu];
    reflexivity.
Qed.

Lemma select_user_blind id : blind_statement (select_user sql_id_eq id).
Proof.
  intros rows1 rows2 seq H. unfold select_user.
  destruct (bind_param (JStr id)); [reflexivity|].
  rewrite (filter_public (sql_id_eq id) _ _ H). auto.
Qed.

Lemma select_users_blind : blind_statement select_users.
Proof. intros rows1 rows2 seq H. unfold select_users. auto. Qed.

Lemma insert_user_blind e p m : blind_statement (insert_user sqlite_real_text e p m).
Proof.
  intros rows1 rows2 seq H. unfold insert_user.
  destruct (bind_params [e; p; m]); [reflexivity|].
  destruct (max_rowid <=? seq); [reflexivity|].
  destruct (stored_texts _ _); [reflexivity|].
  rewrite !map_app, H. auto.
Qed.

Lemma delete_user_blind id : blind_statement (delete_user sql_id_eq id).
Proof.
  intros rows1 rows2 seq H. unfold delete_user.
  destruct (bind_param (JStr id)); [reflexivity|].
  rewrite (filter_public (fun z => negb (sql_id_eq id z)) _ _ H). auto.
Qed.

Lemma update_user_blind sets id :
  blind_statement (update_user sqlite_real_text sql_id_eq sets id).
Proof.
  intros rows1 rows2 seq H. unfold update_user.
  destruct (bind_params _); [reflexivity|].
  rewrite (existsb_public (sql_id_eq id) _ _ H).
  destruct (existsb _ rows2); [|auto].
  destruct (stored_texts _ _); [reflexivity|].
  rewrite (update_rows_public (sql_id_eq id) _ _ _ H). auto.
Qed.

Lemma ret_blind {A} (a : A) : blind (ret a).
Proof. intros w1 w2 H. auto. Qed.

Lemma raise_blind {A} e : blind (@raise A e).
Proof. intros w1 w2 H. auto. Qed.

Lemma lift_blind {A} (r : exn + A) : blind (lift r).
Proof. destruct r; [apply raise_blind|apply ret_blind]. Qed.

Lemma bind_blind {A B} (m : M A) (k : A -> M B) :
  blind m -> (forall a, blind (k a)) -> blind (bind m k).
Proof.
  intros Hm Hk w1 w2 H. unfold bind. destruct (Hm _ _ H) as [Hr Hw].
  destruct (m w1) as [[e1|a1] w1'], (m w2) as [[e2|a2] w2'];
    simpl in Hr, Hw; try discriminate.
  - injection Hr as ->. simpl. auto.
  - injection Hr as ->. apply Hk, Hw.
Qed.

Lemma try_except_blind {A} (m : M A) (h : exn -> M A) :
  blind m -> (forall e, blind (h e)) -> blind (try_except m h).
Proof.
  intros Hm Hh w1 w2 H. unfold try_except. destruct (Hm _ _ H) as [Hr Hw].
  destruct (m w1) as [[e1|a1] w1'], (m w2) as [[e2|a2] w2'];
    simpl in Hr, Hw; try discriminate.
  - injection Hr as ->. apply Hh, Hw.
  - simpl. auto.
Qed.

Lemma send_response_blind status_code content :
  blind (_send_response status_code content).
Proof.
  intros w1 w2 (Hs & Hc & Hd). rewrite !_send_response_ok. simpl.
  unfold same_view. simpl. rewrite Hs. auto.
Qed.

Lemma db_execute_blind {A} (stmt : statement A) :
  blind_statement stmt -> blind (db_execute stmt).
Proof.
  intros Hstmt w1 w2 (Hs & Hc & Hu & Hq & Hf). unfold db_execute, execute.
  rewrite Hf, Hq. specialize (Hstmt (users (store w1)) (users (store w2))
                                (sequence (store w2)) Hu).
  unfold same_view, same_public.
  destruct (faults (store w2)) as [|[code|] rest]; simpl.
  - destruct (stmt _ _) as [e1|[[a1 r1] s1]], (stmt _ _) as [e2|[[a2 r2] s2]];
      try contradiction; simpl.
    + subst. auto 10.
    + destruct Hstmt as (-> & Hr & ->). auto 10.
  - auto 10.
  - destruct (stmt _ _) as [e1|[[a1 r1] s1]], (stmt _ _) as [e2|[[a2 r2] s2]];
      try contradiction; simpl.
    + subst. auto 10.
    + destruct Hstmt as (-> & Hr & ->). auto 10.
Qed.

Lemma encode_blind t : blind (encode t).
Proof. unfold encode. destruct (utf8_encode t); [apply ret_blind|apply raise_blind]. Qed.

Lemma sendall_blind data : blind (sendall data).
Proof.
  intros w1 w2 (Hs & Hc & Hd). unfold sendall, same_view. simpl.
  rewrite Hs. auto.
Qed.

Lemma get_users_blind parameters : blind (_get_users sql_id_eq parameters).
Proof.
  unfold _get_users. destruct (truthy (parameters !! lit "id")).
  - apply bind_blind; [apply db_execute_blind, select_user_blind|].
    intros [|u rest]; apply send_response_blind.
  - apply bind_blind; [apply db_execute_blind, select_users_blind|].
    intros users. apply send_response_blind.
Qed.

Lemma create_user_blind body : blind (_create_user json_loads sqlite_real_text body).
Proof.
  unfold _create_user. destruct (negb (truthy body)); [apply raise_blind|].
  apply try_except_blind.
  - apply bind_blind.
    { unfold loads. destruct (json_loads _); [apply raise_blind|apply ret_blind]. }
    intros data. apply bind_blind; [apply lift_blind|].
    intros [|]; cbn [negb]; [|apply raise_blind].
    apply bind_blind; [apply lift_blind|]. intros e.
    apply bind_blind; [apply lift_blind|]. intros p.
    apply bind_blind; [apply lift_blind|]. intros m.
    apply bind_blind; [apply db_execute_blind, insert_user_blind|].
    intros user_id. apply send_response_blind.
  - intros e. unfold except_JSONDecodeError.
    destruct e as [msg|[]]; apply raise_blind.
Qed.

Lemma delete_user_h_blind parameters : blind (_delete_user sql_id_eq parameters).
Proof.
  unfold _delete_user. destruct (negb (truthy (parameters !! lit "id")));
    [apply raise_blind|].
  apply bind_blind; [apply db_execute_blind, delete_user_blind|].
  intros _. apply send_response_blind.
Qed.

Lemma collect_blind c key data sets : blind (collect c key data sets).
Proof.
  unfold collect. apply bind_blind; [apply lift_blind|].
  intros [|]; [|apply ret_blind].
  apply bind_blind; [apply lift_blind|]. intros v. apply ret_blind.
Qed.

Lemma update_user_h_blind parameters body :
  blind (_update_user json_loads sqlite_real_text sql_id_eq parameters body).
Proof.
  unfold _update_user. destruct (negb (truthy (parameters !! lit "id")));
    [apply raise_blind|].
  destruct (negb (truthy body)); [apply raise_blind|].
  apply try_except_blind.
  - apply bind_blind.
    { unfold loads. destruct (json_loads _); [apply raise_blind|apply ret_blind]. }
    intros data.
    apply bind_blind; [apply collect_blind|]. intros s1.
    apply bind_blind; [apply collect_blind|]. intros s2.
    apply bind_blind; [apply collect_blind|]. intros s3.
    destruct s3; [apply raise_blind|].
    apply bind_blind; [apply db_execute_blind, update_user_blind|].
    intros _. apply send_response_blind.
  - intros e. unfold except_JSONDecodeError.
    destruct e as [msg|[]]; apply raise_blind.
Qed.

Lemma handle_users_blind method parameters body :
  blind (_handle_users json_loads sqlite_real_text sql_id_eq runtime_message
           method parameters body).
Proof.
  unfold _handle_users. apply try_except_blind; [|intros e; apply send_response_blind].
  unfold users_dispatch.
  repeat match goal with
         | |- context [decide (method = ?x)] => destruct (decide (method = x))
         end.
  - apply get_users_blind.
  - apply create_user_blind.
  - apply delete_user_h_blind.
  - apply update_user_h_blind.
  - apply send_response_blind.
Qed.

Lemma about_blind start_time : blind (_about server_name start_time).
Proof.
  unfold _about. apply bind_blind; [apply encode_blind|]. intros h.
  apply bind_blind; [apply encode_blind|]. intros b. apply sendall_blind.
Qed.

Lemma handle_request_blind start_time raw_request :
  blind (handle_request json_loads sqlite_real_text sql_id_eq runtime_message
           server_name start_time raw_request).
Proof.
  unfold handle_request. destruct raw_request; [apply ret_blind|].
  apply bind_blind; [apply lift_blind|]. intros r. unfold route.
  destruct (decide _); [apply about_blind|].
  destruct (decide _); [apply handle_users_blind|apply send_response_blind].
Qed.

(** Whatever the request, what the client receives and what the table
    shows apart from the passwords do not depend on the passwords stored
    before. *)
Lemma handle_client_blind start_time raw_request w1 w2 :
  same_view w1 w2 ->
  let client :=
    handle_client json_loads sqlite_real_text sql_id_eq runtime_message
      server_name start_time raw_request in
  fst (client w1) = fst (client w2)
  /\ same_view (snd (client w1)) (snd (client w2)).
Proof.
  intros H. cbv zeta. unfold handle_client.
  pose proof (try_except_blind _
                (fun e => _send_response 500
                            (error_payload (lit "Internal server error")))
                (handle_request_blind start_time raw_request)
                (fun e => send_response_blind _ _) w1 w2 H) as [Hr Hw].
  destruct (try_except _ _ w1) as [r1 w1'], (try_except _ _ w2) as [r2 w2'].
  simpl in *. split; [exact Hr|].
  destruct Hw as (Hs & Hc & Hd). unfold same_view. simpl. auto.
Qed.

End Privacy.

(** ** The ids stay below the sequence *)

Section Invariant.

Variable json_loads : pystr -> loads_error + json.
Variable sqlite_real_text : N -> option pystr.
Variable sql_id_eq : pystr -> Z -> bool.
Variable runtime_message : runtime_error -> pystr.
Variable server_name : pystr.

Lemma apply_sets_id ts u : user_id (apply_sets ts u) = user_id u.
Proof.
  unfold apply_sets. revert u.
  induction ts as [|[c t] ts IH]; intros u; simpl; [reflexivity|].
  rewrite IH. destruct c; reflexivity.
Qed.

Lemma select_user_keeps id : statement_keeps_ids (select_user sql_id_eq id).
Proof.
  intros rows seq a rows' seq' H. unfold select_user.
  destruct (bind_param (JStr id)); [discriminate|]. intros [= _ <- <-]. exact H.
Qed.

Lemma select_users_keeps : statement_keeps_ids select_users.
Proof. intros rows seq a rows' seq' H [= _ <- <-]. exact H. Qed.

Lemma insert_user_keeps e p m :
  statement_keeps_ids (insert_user sqlite_real_text e p m).
Proof.
  intros rows seq a rows' seq' H. unfold insert_user.
  destruct (bind_params [e; p; m]); [discriminate|].
  destruct (max_rowid <=? seq); [discriminate|].
  destruct (stored_texts _ _); [discriminate|].
  intros [= _ <- <-]. apply Forall_app. split.
  - revert H. apply List.Forall_impl. intros u Hu. lia.
  - constructor; [|constructor]. rewrite apply_sets_id. simpl. lia.
Qed.

Lemma delete_user_keeps id : statement_keeps_ids (delete_user sql_id_eq id).
Proof.
  intros rows seq a rows' seq' H. unfold delete_user.
  destruct (bind_param (JStr id)); [discriminate|]. intros [= _ <- <-].
  apply filter_Forall, H.
Qed.

Lemma update_user_keeps sets id :
  statement_keeps_ids (update_user sqlite_real_text sql_id_eq sets id).
Proof.
  intros rows seq a rows' seq' H. unfold update_user.
  destruct (bind_params _); [discriminate|].
  destruct (existsb _ rows); [|intros [= _ <- <-]; exact H].
  destruct (stored_texts _ _); [discriminate|]. intros [= _ <- <-].
  apply List.Forall_map. revert H. apply List.Forall_impl. intros u Hu.
  destruct (sql_id_eq id (user_id u)); [rewrite apply_sets_id|]; exact Hu.
Qed.

Lemma db_execute_keeps {A} (stmt : statement A) :
  statement_keeps_ids stmt -> keeps_ids (db_execute stmt).
Proof.
  intros Hstmt w H. rewrite db_execute_eq. cbn [snd store with_store].
  unfold execute, ids_bounded in *.
  destruct (faults (store w)) as [|[code|] rest]; cbn [snd]; try exact H.
  - destruct (stmt _ _) as [e|[[a rows] seq]] eqn:E; cbn; [exact H|].
    apply (Hstmt _ _ _ _ _ H E).
  - destruct (stmt _ _) as [e|[[a rows] seq]] eqn:E; cbn; [exact H|].
    apply (Hstmt _ _ _ _ _ H E).
Qed.

Lemma ret_keeps {A} (a : A) : keeps_ids (ret a).
Proof. intros w H. exact H. Qed.

Lemma raise_keeps {A} e : keeps_ids (@raise A e).
Proof. intros w H. exact H. Qed.

Lemma lift_keeps {A} (r : exn + A) : keeps_ids (lift r).
Proof. destruct r; [apply raise_keeps|apply ret_keeps]. Qed.

Lemma bind_keeps {A B} (m : M A) (k : A -> M B) :
  keeps_ids m -> (forall a, keeps_ids (k a)) -> keeps_ids (bind m k).
Proof.
  intros Hm Hk w H. unfold bind. specialize (Hm w H).
  destruct (m w) as [[e|a] w']; [exact Hm|]. apply Hk, Hm.
Qed.

Lemma try_except_keeps {A} (m : M A) (h : exn -> M A) :
  keeps_ids m -> (forall e, keeps_ids (h e)) -> keeps_ids (try_except m h).
Proof.
  intros Hm Hh w H. unfold try_except. specialize (Hm w H).
  destruct (m w) as [[e|a] w']; [apply Hh, Hm|exact Hm].
Qed.

Lemma send_response_keeps status_code content :
  keeps_ids (_send_response status_code content).
Proof. intros w H. rewrite _send_response_ok. exact H. Qed.

Lemma handle_users_keeps method parameters body :
  keeps_ids (_handle_users json_loads sqlite_real_text sql_id_eq runtime_message
               method parameters body).
Proof.
  unfold _handle_users. apply try_except_keeps; [|intros e; apply send_response_keeps].
  unfold users_dispatch, _get_users, _create_user, _delete_user, _update_user,
    collect, loads, except_JSONDecodeError.
  repeat first
    [ apply send_response_keeps | apply raise_keeps | apply ret_keeps
    | apply lift_keeps
    | apply db_execute_keeps;
      first [ apply select_user_keeps | apply select_users_keeps
            | apply insert_user_keeps | apply delete_user_keeps
            | apply update_user_keeps ]
    | apply bind_keeps; [|intros ?]
    | apply try_except_keeps; [|intros ?]
    | match goal with
      | |- keeps_ids (if ?b then _ else _) => destruct b
      | |- keeps_ids (match ?x with _ => _ end) => destruct x
      end ].
Qed.

(** Serving a request keeps the invariant. *)
Lemma handle_client_keeps start_time raw_request w :
  ids_bounded (store w) ->
  ids_bounded
    (store (snd (handle_client json_loads sqlite_real_text sql_id_eq
                   runtime_message server_name start_time raw_request w))).
Proof.
  intros H. unfold handle_client.
  assert (keeps_ids
            (try_except
               (handle_request json_loads sqlite_real_text sql_id_eq
                  runtime_message server_name start_time raw_request)
               (fun e => _send_response 500
                           (error_payload (lit "Internal server error")))))
    as Hkeeps.
  { apply try_except_keeps; [|intros e; apply send_response_keeps].
    unfold handle_request. destruct raw_request; [apply ret_keeps|].
    apply bind_keeps; [apply lift_keeps|]. intros r. unfold route.
    destruct (decide _).
    - unfold _about, encode.
      repeat first
        [ apply raise_keeps | apply ret_keeps
        | apply bind_keeps; [|intros ?]
        | match goal with
          | |- keeps_ids (match ?x with _ => _ end) => destruct x
          end ].
      intros w0 H0. exact H0.
    - destruct (decide _); [apply handle_users_keeps|apply send_response_keeps]. }
  specialize (Hkeeps w H). destruct (try_except _ _ w) as [res w']. exact Hkeeps.
Qed.

End Invariant.

(** ** Create, then get *)

Section RoundTrip.

Variable json_loads : pystr -> loads_error + json.
Variable sqlite_real_text : N -> option pystr.
Variable sql_id_eq : pystr -> Z -> bool.
Variable runtime_message : runtime_error -> pystr.
Variable server_name : pystr.

Local Abbreviation handle_users :=
  (_handle_users json_loads sqlite_real_text sql_id_eq runtime_message).

Lemma str_int_nonempty z : str_int z <> [].
Proof. unfold str_int. destruct (Z.to_int z) as [[]|[]]; discriminate. Qed.

Lemma ascii_encodable s : is_ascii s = true -> encodable s.
Proof.
  induction s as [|c s IH]; simpl; [constructor|].
  intros H. apply andb_prop in H as [Hc Hs]. constructor; [|apply IH, Hs].
  unfold utf8_encode_char. rewrite Hc. discriminate.
Qed.

Lemma all_in_present items :
  lookup_item (lit "email") items <> None ->
  lookup_item (lit "password") items <> None ->
  lookup_item (lit "message") items <> None ->
  all_in [lit "email"; lit "password"; lit "message"] (JObj items) = inr true.
Proof.
  intros He Hp Hm. simpl.
  destruct (lookup_item (lit "email") items); [|congruence].
  destruct (lookup_item (lit "password") items); [|congruence].
  destruct (lookup_item (lit "message") items); [|congruence].
  reflexivity.
Qed.

Lemma create_user_stores body items e p pv pt m w :
  body <> [] -> json_loads body = inr (JObj items) ->
  lookup_item (lit "email") items = Some (JStr e) ->
  lookup_item (lit "password") items = Some p ->
  lookup_item (lit "message") items = Some (JStr m) ->
  encodable e -> encodable m ->
  bind_param p = inr pv -> text_affinity sqlite_real_text pv = Some pt ->
  ready (store w) = true -> sequence (store w) < max_rowid ->
  _create_user json_loads sqlite_real_text (Some body) w
  = (inr tt,
     after_send
       (json_reply 201
          (PDict [(lit "message", PStr (lit "User created successfully"));
                  (lit "user_id", PInt (sequence (store w) + 1))]))
       (with_store
          (mk_database
             (users (store w) ++ [mk_user (sequence (store w) + 1) e pt m])
             (sequence (store w) + 1) (tl (faults (store w))))
          w)).
Proof.
  intros Hne Hload He Hp Hm Ee Em Hbind Htext Hready Hseq.
  unfold _create_user. destruct body as [|c body']; [congruence|].
  cbn [truthy negb default from_option id].
  unfold try_except, bind at 1, loads. rewrite Hload. cbn [ret].
  unfold bind at 1. rewrite all_in_present by congruence. cbn [lift ret negb].
  unfold bind at 1. cbn [getitem]. rewrite He. cbn [lift ret].
  unfold bind at 1. rewrite Hp. cbn [lift ret].
  unfold bind at 1. rewrite Hm. cbn [lift ret].
  unfold bind. rewrite db_execute_eq, (execute_ready _ _ Hready).
  unfold insert_user. cbn [bind_params].
  rewrite (bind_text _ Ee), (bind_text _ Em), Hbind.
  destruct (Z.leb_spec max_rowid (sequence (store w))) as [Hle|_]; [lia|].
  cbn [combine stored_texts text_affinity]. rewrite Htext.
  cbn [fst snd apply_sets fold_left set_column user_id email password message].
  rewrite _send_response_ok. reflexivity.
Qed.

Lemma matching_new id uid rows u :
  (forall z, sql_id_eq id z = (uid =? z)) ->
  Forall (fun r => user_id r < uid) rows -> user_id u = uid ->
  matching sql_id_eq id (rows ++ [u]) = [u].
Proof.
  intros Heq Hrows Hu. unfold matching. rewrite List.filter_app. simpl.
  rewrite Heq, Hu, Z.eqb_refl.
  replace (List.filter _ rows) with (@nil user); [reflexivity|].
  induction Hrows as [|r rows Hr _ IH]; [reflexivity|]. simpl.
  rewrite Heq. destruct (Z.eqb_spec uid (user_id r)); [lia|exact IH].
Qed.

(** C8, as the code has it: a create whose body is a JSON object with
    [email] and [message] given as strings that have a UTF-8 form, and a
    [password] the table can store, answers 201 with the new id; a GET
    with that id on the next connection answers 200 with that id and
    exactly the email and message submitted.  Neither payload has a
    password field, and no answer of the server to any request depends on
    the passwords stored. *)
Theorem C8_create_then_get body items e p pv pt m post_parameters
    get_parameters get_body w :
  body <> [] -> json_loads body = inr (JObj items) ->
  lookup_item (lit "email") items = Some (JStr e) ->
  lookup_item (lit "password") items = Some p ->
  lookup_item (lit "message") items = Some (JStr m) ->
  encodable e -> encodable m ->
  bind_param p = inr pv -> text_affinity sqlite_real_text pv = Some pt ->
  ready (store w) = true -> ready (served (store w)) = true ->
  sequence (store w) < max_rowid ->
  ids_bounded (store w) ->
  (forall z, sql_id_eq (str_int (sequence (store w) + 1)) z
             = (sequence (store w) + 1 =? z)) ->
  get_parameters !! lit "id" = Some (str_int (sequence (store w) + 1)) ->
  let uid := sequence (store w) + 1 in
  let created :=
    mk_database (users (store w) ++ [mk_user uid e pt m]) uid
      (tl (faults (store w))) in
  let w1 :=
    after_send
      (json_reply 201
         (PDict [(lit "message", PStr (lit "User created successfully"));
                 (lit "user_id", PInt uid)]))
      (with_store created w) in
  handle_users (lit "POST") post_parameters (Some body) w = (inr tt, w1)
  /\ handle_users (lit "GET") get_parameters get_body (next_connection w1)
     = (inr tt,
        mk_world
          [json_reply 200
             (PDict [(lit "id", PInt uid); (lit "email", PStr e);
                     (lit "message", PStr m)])]
          false (served created))
  /\ (forall start_time raw_request wa wb,
         same_view wa wb ->
         sent (snd (handle_client json_loads sqlite_real_text sql_id_eq
                      runtime_message server_name start_time raw_request wa))
         = sent (snd (handle_client json_loads sqlite_real_text sql_id_eq
                        runtime_message server_name start_time raw_request wb))).
Proof.
  intros Hne Hload He Hp Hm Ee Em Hbind Htext Hready Hready' Hseq Hids Heq Hid.
  cbv zeta. split; [|split].
  - apply handle_users_ok. rewrite dispatch_post.
    apply (create_user_stores body items e p pv pt m); assumption.
  - apply handle_users_ok. rewrite dispatch_get.
    rewrite (get_users_by_id _ _ _ _ Hid);
      [|apply str_int_nonempty|apply ascii_encodable, str_int_ascii|exact Hready'].
    cbn [store next_connection after_send with_store users].
    rewrite (matching_new _ (sequence (store w) + 1));
      [reflexivity|exact Heq| |reflexivity].
    unfold ids_bounded in Hids. revert Hids.
    apply List.Forall_impl. intros u Hu. lia.
  - intros start_time raw_request wa wb Hview.
    destruct (handle_client_blind json_loads sqlite_real_text sql_id_eq
                runtime_message server_name start_time raw_request wa wb Hview)
      as (_ & Hs & _).
    exact Hs.
Qed.

End RoundTrip.

(** ** Header lines do not matter *)

Section Headers.

Variable json_loads : pystr -> loads_error + json.
Variable sqlite_real_text : N -> option pystr.
Variable sql_id_eq : pystr -> Z -> bool.
Variable runtime_message : runtime_error -> pystr.
Variable server_name : pystr.

Local Abbreviation client :=
  (handle_client json_loads sqlite_real_text sql_id_eq runtime_message server_name).

(** The loop over the header lines never raises: a line that contains
    [": "] splits in two. *)
Lemma read_headers_total lines d : exists d', read_headers lines d = inr d'.
Proof.
  revert d. induction lines as [|h lines IH]; intros d; simpl; [eauto|].
  unfold contains, split1.
  destruct (partition_at (lit ": ") h) as [[a b]|]; simpl; apply IH.
Qed.

Lemma parse_request_same raw1 raw2 t1 t2 :
  utf8_decode raw1 = Some t1 -> utf8_decode raw2 = Some t2 ->
  first_line_of t1 = first_line_of t2 -> body_of t1 = body_of t2 ->
  match parse_request raw1, parse_request raw2 with
  | inl e1, inl e2 => e1 = e2
  | inr r1, inr r2 => same_request r1 r2
  | _, _ => False
  end.
Proof.
  intros H1 H2 Hline Hbody. unfold parse_request, and_then.
  rewrite H1, H2, Hline, Hbody.
  destruct (unpack3 (split_ws (first_line_of t2))) as [e|[[m p] v]];
    [reflexivity|]. cbn [fst snd].
  destruct (read_headers_total (tl (split CRLF (header_block t1))) ∅) as [d1 ->].
  destruct (read_headers_total (tl (split CRLF (header_block t2))) ∅) as [d2 ->].
  destruct (if contains (lit "?") p then _ else _) as [e|pp]; [reflexivity|].
  unfold same_request. cbn. auto.
Qed.

Lemma route_same start_time r1 r2 w :
  same_request r1 r2 ->
  route json_loads sqlite_real_text sql_id_eq runtime_message server_name
    start_time r1 w
  = route json_loads sqlite_real_text sql_id_eq runtime_message server_name
      start_time r2 w.
Proof. intros (Hm & Hp & Hq & Hb). unfold route. rewrite Hm, Hp, Hq, Hb. reflexivity. Qed.

(** The answer depends on the first line and on the body only. *)
Lemma client_same start_time raw1 raw2 t1 t2 w :
  raw1 <> [] -> raw2 <> [] ->
  utf8_decode raw1 = Some t1 -> utf8_decode raw2 = Some t2 ->
  first_line_of t1 = first_line_of t2 -> body_of t1 = body_of t2 ->
  client start_time raw1 w = client start_time raw2 w.
Proof.
  intros N1 N2 H1 H2 Hline Hbody.
  pose proof (parse_request_same _ _ _ _ H1 H2 Hline Hbody) as Hsame.
  unfold handle_client, try_except, handle_request, bind.
  destruct raw1 as [|x1 raw1]; [congruence|].
  destruct raw2 as [|x2 raw2]; [congruence|].
  destruct (parse_request (x1 :: raw1)) as [e1|r1],
    (parse_request (x2 :: raw2)) as [e2|r2]; try contradiction; simpl.
  - subst. reflexivity.
  - rewrite (route_same _ _ _ _ Hsame). reflexivity.
Qed.

(** *** The frame of a request *)

Lemma join_lines first_line header_lines :
  join CRLF (first_line :: header_lines)
  = first_line ++ concat (map (app CRLF) header_lines).
Proof.
  revert first_line. induction header_lines as [|h hs IH]; intros f.
  - simpl. rewrite app_nil_r. reflexivity.
  - rewrite join_cons, IH. reflexivity.
Qed.

Lemma strip_blank_line x s :
  x <> CR -> strip_prefix (CRLF ++ CRLF) (CR :: LF :: x :: s) = None.
Proof.
  intros H. change (CRLF ++ CRLF) with [CR; LF; CR; LF]. cbn [strip_prefix].
  rewrite !N.eqb_refl. destruct (N.eqb_spec CR x); congruence.
Qed.

Lemma partition_after_headers header_lines rest :
  Forall header_line_ok header_lines ->
  partition_at (CRLF ++ CRLF) (concat (map (app CRLF) header_lines) ++ rest)
  = match partition_at (CRLF ++ CRLF) rest with
    | Some (a, b) => Some (concat (map (app CRLF) header_lines) ++ a, b)
    | None => None
    end.
Proof.
  induction 1 as [|h hs [Hne Hcr] _ IH].
  - simpl. destruct (partition_at _ rest) as [[a b]|]; reflexivity.
  - destruct h as [|x h']; [congruence|].
    cbn [map concat]. rewrite <- !app_assoc.
    change (CRLF ++ (x :: h') ++ concat (map (app CRLF) hs) ++ rest)
      with (CR :: LF :: (x :: h') ++ concat (map (app CRLF) hs) ++ rest).
    assert (x <> CR) as Hx by (inversion Hcr; assumption).
    rewrite partition_at_cons by (apply strip_blank_line, Hx).
    rewrite partition_at_cons by reflexivity.
    change (CRLF ++ CRLF) with (CR :: [LF; CR; LF]) in *.
    rewrite (partition_at_skip CR [LF; CR; LF] (x :: h') _ Hcr), IH.
    destruct (partition_at _ rest) as [[a b]|]; [|reflexivity].
    rewrite <- !app_assoc. reflexivity.
Qed.

Lemma partition_frame first_line header_lines body :
  no_CR first_line -> Forall header_line_ok header_lines ->
  partition_at (CRLF ++ CRLF) (frame first_line header_lines body)
  = match body with
    | Some b => Some (join CRLF (first_line :: header_lines), b)
    | None => None
    end.
Proof.
  intros Hf Hh. unfold frame. rewrite join_lines, <- app_assoc.
  change (CRLF ++ CRLF) with (CR :: [LF; CR; LF]) at 1.
  rewrite (partition_at_skip CR [LF; CR; LF] first_line _ Hf).
  change (CR :: [LF; CR; LF]) with (CRLF ++ CRLF).
  rewrite (partition_after_headers _ _ Hh).
  destruct body as [b|].
  - change (CRLF ++ CRLF ++ b) with ((CRLF ++ CRLF) ++ b).
    rewrite (partition_at_here (CRLF ++ CRLF) b), app_nil_r. reflexivity.
  - reflexivity.
Qed.

Lemma frame_header_block first_line header_lines body :
  no_CR first_line -> Forall header_line_ok header_lines ->
  header_block (frame first_line header_lines body)
  = join CRLF (first_line :: header_lines).
Proof.
  intros Hf Hh. unfold header_block, split1.
  rewrite (partition_frame _ _ _ Hf Hh). destruct body; [reflexivity|].
  unfold frame. rewrite app_nil_r. reflexivity.
Qed.

Lemma frame_body first_line header_lines body :
  no_CR first_line -> Forall header_line_ok header_lines ->
  body_of (frame first_line header_lines body) = body.
Proof.
  intros Hf Hh. unfold body_of, split1.
  rewrite (partition_frame _ _ _ Hf Hh). destruct body; reflexivity.
Qed.

Lemma frame_first_line first_line header_lines body :
  no_CR first_line -> Forall header_line_ok header_lines ->
  first_line_of (frame first_line header_lines body) = first_line.
Proof.
  intros Hf Hh. unfold first_line_of.
  rewrite (frame_header_block _ _ _ Hf Hh).
  change CRLF with (CR :: [LF]).
  rewrite (split_join CR [LF]); [reflexivity|discriminate|].
  constructor; [exact Hf|]. revert Hh. apply List.Forall_impl.
  intros h [_ H]. exact H.
Qed.

Lemma decode_nonempty raw t : utf8_decode raw = Some t -> t <> [] -> raw <> [].
Proof. intros H Ht ->. cbv in H. congruence. Qed.

Lemma frame_nonempty first_line header_lines body :
  first_line <> [] -> frame first_line header_lines body <> [].
Proof.
  intros Hf. unfold frame. rewrite join_lines.
  destruct first_line; [congruence|discriminate].
Qed.

(** C10: two requests with the same first line and the same body, whose
    header blocks are well formed (lines without carriage return, header
    lines not empty) and differ in any way, get the same answer from the
    same datastore and leave it in the same state: [headers_dict] is
    filled and never read. *)
Theorem C10_header_lines_ignored start_time first_line headers1 headers2 body
    raw1 raw2 w :
  first_line <> [] -> no_CR first_line ->
  Forall header_line_ok headers1 -> Forall header_line_ok headers2 ->
  utf8_decode raw1 = Some (frame first_line headers1 body) ->
  utf8_decode raw2 = Some (frame first_line headers2 body) ->
  client start_time raw1 w = client start_time raw2 w.
Proof.
  intros Hne Hf Hh1 Hh2 H1 H2.
  apply (client_same _ _ _ _ _ _
           (decode_nonempty _ _ H1 (frame_nonempty _ _ _ Hne))
           (decode_nonempty _ _ H2 (frame_nonempty _ _ _ Hne)) H1 H2).
  - rewrite !frame_first_line; auto.
  - rewrite !frame_body; auto.
Qed.

End Headers.

(** ** Worked cases *)

Module Cases.

Import Sample.

(** A GET on /users while the database file cannot be opened is answered
    400 with the text of the error. *)
Lemma C1_failing_file :
  let request := raw (request_to "GET /users HTTP/1.1" []) in
  let r := parsed "GET" "/users" ∅ [] in
  let w := fresh failing_db in
  let e := Runtime (OperationalError 14) in
  request <> []
  /\ parse_request request = inr r
  /\ req_path r = lit "/users"
  /\ users_dispatch json_loads sqlite_real_text sql_id_eq
       (req_method r) (req_parameters r) (req_body r) w
     = (inl e, with_store (served failing_db) w)
  /\ is_storage_error e = true
  /\ handle_client json_loads sqlite_real_text sql_id_eq runtime_message
       server_name (lit "2024-01-01 00:00:00") request w
     = (inr tt,
        close
          (after_send
             (json_reply 400 (error_payload (lit "unable to open database file")))
             (with_store (served failing_db) w))).
Proof.
  cbv zeta.
  assert (raw (request_to "GET /users HTTP/1.1" []) <> []) as H1
    by (vm_compute; discriminate).
  assert (parse_request (raw (request_to "GET /users HTTP/1.1" []))
          = inr (parsed "GET" "/users" ∅ [])) as H2
    by (vm_compute; reflexivity).
  assert (req_path (parsed "GET" "/users" ∅ []) = lit "/users") as H3
    by reflexivity.
  assert (users_dispatch json_loads sqlite_real_text sql_id_eq
            (req_method (parsed "GET" "/users" ∅ []))
            (req_parameters (parsed "GET" "/users" ∅ []))
            (req_body (parsed "GET" "/users" ∅ [])) (fresh failing_db)
          = (inl (Runtime (OperationalError 14)),
             with_store (served failing_db) (fresh failing_db))) as H4
    by (vm_compute; reflexivity).
  assert (is_storage_error (Runtime (OperationalError 14)) = true) as H5
    by reflexivity.
  refine (conj H1 (conj H2 (conj H3 (conj H4 (conj H5 _))))).
  exact (C1_storage_error_answered_400 json_loads sqlite_real_text sql_id_eq
           runtime_message server_name (lit "2024-01-01 00:00:00")
           _ _ _ _ _ H1 H2 H3 H4 H5).
Defined.

(** A create with a null email makes the INSERT fail; the answer is 400
    with the text of the constraint, not the generic 500. *)
Lemma C1_null_email_is_400 :
  let w := fresh empty_db in
  users_dispatch json_loads sqlite_real_text sql_id_eq
    (lit "POST") ∅ (Some json_null_email) w
  = (inl (Runtime (NotNullFailed Email)), w)
  /\ is_storage_error (Runtime (NotNullFailed Email)) = true
  /\ sent (snd (client (request_to "POST /users HTTP/1.1" json_null_email) w))
     = [json_reply 400
          (error_payload (lit "NOT NULL constraint failed: users.email"))]
  /\ sent (snd (client (request_to "POST /users HTTP/1.1" json_null_email) w))
     <> [json_reply 500 (error_payload (lit "Internal server error"))].
Proof.
  cbv zeta. repeat split; try (vm_compute; reflexivity).
  vm_compute. discriminate.
Qed.

(** A POST whose body is the single character [{]. *)
Lemma C2_post_open_brace :
  let request := raw (request_to "POST /users HTTP/1.1" (lit "{")) in
  let r := parsed "POST" "/users" ∅ (lit "{") in
  let w := fresh empty_db in
  request <> []
  /\ parse_request request = inr r
  /\ req_path r = lit "/users"
  /\ req_body r = Some (lit "{")
  /\ lit "{" <> []
  /\ json_loads (lit "{") = inl NotJSON
  /\ handle_client json_loads sqlite_real_text sql_id_eq runtime_message
       server_name (lit "2024-01-01 00:00:00") request w
     = (inr tt,
        close (after_send
                 (json_reply 400 (error_payload (lit "Invalid JSON format"))) w)).
Proof.
  cbv zeta.
  assert (raw (request_to "POST /users HTTP/1.1" (lit "{")) <> []) as H1
    by (vm_compute; discriminate).
  assert (parse_request (raw (request_to "POST /users HTTP/1.1" (lit "{")))
          = inr (parsed "POST" "/users" ∅ (lit "{"))) as H2
    by (vm_compute; reflexivity).
  assert (req_path (parsed "POST" "/users" ∅ (lit "{")) = lit "/users") as H3
    by reflexivity.
  assert (req_body (parsed "POST" "/users" ∅ (lit "{")) = Some (lit "{")) as H4
    by reflexivity.
  assert (lit "{" <> []) as H5 by (vm_compute; discriminate).
  assert (json_loads (lit "{") = inl NotJSON) as H6 by (vm_compute; reflexivity).
  refine (conj H1 (conj H2 (conj H3 (conj H4 (conj H5 (conj H6 _)))))).
  exact (proj1 (C2_invalid_json json_loads sqlite_real_text sql_id_eq
                  runtime_message server_name (lit "2024-01-01 00:00:00")
                  _ _ _ NotJSON (fresh empty_db) H1 H2 H3 H4 H5 H6) eq_refl).
Defined.

(** A PATCH without [id] and with the same body is told about the id,
    not about the JSON. *)
Lemma C2_patch_without_id :
  let w := fresh empty_db in
  let reply := sent (snd (client (request_to "PATCH /users HTTP/1.1" (lit "{")) w)) in
  json_loads (lit "{") = inl NotJSON
  /\ reply = [json_reply 400 (error_payload (lit "Missing user id parameter"))]
  /\ reply <> [json_reply 400 (error_payload (lit "Invalid JSON format"))].
Proof.
  cbv zeta. split; [|split]; try (vm_compute; reflexivity).
  vm_compute. discriminate.
Qed.

(** A body that begins with a numeral of 4400 digits: [int()] refuses
    the numeral, [except json.JSONDecodeError] does not catch that
    [ValueError], and the 400 carries its text. *)
Lemma long_numeral_is_400 :
  let body := repeat 55%N 4400 ++ lit " x" in
  let w := fresh empty_db in
  json_loads body = inl TooManyDigits
  /\ snd (client (request_to "POST /users HTTP/1.1" body) w)
     = mk_world
         [json_reply 400
            (error_payload
               (lit "Exceeds the limit (4300 digits) for integer string conversion"))]
         true empty_db.
Proof. cbv zeta. split; vm_compute; reflexivity. Qed.

Lemma sample_pieces_ok : Forall piece_ok sample_pieces.
Proof.
  unfold sample_pieces, piece_ok, plain.
  repeat (constructor; try (vm_compute; discriminate)).
Defined.

(** The query string [id=7&debug&id=8&q=]. *)
Lemma X19_sample_query :
  sample_pieces <> []
  /\ Forall piece_ok sample_pieces
  /\ _parse_parameters (join (lit "&") (map piece_text sample_pieces))
     = inr (fold_left record_piece sample_pieces ∅).
Proof.
  assert (sample_pieces <> []) as H1 by discriminate.
  refine (conj H1 (conj sample_pieces_ok _)).
  exact (X19_parse_parameters_pairs sample_pieces H1 sample_pieces_ok).
Defined.

(** A value with a second [=] is not truncated: building the dictionary
    fails, and the request is answered 500. *)
Lemma C3_second_equals_sign :
  _parse_parameters (lit "a=b=c") = inl (Runtime DictUpdateError)
  /\ _parse_parameters (lit "a=b=c") <> inr {[ lit "a" := lit "b" ]}
  /\ sent (snd (client (request_to "GET /users?id=1=2 HTTP/1.1" [])
                  (fresh one_user)))
     = [json_reply 500 (error_payload (lit "Internal server error"))].
Proof.
  split; [vm_compute; reflexivity|]. split; [|vm_compute; reflexivity].
  vm_compute. discriminate.
Qed.

(** A method the dispatcher does not know. *)
Lemma C4_brew_users :
  let request := raw (request_to "BREW /users HTTP/1.1" []) in
  let r := parsed "BREW" "/users" ∅ [] in
  let w := fresh one_user in
  request <> []
  /\ parse_request request = inr r
  /\ handle_client json_loads sqlite_real_text sql_id_eq runtime_message
       server_name (lit "2024-01-01 00:00:00") request w
     = (inr tt,
        close (after_send
                 (json_reply 405 (error_payload (lit "Method not allowed"))) w)).
Proof.
  cbv zeta.
  assert (raw (request_to "BREW /users HTTP/1.1" []) <> []) as H1
    by (vm_compute; discriminate).
  assert (parse_request (raw (request_to "BREW /users HTTP/1.1" []))
          = inr (parsed "BREW" "/users" ∅ [])) as H2
    by (vm_compute; reflexivity).
  refine (conj H1 (conj H2 _)).
  destruct (C4_routing json_loads sqlite_real_text sql_id_eq runtime_message
              server_name (lit "2024-01-01 00:00:00") _ _ (fresh one_user) H1 H2)
    as (_ & Husers & _).
  destruct (Husers eq_refl) as (_ & _ & _ & _ & _ & Hother).
  apply Hother; intros E; vm_compute in E; discriminate E.
Defined.

(** Fetching the one user of the table by id. *)
Lemma C5_get_alice :
  let request := raw (request_to "GET /users?id=1 HTTP/1.1" []) in
  let r := parsed "GET" "/users" {[ lit "id" := lit "1" ]} [] in
  let w := fresh one_user in
  request <> []
  /\ parse_request request = inr r
  /\ req_path r = lit "/users"
  /\ req_method r = lit "GET"
  /\ ready (store w) = true
  /\ handle_client json_loads sqlite_real_text sql_id_eq runtime_message
       server_name (lit "2024-01-01 00:00:00") request w
     = (inr tt,
        close
          (after_send
             (json_reply 200
                (PDict [(lit "id", PInt 1); (lit "email", PStr (lit "a@b.com"));
                        (lit "message", PStr (lit "hi"))]))
             (with_store (served one_user) w))).
Proof.
  cbv zeta.
  assert (raw (request_to "GET /users?id=1 HTTP/1.1" []) <> []) as H1
    by (vm_compute; discriminate).
  assert (parse_request (raw (request_to "GET /users?id=1 HTTP/1.1" []))
          = inr (parsed "GET" "/users" {[ lit "id" := lit "1" ]} [])) as H2
    by (vm_compute; reflexivity).
  assert (req_path (parsed "GET" "/users" {[ lit "id" := lit "1" ]} [])
          = lit "/users") as H3 by reflexivity.
  assert (req_method (parsed "GET" "/users" {[ lit "id" := lit "1" ]} [])
          = lit "GET") as H4 by reflexivity.
  assert (ready (store (fresh one_user)) = true) as H5 by reflexivity.
  refine (conj H1 (conj H2 (conj H3 (conj H4 (conj H5 _))))).
  exact (proj1 (C5_get_users json_loads sqlite_real_text sql_id_eq
                  runtime_message server_name (lit "2024-01-01 00:00:00")
                  _ _ (fresh one_user) H1 H2 H3 H4 H5)).
Defined.

(** [GET /users?id=] on an empty table: the parameter is present, no row
    matches, and the answer is the list, not 404. *)
Lemma C5_empty_id_lists :
  let w := fresh empty_db in
  let reply := sent (snd (client (request_to "GET /users?id= HTTP/1.1" []) w)) in
  parse_request (raw (request_to "GET /users?id= HTTP/1.1" []))
  = inr (parsed "GET" "/users" {[ lit "id" := [] ]} [])
  /\ ({[ lit "id" := [] ]} : gmap pystr pystr) !! lit "id" = Some []
  /\ reply
     = [json_reply 200 (PDict [(lit "count", PInt 0); (lit "users", PList [])])]
  /\ reply <> [json_reply 404 (error_payload (lit "User not found"))].
Proof.
  cbv zeta. repeat split; try (vm_compute; reflexivity).
  vm_compute. discriminate.
Qed.

(** Deleting an id no row has. *)
Lemma C6_delete_nobody :
  let request := raw (request_to "DELETE /users?id=42 HTTP/1.1" []) in
  let r := parsed "DELETE" "/users" {[ lit "id" := lit "42" ]} [] in
  let w := fresh one_user in
  request <> []
  /\ parse_request request = inr r
  /\ req_path r = lit "/users"
  /\ req_method r = lit "DELETE"
  /\ ready (store w) = true
  /\ handle_client json_loads sqlite_real_text sql_id_eq runtime_message
       server_name (lit "2024-01-01 00:00:00") request w
     = (inr tt,
        close
          (after_send
             (json_reply 200
                (PDict [(lit "message", PStr (lit "User 42 deleted"))]))
             (with_store one_user w))).
Proof.
  cbv zeta.
  assert (raw (request_to "DELETE /users?id=42 HTTP/1.1" []) <> []) as H1
    by (vm_compute; discriminate).
  assert (parse_request (raw (request_to "DELETE /users?id=42 HTTP/1.1" []))
          = inr (parsed "DELETE" "/users" {[ lit "id" := lit "42" ]} [])) as H2
    by (vm_compute; reflexivity).
  assert (req_path (parsed "DELETE" "/users" {[ lit "id" := lit "42" ]} [])
          = lit "/users") as H3 by reflexivity.
  assert (req_method (parsed "DELETE" "/users" {[ lit "id" := lit "42" ]} [])
          = lit "DELETE") as H4 by reflexivity.
  assert (ready (store (fresh one_user)) = true) as H5 by reflexivity.
  refine (conj H1 (conj H2 (conj H3 (conj H4 (conj H5 _))))).
  exact (proj1 (C6_delete_user json_loads sqlite_real_text sql_id_eq
                  runtime_message server_name (lit "2024-01-01 00:00:00")
                  _ _ (fresh one_user) H1 H2 H3 H4 H5)).
Defined.

(** [DELETE /users?id=]: the parameter is supplied, yet the answer is the
    400 of a missing id and not a 200. *)
Lemma C6_empty_id_refused :
  let w := fresh one_user in
  let outcome := snd (client (request_to "DELETE /users?id= HTTP/1.1" []) w) in
  parse_request (raw (request_to "DELETE /users?id= HTTP/1.1" []))
  = inr (parsed "DELETE" "/users" {[ lit "id" := [] ]} [])
  /\ ({[ lit "id" := [] ]} : gmap pystr pystr) !! lit "id" = Some []
  /\ sent outcome
     = [json_reply 400 (error_payload (lit "Missing user id parameter"))]
  /\ sent outcome
     <> [json_reply 200 (PDict [(lit "message", PStr (lit "User  deleted"))])].
Proof.
  cbv zeta. repeat split; try (vm_compute; reflexivity).
  vm_compute. discriminate.
Qed.

(** [?id=] on the dispatcher. *)
Lemma C9_empty_id :
  let parameters : gmap pystr pystr := {[ lit "id" := [] ]} in
  parameters !! lit "id" = Some []
  /\ (forall method body w,
         users_endpoint method parameters body w
         = users_endpoint method (delete (lit "id") parameters) body w)
  /\ (forall method body w,
         method = lit "DELETE" \/ method = lit "PATCH" ->
         users_endpoint method parameters body w
         = (inr tt,
            after_send
              (json_reply 400 (error_payload (lit "Missing user id parameter")))
              w)).
Proof.
  cbv zeta.
  assert (({[ lit "id" := [] ]} : gmap pystr pystr) !! lit "id" = Some []) as H1
    by reflexivity.
  refine (conj H1 _).
  destruct (C9_empty_id_is_absent json_loads sqlite_real_text sql_id_eq
              runtime_message _ H1) as (Hsame & _ & Hrefused).
  exact (conj Hsame Hrefused).
Defined.

(** Two requests that differ in their header lines only. *)
Lemma C10_two_header_blocks :
  let first_line := lit "GET /users?id=1 HTTP/1.1" in
  let headers1 := [lit "Host: localhost"] in
  let headers2 := [lit "Host: example.org"; lit "X-Trace: 7"; lit "garbage"] in
  let raw1 := ascii_bytes (frame first_line headers1 (Some [])) in
  let raw2 := ascii_bytes (frame first_line headers2 (Some [])) in
  first_line <> []
  /\ no_CR first_line
  /\ Forall header_line_ok headers1
  /\ Forall header_line_ok headers2
  /\ utf8_decode raw1 = Some (frame first_line headers1 (Some []))
  /\ utf8_decode raw2 = Some (frame first_line headers2 (Some []))
  /\ handle_client json_loads sqlite_real_text sql_id_eq runtime_message
       server_name (lit "2024-01-01 00:00:00") raw1 (fresh one_user)
     = handle_client json_loads sqlite_real_text sql_id_eq runtime_message
         server_name (lit "2024-01-01 00:00:00") raw2 (fresh one_user).
Proof.
  cbv zeta.
  assert (lit "GET /users?id=1 HTTP/1.1" <> []) as H1 by (vm_compute; discriminate).
  assert (no_CR (lit "GET /users?id=1 HTTP/1.1")) as H2
    by (unfold no_CR; repeat (constructor; try (vm_compute; discriminate))).
  assert (Forall header_line_ok [lit "Host: localhost"]) as H3
    by (unfold header_line_ok, no_CR;
        repeat (constructor; try (vm_compute; discriminate))).
  assert (Forall header_line_ok
            [lit "Host: example.org"; lit "X-Trace: 7"; lit "garbage"]) as H4
    by (unfold header_line_ok, no_CR;
        repeat (constructor; try (vm_compute; discriminate))).
  assert (utf8_decode
            (ascii_bytes (frame (lit "GET /users?id=1 HTTP/1.1")
                            [lit "Host: localhost"] (Some [])))
          = Some (frame (lit "GET /users?id=1 HTTP/1.1")
                    [lit "Host: localhost"] (Some []))) as H5
    by (vm_compute; reflexivity).
  assert (utf8_decode
            (ascii_bytes
               (frame (lit "GET /users?id=1 HTTP/1.1")
                  [lit "Host: example.org"; lit "X-Trace: 7"; lit "garbage"]
                  (Some [])))
          = Some (frame (lit "GET /users?id=1 HTTP/1.1")
                    [lit "Host: example.org"; lit "X-Trace: 7"; lit "garbage"]
                    (Some []))) as H6
    by (vm_compute; reflexivity).
  refine (conj H1 (conj H2 (conj H3 (conj H4 (conj H5 (conj H6 _)))))).
  exact (C10_header_lines_ignored json_loads sqlite_real_text sql_id_eq
           runtime_message server_name (lit "2024-01-01 00:00:00")
           _ _ _ _ _ _ (fresh one_user) H1 H2 H3 H4 H5 H6).
Defined.

(** The create of the scenario on an empty table, then the GET of id 1. *)
Lemma C8_create_alice :
  let items :=
    [(lit "message", JStr (lit "hi")); (lit "password", JStr (lit "x"));
     (lit "email", JStr (lit "a@b.com"))] in
  let get_parameters : gmap pystr pystr := {[ lit "id" := lit "1" ]} in
  let w := fresh empty_db in
  let w1 :=
    after_send
      (json_reply 201
         (PDict [(lit "message", PStr (lit "User created successfully"));
                 (lit "user_id", PInt 1)]))
      (with_store one_user w) in
  json_ok <> []
  /\ json_loads json_ok = inr (JObj items)
  /\ lookup_item (lit "email") items = Some (JStr (lit "a@b.com"))
  /\ lookup_item (lit "password") items = Some (JStr (lit "x"))
  /\ lookup_item (lit "message") items = Some (JStr (lit "hi"))
  /\ encodable (lit "a@b.com") /\ encodable (lit "hi")
  /\ bind_param (JStr (lit "x")) = inr (SqlText (lit "x"))
  /\ text_affinity sqlite_real_text (SqlText (lit "x")) = Some (lit "x")
  /\ ready (store w) = true /\ ready (served (store w)) = true
  /\ sequence (store w) < max_rowid
  /\ ids_bounded (store w)
  /\ (forall z, sql_id_eq (str_int (sequence (store w) + 1)) z
                = (sequence (store w) + 1 =? z))
  /\ get_parameters !! lit "id" = Some (str_int (sequence (store w) + 1))
  /\ users_endpoint (lit "POST") ∅ (Some json_ok) w = (inr tt, w1)
  /\ users_endpoint (lit "GET") get_parameters None (next_connection w1)
     = (inr tt,
        mk_world
          [json_reply 200
             (PDict [(lit "id", PInt 1); (lit "email", PStr (lit "a@b.com"));
                     (lit "message", PStr (lit "hi"))])]
          false (served one_user)).
Proof.
  cbv zeta.
  pose (items := [(lit "message", JStr (lit "hi")); (lit "password", JStr (lit "x"));
                  (lit "email", JStr (lit "a@b.com"))]).
  assert (json_ok <> []) as H1 by (vm_compute; discriminate).
  assert (json_loads json_ok = inr (JObj items)) as H2 by (vm_compute; reflexivity).
  assert (lookup_item (lit "email") items = Some (JStr (lit "a@b.com"))) as H3
    by (vm_compute; reflexivity).
  assert (lookup_item (lit "password") items = Some (JStr (lit "x"))) as H4
    by (vm_compute; reflexivity).
  assert (lookup_item (lit "message") items = Some (JStr (lit "hi"))) as H5
    by (vm_compute; reflexivity).
  assert (encodable (lit "a@b.com")) as H6 by (apply ascii_encodable; reflexivity).
  assert (encodable (lit "hi")) as H7 by (apply ascii_encodable; reflexivity).
  assert (bind_param (JStr (lit "x")) = inr (SqlText (lit "x"))) as H8
    by (vm_compute; reflexivity).
  assert (text_affinity sqlite_real_text (SqlText (lit "x")) = Some (lit "x")) as H9
    by reflexivity.
  assert (ready (store (fresh empty_db)) = true) as H10 by reflexivity.
  assert (ready (served (store (fresh empty_db))) = true) as H11 by reflexivity.
  assert (sequence (store (fresh empty_db)) < max_rowid) as H12 by reflexivity.
  assert (ids_bounded (store (fresh empty_db))) as H13 by constructor.
  assert (forall z, sql_id_eq (str_int (sequence (store (fresh empty_db)) + 1)) z
                    = (sequence (store (fresh empty_db)) + 1 =? z)) as H14
    by (intros z; reflexivity).
  assert (({[ lit "id" := lit "1" ]} : gmap pystr pystr) !! lit "id"
          = Some (str_int (sequence (store (fresh empty_db)) + 1))) as H15
    by (vm_compute; reflexivity).
  refine (conj H1 (conj H2 (conj H3 (conj H4 (conj H5 (conj H6 (conj H7
            (conj H8 (conj H9 (conj H10 (conj H11 (conj H12 (conj H13
            (conj H14 (conj H15 _))))))))))))))).
  destruct (C8_create_then_get json_loads sqlite_real_text sql_id_eq
              runtime_message server_name json_ok items _ _ _ _ _ ∅
              {[ lit "id" := lit "1" ]} None (fresh empty_db)
              H1 H2 H3 H4 H5 H6 H7 H8 H9 H10 H11 H12 H13 H14 H15)
    as (Hpost & Hget & _).
  exact (conj Hpost Hget).
Defined.

(** An email submitted as the number 5 is stored as text: the create
    succeeds and the record comes back with the string "5". *)
Lemma C8_number_comes_back_as_text :
  let w := fresh empty_db in
  let w1 := snd (client (request_to "POST /users HTTP/1.1" json_number_email) w) in
  let w2 :=
    snd (client (request_to "GET /users?id=1 HTTP/1.1" []) (next_connection w1)) in
  (exists data,
      json_loads json_number_email = inr data
      /\ all_in [lit "email"; lit "password"; lit "message"] data = inr true
      /\ getitem data (lit "email") = inr (JInt 5))
  /\ sent w1
     = [json_reply 201
          (PDict [(lit "message", PStr (lit "User created successfully"));
                  (lit "user_id", PInt 1)])]
  /\ sent w2
     = [json_reply 200
          (PDict [(lit "id", PInt 1); (lit "email", PStr (lit "5"));
                  (lit "message", PStr (lit "hi"))])]
  /\ ~ agrees (JInt 5) (PStr (lit "5")).
Proof.
  cbv zeta. split; [|split; [|split]].
  - eexists. split; [vm_compute; reflexivity|]. split; vm_compute; reflexivity.
  - vm_compute. reflexivity.
  - vm_compute. reflexivity.
  - intros H. exact H.
Qed.

(** *** The scenario of the specification, step by step *)

Example scenario_replies :
  run scenario empty_db
  = [[json_reply 201
        (PDict [(lit "message", PStr (lit "User created successfully"));
                (lit "user_id", PInt 1)])];
     [json_reply 200
        (PDict [(lit "id", PInt 1); (lit "email", PStr (lit "a@b.com"));
                (lit "message", PStr (lit "hi"))])];
     [json_reply 200 (PDict [(lit "message", PStr (lit "User 1 updated"))])];
     [json_reply 200
        (PDict [(lit "id", PInt 1); (lit "email", PStr (lit "a@b.com"));
                (lit "message", PStr (lit "bye"))])];
     [json_reply 200 (PDict [(lit "message", PStr (lit "User 1 deleted"))])];
     [json_reply 404 (error_payload (lit "User not found"))]].
Proof. vm_compute. reflexivity. Qed.

Example reply_bytes :
  option_map to_string
    (utf8_decode (json_reply 404 (error_payload (lit "Path not found"))))
  = Some (to_string
            (lit "HTTP/1.1 404" ++ CRLF
             ++ lit "Content-Type: application/json" ++ CRLF
             ++ lit "Content-Length: 57" ++ CRLF ++ CRLF
             ++ dq "{'status_code': 404, 'data': {'error': 'Path not found'}}")).
Proof. vm_compute. reflexivity. Qed.

Example dumps_escapes :
  json_dumps (PStr [233; 10; 128512]%N)
  = [DQUOTE] ++ lit "\u00e9\n\ud83d\ude00" ++ [DQUOTE].
Proof. vm_compute. reflexivity. Qed.

Example split_amp :
  split (lit "&") (lit "a=1&&b=2&") = [lit "a=1"; []; lit "b=2"; []].
Proof. reflexivity. Qed.

Example split_ws_request_line :
  split_ws (lit "GET  /users?id=1 HTTP/1.1")
  = [lit "GET"; lit "/users?id=1"; lit "HTTP/1.1"].
Proof. reflexivity. Qed.

Example str_int_samples :
  str_int 0 = lit "0" /\ str_int 404 = lit "404" /\ str_int (-12) = lit "-12".
Proof. repeat split; reflexivity. Qed.

Example utf8_sample :
  utf8_encode [233; 8364; 128512]%N
  = Some (map byte_of [195; 169; 226; 130; 172; 240; 159; 152; 128]%N)
  /\ utf8_decode (map byte_of [195; 169; 226; 130; 172; 240; 159; 152; 128]%N)
     = Some [233; 8364; 128512]%N.
Proof. split; vm_compute; reflexivity. Qed.

End Cases.

(** ** One answer per request *)

Section Answers.

(** Any connection on which a [sendall] that raises leaves no trace and
    one that returns has delivered its message. *)
Context {conn : Connection}.
Hypothesis conn_sends : forall data, sends (eq data) (sendall data).

Variable json_loads : pystr -> loads_error + json.
Variable sqlite_real_text : N -> option pystr.
Variable sql_id_eq : pystr -> Z -> bool.
Variable runtime_message : runtime_error -> pystr.
Variable server_name : pystr.

Local Abbreviation handle_users :=
  (_handle_users json_loads sqlite_real_text sql_id_eq runtime_message).
Local Abbreviation client :=
  (handle_client json_loads sqlite_real_text sql_id_eq runtime_message server_name).

Lemma silent_ret {A} (a : A) : silent (ret a).
Proof. intros w. auto. Qed.

Lemma silent_raise {A} e : silent (@raise A e).
Proof. intros w. auto. Qed.

Lemma silent_lift {A} (r : exn + A) : silent (lift r).
Proof. destruct r; [apply silent_raise|apply silent_ret]. Qed.

Lemma silent_encode t : silent (encode t).
Proof. unfold encode. destruct (utf8_encode t); [apply silent_ret|apply silent_raise]. Qed.

Lemma silent_db_execute {A} (stmt : statement A) : silent (db_execute stmt).
Proof. intros w. rewrite db_execute_eq. auto. Qed.

Lemma silent_bind {A B} (m : M A) (k : A -> M B) :
  silent m -> (forall a, silent (k a)) -> silent (bind m k).
Proof.
  intros Hm Hk w. unfold bind. destruct (Hm w) as [Hs Hc].
  destruct (m w) as [[e|a] w']; simpl in *; [auto|].
  destruct (Hk a w') as [Hs' Hc']. split; congruence.
Qed.

Lemma silent_loads body : silent (loads json_loads body).
Proof. unfold loads. destruct (json_loads body); [apply silent_raise|apply silent_ret]. Qed.

Lemma silent_collect c key data sets : silent (collect c key data sets).
Proof.
  unfold collect. apply silent_bind; [apply silent_lift|].
  intros [|]; [|apply silent_ret].
  apply silent_bind; [apply silent_lift|]. intros v. apply silent_ret.
Qed.

Lemma sends_raise {A} P e : sends P (@raise A e).
Proof. intros w. simpl. auto. Qed.

Lemma sends_weaken {A} (P Q : pybytes -> Prop) (m : M A) :
  (forall data, P data -> Q data) -> sends P m -> sends Q m.
Proof.
  intros HPQ Hm w. specialize (Hm w). destruct (m w) as [[e|a] w']; [exact Hm|].
  destruct Hm as [(data & Hd & Hs) Hc]. eauto.
Qed.

Lemma sends_bind {A B} P (m : M A) (k : A -> M B) :
  silent m -> (forall a, sends P (k a)) -> sends P (bind m k).
Proof.
  intros Hm Hk w. unfold bind. destruct (Hm w) as [Hs Hc].
  destruct (m w) as [[e|a] w']; simpl in *; [auto|].
  specialize (Hk a w'). destruct (k a w') as [[e|b] w''].
  - destruct Hk. split; congruence.
  - destruct Hk as [(data & Hd & Hs') Hc']. split; [|congruence].
    exists data. split; [exact Hd|congruence].
Qed.

Lemma sends_try {A} P (m : M A) (h : exn -> M A) :
  sends P m -> (forall e, sends P (h e)) -> sends P (try_except m h).
Proof.
  intros Hm Hh w. unfold try_except. specialize (Hm w).
  destruct (m w) as [[e|a] w']; [|exact Hm].
  destruct Hm as [Hs Hc]. specialize (Hh e w').
  destruct (h e w') as [[e'|b] w''].
  - destruct Hh. split; congruence.
  - destruct Hh as [(data & Hd & Hs') Hc']. split; [|congruence].
    exists data. split; [exact Hd|congruence].
Qed.

Lemma sends_sendall (P : pybytes -> Prop) data : P data -> sends P (sendall data).
Proof.
  intros HP. apply (sends_weaken (eq data)); [|apply conn_sends].
  intros d <-. exact HP.
Qed.

(** [_send_response] hands the bytes of the response to [sendall]. *)
Lemma send_response_eq status_code content w :
  _send_response status_code content w
  = sendall (json_reply status_code content) w.
Proof.
  unfold _send_response, bind.
  fold (envelope status_code content).
  fold (json_head status_code (len (envelope status_code content))).
  rewrite encode_ascii by apply json_head_ascii.
  rewrite encode_ascii by apply json_dumps_ascii.
  reflexivity.
Qed.

Lemma sends_send_response (P : pybytes -> Prop) status_code content :
  P (json_reply status_code content) ->
  sends P (_send_response status_code content).
Proof.
  intros HP w. rewrite send_response_eq. apply (sends_sendall P _ HP w).
Qed.

Lemma sends_status (S : Z -> Prop) status_code content :
  S status_code ->
  sends (json_status S) (_send_response status_code content).
Proof. intros HS. apply sends_send_response. exists status_code, content. auto. Qed.

Lemma users_dispatch_sends method parameters body :
  sends (json_status users_status)
    (users_dispatch json_loads sqlite_real_text sql_id_eq method parameters body).
Proof.
  unfold users_dispatch, _get_users, _create_user, _delete_user, _update_user,
    except_JSONDecodeError.
  repeat match goal with
         | |- sends _ (_send_response _ _) =>
             apply sends_status; unfold users_status; simpl; tauto
         | |- sends _ (raise _) => apply sends_raise
         | |- sends _ (bind _ _) => apply sends_bind; [|intros ?]
         | |- sends _ (try_except _ _) => apply sends_try; [|intros ?]
         | |- sends _ (if ?b then _ else _) => destruct b
         | |- sends _ (match ?x with _ => _ end) => destruct x
         | |- silent (db_execute _) => apply silent_db_execute
         | |- silent (lift _) => apply silent_lift
         | |- silent (loads _ _) => apply silent_loads
         | |- silent (collect _ _ _ _) => apply silent_collect
         end.
Qed.

Lemma handle_users_sends method parameters body :
  sends (json_status users_status) (handle_users method parameters body).
Proof.
  unfold _handle_users. apply sends_try; [apply users_dispatch_sends|].
  intros e. apply sends_status. unfold users_status. simpl. tauto.
Qed.

Lemma about_sends start_time : sends (fun _ => True) (_about server_name start_time).
Proof.
  unfold _about. apply sends_bind; [apply silent_encode|]. intros h.
  apply sends_bind; [apply silent_encode|]. intros b.
  apply sends_sendall. exact I.
Qed.

Lemma route_sends start_time r :
  sends (fun _ => True)
    (route json_loads sqlite_real_text sql_id_eq runtime_message server_name
       start_time r).
Proof.
  unfold route. destruct (decide _); [apply about_sends|].
  destruct (decide _).
  - apply (sends_weaken (json_status users_status)); [auto|].
    apply handle_users_sends.
  - apply sends_send_response. exact I.
Qed.

End Answers.

(** *** When [sendall] raises *)

Section Refusals.

Variable json_loads : pystr -> loads_error + json.
Variable sqlite_real_text : N -> option pystr.
Variable sql_id_eq : pystr -> Z -> bool.
Variable runtime_message : runtime_error -> pystr.
Variable server_name : pystr.
Variable refuses : list pybytes -> pybytes -> option N.

Lemma reliable_sends data : sends (eq data) (@sendall reliable data).
Proof. intros w. simpl. eauto. Qed.

Lemma unreliable_sends data :
  sends (eq data) (@sendall (unreliable refuses) data).
Proof.
  intros w. unfold sendall, unreliable.
  destruct (refuses (sent w) data); simpl; eauto.
Qed.

(** A response on a connection that may refuse it. *)
Lemma send_response_refused status_code content w :
  @_send_response (unreliable refuses) status_code content w
  = match refuses (sent w) (json_reply status_code content) with
    | Some errno => (inl (Runtime (SocketError errno)), w)
    | None => (inr tt, after_send (json_reply status_code content) w)
    end.
Proof. rewrite send_response_eq. reflexivity. Qed.

(** X1: [handle_client] always closes the socket, and on an empty read
    it sends nothing and returns.  On any other read, whatever the bytes,
    whatever the datastore does and whichever [sendall] the connection
    refuses, either one [sendall] goes through and [handle_client]
    returns, or none goes through and the [OSError] of the refused 500
    reply leaves [handle_client]: the handler of its own [except] clause
    is not protected.  When the connection would take the 500 reply, no
    exception leaves [handle_client]. *)
Theorem X1_one_answer start_time raw_request w :
  let outcome :=
    @handle_client (unreliable refuses) json_loads sqlite_real_text sql_id_eq
      runtime_message server_name start_time raw_request w in
  let last_resort :=
    json_reply 500 (error_payload (lit "Internal server error")) in
  closed (snd outcome) = true
  /\ (raw_request = [] -> fst outcome = inr tt /\ sent (snd outcome) = sent w)
  /\ (raw_request <> [] ->
      (fst outcome = inr tt
       /\ exists data, sent (snd outcome) = sent w ++ [data])
      \/ (exists errno,
             fst outcome = inl (Runtime (SocketError errno))
             /\ refuses (sent w) last_resort = Some errno
             /\ sent (snd outcome) = sent w))
  /\ (refuses (sent w) last_resort = None -> fst outcome = inr tt).
Proof.
  cbv zeta. unfold handle_client, try_except, handle_request.
  destruct raw_request as [|b raw'].
  - unfold ret. cbn [fst snd close closed sent]. repeat split; congruence.
  - unfold bind, lift.
    destruct (parse_request (b :: raw')) as [e|r]; unfold raise, ret.
    + rewrite send_response_refused.
      destruct (refuses (sent w) _) as [errno|] eqn:Hr;
        cbn [fst snd close after_send closed sent];
        (split; [reflexivity|]); (split; [discriminate|]);
        (split; [intros _|congruence]); eauto.
    + pose proof (route_sends (conn := unreliable refuses) unreliable_sends
                    json_loads sqlite_real_text sql_id_eq runtime_message
                    server_name start_time r w) as H.
      destruct (route _ _ _ _ _ _ r w) as [[e|[]] w'].
      * destruct H as [Hs Hc]. rewrite send_response_refused, Hs.
        destruct (refuses (sent w) _) as [errno|] eqn:Hr;
          cbn [fst snd close after_send closed sent];
          (split; [reflexivity|]); (split; [discriminate|]);
          (split; [intros _|congruence]); rewrite ?Hs; eauto.
      * destruct H as [(data & _ & Hs) Hc]. cbn [fst snd close closed sent].
        (split; [reflexivity|]); (split; [discriminate|]);
          (split; [intros _|reflexivity]); eauto.
Qed.

End Refusals.

(** *** The statuses of /users *)

Section Statuses.

Variable json_loads : pystr -> loads_error + json.
Variable sqlite_real_text : N -> option pystr.
Variable sql_id_eq : pystr -> Z -> bool.
Variable runtime_message : runtime_error -> pystr.
Variable server_name : pystr.

Local Abbreviation handle_users :=
  (_handle_users json_loads sqlite_real_text sql_id_eq runtime_message).
Local Abbreviation client :=
  (handle_client json_loads sqlite_real_text sql_id_eq runtime_message server_name).

(** The catch-all of [_handle_users] answers itself: no exception leaves
    the dispatcher. *)
Lemma handle_users_returns method parameters body w :
  fst (handle_users method parameters body w) = inr tt.
Proof.
  unfold _handle_users, try_except.
  destruct (users_dispatch _ _ _ _ _ _ w) as [[e|[]] w']; [|reflexivity].
  rewrite _send_response_ok. reflexivity.
Qed.

(** X2: a parsed request to /users is never answered 500: the one
    message sent is a JSON response with status 200, 201, 400, 404 or
    405. *)
Theorem X2_users_never_500 start_time raw_request r w :
  raw_request <> [] -> parse_request raw_request = inr r ->
  req_path r = lit "/users" ->
  exists status_code content,
    In status_code [200; 201; 400; 404; 405]
    /\ sent (snd (client start_time raw_request w))
       = sent w ++ [json_reply status_code content].
Proof.
  intros Hne Hparse Hpath.
  pose proof (handle_users_sends reliable_sends json_loads sqlite_real_text
                sql_id_eq runtime_message server_name
                (req_method r) (req_parameters r) (req_body r) w) as H.
  pose proof (handle_users_returns (req_method r) (req_parameters r) (req_body r) w) as Hr.
  destruct (handle_users _ _ _ w) as [res w'] eqn:E. simpl in Hr. subst res.
  destruct H as [(data & (s0 & c0 & HS & ->) & Hs) _].
  exists s0, c0. split; [exact HS|].
  rewrite (client_answers json_loads sqlite_real_text sql_id_eq runtime_message
             server_name start_time _ r w w' Hne Hparse).
  - exact Hs.
  - rewrite route_users by exact Hpath. exact E.
Qed.

End Statuses.


(** ** What a request does to the table *)

Section Effects.

Variable json_loads : pystr -> loads_error + json.
Variable sqlite_real_text : N -> option pystr.
Variable sql_id_eq : pystr -> Z -> bool.
Variable runtime_message : runtime_error -> pystr.
Variable server_name : pystr.

Local Abbreviation client :=
  (handle_client json_loads sqlite_real_text sql_id_eq runtime_message server_name).

Lemma spares_ret {A} (a : A) : spares (ret a).
Proof. intros w. reflexivity. Qed.

Lemma spares_raise {A} e : spares (@raise A e).
Proof. intros w. reflexivity. Qed.

Lemma spares_lift {A} (r : exn + A) : spares (lift r).
Proof. destruct r; [apply spares_raise|apply spares_ret]. Qed.

Lemma spares_bind {A B} (m : M A) (k : A -> M B) :
  spares m -> (forall a, spares (k a)) -> spares (bind m k).
Proof.
  intros Hm Hk w. unfold bind. specialize (Hm w).
  destruct (m w) as [[e|a] w']; simpl in *; [exact Hm|].
  rewrite (Hk a w'). exact Hm.
Qed.

Lemma spares_try {A} (m : M A) (h : exn -> M A) :
  spares m -> (forall e, spares (h e)) -> spares (try_except m h).
Proof.
  intros Hm Hh w. unfold try_except. specialize (Hm w).
  destruct (m w) as [[e|a] w']; simpl in *; [|exact Hm].
  rewrite (Hh e w'). exact Hm.
Qed.

Lemma spares_encode t : spares (encode t).
Proof. unfold encode. destruct (utf8_encode t); [apply spares_ret|apply spares_raise]. Qed.

Lemma spares_send_response status_code content :
  spares (_send_response status_code content).
Proof. intros w. rewrite _send_response_ok. reflexivity. Qed.

Lemma spares_loads body : spares (loads json_loads body).
Proof. unfold loads. destruct (json_loads body); [apply spares_raise|apply spares_ret]. Qed.

Lemma spares_collect c key data sets : spares (collect c key data sets).
Proof.
  unfold collect. apply spares_bind; [apply spares_lift|].
  intros [|]; [|apply spares_ret].
  apply spares_bind; [apply spares_lift|]. intros v. apply spares_ret.
Qed.

Lemma spares_except_json e : spares (@except_JSONDecodeError unit e).
Proof. destruct e as [msg|[]]; apply spares_raise. Qed.

Lemma spares_about start_time : spares (_about server_name start_time).
Proof.
  unfold _about. apply spares_bind; [apply spares_encode|]. intros h.
  apply spares_bind; [apply spares_encode|]. intros b. intros w. reflexivity.
Qed.

Lemma spares_touches E {A} (m : M A) : spares m -> touches E m.
Proof. intros H w. left. apply H. Qed.

Lemma touches_weaken (E F : list user -> Z -> list user -> Z -> Prop) {A} (m : M A) :
  (forall rows seq rows' seq', E rows seq rows' seq' -> F rows seq rows' seq') ->
  touches E m -> touches F m.
Proof.
  intros HEF Hm w. destruct (Hm w) as [H|[H|[Hf H]]]; auto.
Qed.

(** The datastore call, then steps that do not call it again. *)
Lemma touches_then E {A B} (m : M A) (k : A -> M B) :
  touches E m -> (forall a, spares (k a)) -> touches E (bind m k).
Proof.
  intros Hm Hk w. unfold bind. specialize (Hm w).
  destruct (m w) as [[e|a] w']; simpl in *; [exact Hm|].
  rewrite (Hk a w'). exact Hm.
Qed.

(** Steps that do not call the datastore, then the rest. *)
Lemma touches_after E {A B} (m : M A) (k : A -> M B) :
  spares m -> (forall a, touches E (k a)) -> touches E (bind m k).
Proof.
  intros Hm Hk w. unfold bind. specialize (Hm w).
  destruct (m w) as [[e|a] w']; simpl in *; [left; exact Hm|].
  specialize (Hk a w'). rewrite Hm in Hk. exact Hk.
Qed.

Lemma touches_try E {A} (m : M A) (h : exn -> M A) :
  touches E m -> (forall e, spares (h e)) -> touches E (try_except m h).
Proof.
  intros Hm Hh w. unfold try_except. specialize (Hm w).
  destruct (m w) as [[e|a] w']; simpl in *; [|exact Hm].
  rewrite (Hh e w'). exact Hm.
Qed.

Lemma touches_execute E {A} (stmt : statement A) :
  statement_effect E stmt -> touches E (db_execute stmt).
Proof.
  intros Hstmt w. rewrite db_execute_eq. cbn [snd store with_store].
  unfold execute, served.
  destruct (faults (store w)) as [|[code|] rest] eqn:Hf; cbn [snd tl].
  - destruct (stmt _ _) as [e|[[a rows] seq]] eqn:E0; cbn [snd].
    + right. left. reflexivity.
    + right. right. cbn. split; [reflexivity|]. apply (Hstmt _ _ _ _ _ E0).
  - right. left. reflexivity.
  - destruct (stmt _ _) as [e|[[a rows] seq]] eqn:E0; cbn [snd].
    + right. left. reflexivity.
    + right. right. cbn. split; [reflexivity|]. apply (Hstmt _ _ _ _ _ E0).
Qed.

Lemma select_user_effect id : statement_effect no_effect (select_user sql_id_eq id).
Proof.
  intros rows seq a rows' seq'. unfold select_user.
  destruct (bind_param (JStr id)); [discriminate|]. intros [= _ <- <-].
  split; reflexivity.
Qed.

Lemma select_users_effect : statement_effect no_effect select_users.
Proof. intros rows seq a rows' seq' [= _ <- <-]. split; reflexivity. Qed.

Lemma insert_user_effect e p m :
  statement_effect
    (fun rows seq rows' seq' =>
       exists u, user_id u = seq + 1 /\ rows' = rows ++ [u] /\ seq' = seq + 1)
    (insert_user sqlite_real_text e p m).
Proof.
  intros rows seq a rows' seq'. unfold insert_user.
  destruct (bind_params [e; p; m]); [discriminate|].
  destruct (max_rowid <=? seq); [discriminate|].
  destruct (stored_texts _ _) as [|ts]; [discriminate|]. intros [= _ <- <-].
  eexists. split; [|split; reflexivity]. apply apply_sets_id.
Qed.

Lemma delete_user_effect id :
  statement_effect
    (fun rows seq rows' seq' =>
       rows' = List.filter (fun u => negb (sql_id_eq id (user_id u))) rows
       /\ seq' = seq)
    (delete_user sql_id_eq id).
Proof.
  intros rows seq a rows' seq'. unfold delete_user.
  destruct (bind_param (JStr id)); [discriminate|]. intros [= _ <- <-].
  split; reflexivity.
Qed.

Lemma update_user_effect sets id :
  statement_effect
    (fun rows seq rows' seq' =>
       map user_id rows' = map user_id rows /\ seq' = seq)
    (update_user sqlite_real_text sql_id_eq sets id).
Proof.
  intros rows seq a rows' seq'. unfold update_user.
  destruct (bind_params _); [discriminate|].
  destruct (existsb _ rows); [|intros [= _ <- <-]; split; reflexivity].
  destruct (stored_texts _ _) as [|ts]; [discriminate|]. intros [= _ <- <-].
  split; [|reflexivity]. rewrite map_map. apply map_ext. intros u.
  destruct (sql_id_eq id (user_id u)); [apply apply_sets_id|reflexivity].
Qed.

(** Unfold the handlers and walk through them: one datastore call
    between steps that spare the datastore. *)
Ltac walk_handler :=
  repeat match goal with
         | |- touches _ (bind (db_execute _) _) => apply touches_then; [|intros ?]
         | |- touches _ (bind _ _) => apply touches_after; [|intros ?]
         | |- touches _ (try_except _ _) => apply touches_try; [|intros ?]
         | |- touches _ (raise _) => apply spares_touches, spares_raise
         | |- touches _ (_send_response _ _) =>
             apply spares_touches, spares_send_response
         | |- touches _ (if ?b then _ else _) => destruct b
         | |- touches _ (match ?x with _ => _ end) => destruct x
         | |- spares (lift _) => apply spares_lift
         | |- spares (loads _ _) => apply spares_loads
         | |- spares (collect _ _ _ _) => apply spares_collect
         | |- spares (_send_response _ _) => apply spares_send_response
         | |- spares (except_JSONDecodeError _) => apply spares_except_json
         | |- spares (match ?x with _ => _ end) => destruct x
         end.

Lemma get_users_touches parameters :
  touches no_effect (_get_users sql_id_eq parameters).
Proof.
  unfold _get_users. walk_handler.
  - apply touches_execute, select_user_effect.
  - apply touches_execute, select_users_effect.
Qed.

Lemma create_user_touches body :
  touches
    (fun rows seq rows' seq' =>
       exists u, user_id u = seq + 1 /\ rows' = rows ++ [u] /\ seq' = seq + 1)
    (_create_user json_loads sqlite_real_text body).
Proof.
  unfold _create_user. walk_handler. apply touches_execute, insert_user_effect.
Qed.

Lemma delete_user_touches parameters :
  touches
    (fun rows seq rows' seq' =>
       rows'
       = List.filter
           (fun u => negb (sql_id_eq (default [] (parameters !! lit "id"))
                             (user_id u))) rows
       /\ seq' = seq)
    (_delete_user sql_id_eq parameters).
Proof.
  unfold _delete_user. walk_handler. apply touches_execute, delete_user_effect.
Qed.

Lemma update_user_touches parameters body :
  touches
    (fun rows seq rows' seq' =>
       map user_id rows' = map user_id rows /\ seq' = seq)
    (_update_user json_loads sqlite_real_text sql_id_eq parameters body).
Proof.
  unfold _update_user. walk_handler. apply touches_execute, update_user_effect.
Qed.

Lemma handler_400_spares e :
  spares (_send_response 400 (error_payload (str_exn runtime_message e))).
Proof. apply spares_send_response. Qed.

Lemma handle_users_table method parameters body :
  touches table_effect
    (_handle_users json_loads sqlite_real_text sql_id_eq runtime_message
       method parameters body).
Proof.
  unfold _handle_users. apply touches_try; [|intros e; apply handler_400_spares].
  unfold users_dispatch.
  repeat match goal with
         | |- context [decide (method = ?x)] => destruct (decide (method = x))
         end.
  - apply (touches_weaken no_effect); [|apply get_users_touches].
    intros rows seq rows' seq' [-> ->]. constructor.
  - eapply touches_weaken; [|apply create_user_touches].
    intros rows seq rows' seq' (u & Hu & -> & ->). constructor. exact Hu.
  - eapply touches_weaken; [|apply delete_user_touches].
    intros rows seq rows' seq' [-> ->]. constructor.
  - eapply touches_weaken; [|apply update_user_touches].
    intros rows seq rows' seq' [Hids ->]. constructor. exact Hids.
  - apply spares_touches, spares_send_response.
Qed.

Ltac absurd_literal :=
  intros;
  match goal with
  | E : lit _ = lit _ |- _ => vm_compute in E; discriminate E
  end.

Lemma users_dispatch_method method parameters body :
  touches
    (fun rows seq rows' seq' =>
       (method = lit "POST" ->
        exists u, user_id u = seq + 1 /\ rows' = rows ++ [u] /\ seq' = seq + 1)
       /\ (method = lit "DELETE" ->
           rows'
           = List.filter
               (fun u => negb (sql_id_eq (default [] (parameters !! lit "id"))
                                 (user_id u))) rows
           /\ seq' = seq)
       /\ (method = lit "PATCH" ->
           map user_id rows' = map user_id rows /\ seq' = seq)
       /\ (method <> lit "POST" -> method <> lit "DELETE" ->
           method <> lit "PATCH" -> rows' = rows /\ seq' = seq))
    (users_dispatch json_loads sqlite_real_text sql_id_eq method parameters body).
Proof.
  unfold users_dispatch.
  destruct (decide (method = lit "GET")) as [->|Hget].
  { eapply touches_weaken; [|apply get_users_touches].
    intros rows seq rows' seq' H.
    repeat split; try absurd_literal; apply H. }
  destruct (decide (method = lit "POST")) as [->|Hpost].
  { eapply touches_weaken; [|apply create_user_touches].
    intros rows seq rows' seq' H. split; [intros _; exact H|].
    repeat split; try absurd_literal; congruence. }
  destruct (decide (method = lit "DELETE")) as [->|Hdelete].
  { eapply touches_weaken; [|apply delete_user_touches].
    intros rows seq rows' seq' H. split; [absurd_literal|].
    repeat split; try absurd_literal; try congruence; apply H. }
  destruct (decide (method = lit "PATCH")) as [->|Hpatch].
  { eapply touches_weaken; [|apply update_user_touches].
    intros rows seq rows' seq' H. split; [absurd_literal|].
    repeat split; try absurd_literal; try congruence; apply H. }
  apply spares_touches, spares_send_response.
Qed.

Lemma handle_request_table start_time raw_request :
  touches table_effect
    (handle_request json_loads sqlite_real_text sql_id_eq runtime_message
       server_name start_time raw_request).
Proof.
  unfold handle_request. destruct raw_request; [apply spares_touches, spares_ret|].
  apply touches_after; [apply spares_lift|]. intros r. unfold route.
  destruct (decide _); [apply spares_touches, spares_about|].
  destruct (decide _); [apply handle_users_table|].
  apply spares_touches, spares_send_response.
Qed.

Lemma client_store (E : list user -> Z -> list user -> Z -> Prop)
    start_time raw_request w :
  touches E
    (handle_request json_loads sqlite_real_text sql_id_eq runtime_message
       server_name start_time raw_request) ->
  let d := store w in
  let d' := store (snd (client start_time raw_request w)) in
  d' = d \/ d' = served d
  \/ (faults d' = tl (faults d)
      /\ E (users d) (sequence d) (users d') (sequence d')).
Proof.
  intros H. cbv zeta. unfold handle_client.
  pose proof (touches_try E _
                (fun e => _send_response 500
                            (error_payload (lit "Internal server error")))
                H (fun e => spares_send_response _ _) w) as Ht.
  destruct (try_except _ _ w) as [res w']. exact Ht.
Qed.

(** X3: whatever the request, the server calls the datastore at most
    once, and the table afterwards is the table before with nothing
    changed, or with one row appended whose id is the sequence plus one
    (which becomes the new sequence), or with some rows removed, or with
    rows rewritten in place and every id kept. *)
Theorem X3_table_effect start_time raw_request w :
  let d := store w in
  let d' := store (snd (client start_time raw_request w)) in
  (faults d' = faults d \/ faults d' = tl (faults d))
  /\ table_effect (users d) (sequence d) (users d') (sequence d').
Proof.
  cbv zeta.
  destruct (client_store table_effect start_time raw_request w
              (handle_request_table start_time raw_request))
    as [H|[H|[Hf H]]].
  - rewrite H. split; [auto|constructor].
  - rewrite H. split; [auto|constructor].
  - auto.
Qed.

Lemma handle_request_method start_time raw_request :
  touches
    (fun rows seq rows' seq' =>
       forall r,
         parse_request raw_request = inr r ->
         (req_path r = lit "/users" -> req_method r = lit "POST" ->
          exists u, user_id u = seq + 1 /\ rows' = rows ++ [u] /\ seq' = seq + 1)
         /\ (req_path r = lit "/users" -> req_method r = lit "DELETE" ->
             rows'
             = List.filter
                 (fun u =>
                    negb (sql_id_eq (default [] (req_parameters r !! lit "id"))
                            (user_id u))) rows
             /\ seq' = seq)
         /\ (req_path r = lit "/users" -> req_method r = lit "PATCH" ->
             map user_id rows' = map user_id rows /\ seq' = seq)
         /\ ((req_path r = lit "/users" ->
              req_method r <> lit "POST" /\ req_method r <> lit "DELETE"
              /\ req_method r <> lit "PATCH") ->
             rows' = rows /\ seq' = seq))
    (handle_request json_loads sqlite_real_text sql_id_eq runtime_message
       server_name start_time raw_request).
Proof.
  unfold handle_request. destruct raw_request as [|b raw'];
    [apply spares_touches, spares_ret|].
  unfold bind, lift. intros w.
  destruct (parse_request (b :: raw')) as [e|r] eqn:Hparse; [left; reflexivity|].
  unfold ret, route.
  destruct (decide (req_path r = lit "/about")) as [Habout|Habout];
    [left; apply spares_about|].
  destruct (decide (req_path r = lit "/users")) as [Husers|Husers];
    [|left; apply spares_send_response].
  unfold _handle_users.
  destruct (touches_try _ _
              (fun e => _send_response 400
                          (error_payload (str_exn runtime_message e)))
              (users_dispatch_method (req_method r) (req_parameters r) (req_body r))
              (fun e => spares_send_response _ _) w)
    as [H|[H|[Hf (H1 & H2 & H3 & H4)]]]; [auto|auto|].
  right. right. split; [exact Hf|]. intros r' [= <-].
  split; [auto|]. split; [auto|]. split; [auto|].
  intros Hro. destruct (Hro Husers) as (Ha & Hb & Hc). auto.
Qed.

(** X4: on /users a POST can only append one row with the next id, a
    DELETE can only remove the rows its [id] parameter matches, and a
    PATCH keeps every id in place; any other request (a GET, another
    method, another path, the about page) leaves the table and the
    sequence exactly as they were.  A request that cannot be parsed does
    not reach the datastore. *)
Theorem X4_effect_by_method start_time raw_request w :
  let d := store w in
  let d' := store (snd (client start_time raw_request w)) in
  (forall e, parse_request raw_request = inl e -> d' = d)
  /\ (forall r,
        parse_request raw_request = inr r ->
        (req_path r = lit "/users" -> req_method r = lit "POST" ->
         (users d' = users d /\ sequence d' = sequence d)
         \/ exists u, user_id u = sequence d + 1
                      /\ users d' = users d ++ [u]
                      /\ sequence d' = sequence d + 1)
        /\ (req_path r = lit "/users" -> req_method r = lit "DELETE" ->
            (users d' = users d
             \/ users d'
                = List.filter
                    (fun u =>
                       negb (sql_id_eq (default [] (req_parameters r !! lit "id"))
                               (user_id u)))
                    (users d))
            /\ sequence d' = sequence d)
        /\ (req_path r = lit "/users" -> req_method r = lit "PATCH" ->
            map user_id (users d') = map user_id (users d)
            /\ sequence d' = sequence d)
        /\ ((req_path r = lit "/users" ->
             req_method r <> lit "POST" /\ req_method r <> lit "DELETE"
             /\ req_method r <> lit "PATCH") ->
            users d' = users d /\ sequence d' = sequence d)).
Proof.
  cbv zeta. split.
  - intros e Hparse. unfold handle_client, try_except, handle_request, bind, lift.
    destruct raw_request as [|b raw']; [reflexivity|].
    rewrite Hparse. unfold raise. rewrite _send_response_ok. reflexivity.
  - intros r Hparse.
    destruct (client_store _ start_time raw_request w
                (handle_request_method start_time raw_request))
      as [H|[H|[Hf H]]].
    + rewrite H. repeat split; auto.
    + rewrite H. repeat split; auto.
    + destruct (H r Hparse) as (H1 & H2 & H3 & H4).
      split; [intros Hp Hm; right; auto|].
      split; [intros Hp Hm; destruct (H2 Hp Hm) as [-> ->]; auto|].
      split; [auto|auto].
Qed.

Lemma effect_keeps rows seq rows' seq' :
  table_effect rows seq rows' seq' ->
  Forall (fun u => user_id u <= seq) rows -> NoDup (map user_id rows) ->
  Forall (fun u => user_id u <= seq') rows' /\ NoDup (map user_id rows')
  /\ seq <= seq'.
Proof.
  intros [|u Hu|keep|r' Hids] Hb Hn.
  - repeat split; [assumption..|lia].
  - split; [|split; [|lia]].
    + apply Forall_app. split.
      * revert Hb. apply List.Forall_impl. intros x Hx. lia.
      * constructor; [lia|constructor].
    + rewrite map_app. simpl. apply NoDup_app. split; [exact Hn|].
      split; [|apply NoDup_singleton].
      intros i Hi Hin. apply list_elem_of_singleton in Hin. subst i.
      apply list_elem_of_fmap in Hi as (x & Hx & Hin).
      rewrite List.Forall_forall in Hb.
      apply list_elem_of_In in Hin. specialize (Hb x Hin). lia.
  - split; [apply filter_Forall, Hb|]. split; [|lia].
    clear Hb. induction rows as [|x rows IH]; simpl; [constructor|].
    apply NoDup_cons in Hn as [Hx Hn].
    destruct (keep x); simpl; [|apply IH, Hn].
    apply NoDup_cons. split; [|apply IH, Hn].
    intros Hin. apply Hx.
    apply list_elem_of_fmap in Hin as (y & Hy & Hin). rewrite Hy.
    apply list_elem_of_fmap. exists y. split; [reflexivity|].
    apply list_elem_of_In. apply list_elem_of_In in Hin.
    apply List.filter_In in Hin as [Hin _]. exact Hin.
  - split; [|split; [rewrite Hids; exact Hn|lia]].
    assert (Forall (fun i => i <= seq) (map user_id rows)) as Hm
      by (apply (proj2 (List.Forall_map user_id (fun i => i <= seq) rows)); exact Hb).
    rewrite <- Hids in Hm.
    exact (proj1 (List.Forall_map user_id (fun i => i <= seq) r') Hm).
Qed.

(** X5: serving a request keeps the table well formed: if no id exceeds
    the sequence and no two rows share an id, the same holds afterwards,
    and the sequence never decreases, so an id is never handed out
    twice, also after deletions. *)
Theorem X5_ids_stay_unique start_time raw_request w :
  ids_bounded (store w) -> ids_unique (store w) ->
  let d' := store (snd (client start_time raw_request w)) in
  ids_bounded d' /\ ids_unique d' /\ sequence (store w) <= sequence d'.
Proof.
  intros Hb Hu. cbv zeta.
  destruct (client_store table_effect start_time raw_request w
              (handle_request_table start_time raw_request))
    as [H|[H|[Hf H]]].
  - rewrite H. repeat split; [assumption..|lia].
  - rewrite H. repeat split; [assumption..|simpl; lia].
  - apply (effect_keeps _ _ _ _ H Hb Hu).
Qed.

End Effects.


(** ** The handlers, case by case *)

Section Handlers.

Variable json_loads : pystr -> loads_error + json.
Variable sqlite_real_text : N -> option pystr.
Variable sql_id_eq : pystr -> Z -> bool.
Variable runtime_message : runtime_error -> pystr.
Variable server_name : pystr.

Local Abbreviation handle_users :=
  (_handle_users json_loads sqlite_real_text sql_id_eq runtime_message).
Local Abbreviation create_user := (_create_user json_loads sqlite_real_text).
Local Abbreviation update_user_h :=
  (_update_user json_loads sqlite_real_text sql_id_eq).
Local Abbreviation message_of := (str_exn runtime_message).

Lemma insert_user_result e p m rows seq a rows' seq' :
  insert_user sqlite_real_text e p m rows seq = inr (a, rows', seq') ->
  a = seq + 1 /\ seq' = seq + 1
  /\ exists u, user_id u = seq + 1 /\ rows' = rows ++ [u].
Proof.
  unfold insert_user.
  destruct (bind_params [e; p; m]); [discriminate|].
  destruct (max_rowid <=? seq); [discriminate|].
  destruct (stored_texts _ _) as [|ts]; [discriminate|]. intros [= <- <- <-].
  repeat split. eexists. split; [|reflexivity]. apply apply_sets_id.
Qed.

(** What [_create_user] comes to: it raises, having at most called the
    datastore in vain, or it has stored one row and announced its id. *)
Lemma create_user_outcome body w :
  match create_user body w with
  | (inl e, w1) => w1 = w \/ w1 = with_store (served (store w)) w
  | (inr _, w1) =>
      exists u,
        user_id u = sequence (store w) + 1
        /\ w1
           = after_send
               (json_reply 201
                  (PDict [(lit "message", PStr (lit "User created successfully"));
                          (lit "user_id", PInt (sequence (store w) + 1))]))
               (with_store
                  (mk_database (users (store w) ++ [u])
                     (sequence (store w) + 1) (tl (faults (store w))))
                  w)
  end.
Proof.
  destruct (create_user body w) as [[e|[]] w1] eqn:E.
  - destruct (create_user_fails json_loads sqlite_real_text body w e w1 E)
      as [[_ ->]|[_ ->]]; auto.
  - revert E. unfold _create_user.
    destruct (negb (truthy body)); [discriminate|].
    unfold try_except, bind at 1, loads.
    destruct (json_loads (default [] body)) as [err|data];
      [destruct err; unfold raise, except_JSONDecodeError; discriminate|].
    unfold ret at 1. unfold bind at 1, lift at 1.
    destruct (all_in _ data) as [e0|[|]]; unfold raise, ret;
      [destruct e0 as [?|[]]; discriminate| |discriminate].
    cbn [negb]. unfold bind at 1, lift at 1.
    destruct (getitem data (lit "email")) as [e0|e]; unfold raise, ret;
      [destruct e0 as [?|[]]; discriminate|].
    unfold bind at 1, lift at 1.
    destruct (getitem data (lit "password")) as [e0|p]; unfold raise, ret;
      [destruct e0 as [?|[]]; discriminate|].
    unfold bind at 1, lift at 1.
    destruct (getitem data (lit "message")) as [e0|m]; unfold raise, ret;
      [destruct e0 as [?|[]]; discriminate|].
    unfold bind. rewrite db_execute_eq. unfold execute.
    destruct (faults (store w)) as [|[code|] rest] eqn:Hf; cbn [fst snd tl];
      try discriminate.
    + destruct (insert_user _ _ _ _ _ _) as [e0|[[a rows'] seq']] eqn:Hi;
        cbn [fst snd]; [destruct e0 as [?|[]]; discriminate|].
      destruct (insert_user_result _ _ _ _ _ _ _ _ Hi) as (-> & -> & u & Hu & ->).
      rewrite _send_response_ok. intros [= <-]. exists u. auto.
    + destruct (insert_user _ _ _ _ _ _) as [e0|[[a rows'] seq']] eqn:Hi;
        cbn [fst snd]; [destruct e0 as [?|[]]; discriminate|].
      destruct (insert_user_result _ _ _ _ _ _ _ _ Hi) as (-> & -> & u & Hu & ->).
      rewrite _send_response_ok. intros [= <-]. exists u. auto.
Qed.

(** X6: a create is answered 201 exactly when one row was appended, and
    the [user_id] of the answer is the id of that row, the sequence plus
    one; in every other case the answer is 400 with the text of the
    error and the table and the sequence are as before. *)
Theorem X6_create_201_or_400 parameters body w :
  (exists u,
      user_id u = sequence (store w) + 1
      /\ handle_users (lit "POST") parameters body w
         = (inr tt,
            after_send
              (json_reply 201
                 (PDict [(lit "message", PStr (lit "User created successfully"));
                         (lit "user_id", PInt (sequence (store w) + 1))]))
              (with_store
                 (mk_database (users (store w) ++ [u])
                    (sequence (store w) + 1) (tl (faults (store w))))
                 w)))
  \/ (exists e d',
         users d' = users (store w) /\ sequence d' = sequence (store w)
         /\ handle_users (lit "POST") parameters body w
            = (inr tt,
               after_send (json_reply 400 (error_payload (message_of e)))
                 (with_store d' w))).
Proof.
  pose proof (create_user_outcome body w) as H.
  destruct (create_user body w) as [[e|[]] w1] eqn:E.
  - right. exists e, (store w1). destruct H as [->| ->].
    + repeat split.
      rewrite (handle_users_raise json_loads sqlite_real_text sql_id_eq
                 runtime_message _ _ _ w e w); [destruct w; reflexivity|].
      rewrite dispatch_post. exact E.
    + repeat split.
      rewrite (handle_users_raise json_loads sqlite_real_text sql_id_eq
                 runtime_message _ _ _ w e (with_store (served (store w)) w));
        [reflexivity|].
      rewrite dispatch_post. exact E.
  - left. destruct H as (u & Hu & ->). exists u. split; [exact Hu|].
    apply handle_users_ok. rewrite dispatch_post. exact E.
Qed.

Lemma getitem_not_object data key :
  (forall items, data <> JObj items) -> getitem data key = inl (Runtime BadSubscript).
Proof. intros H. destruct data; try reflexivity. destruct (H items eq_refl). Qed.

Lemma all_in_missing items :
  lookup_item (lit "email") items = None
  \/ lookup_item (lit "password") items = None
  \/ lookup_item (lit "message") items = None ->
  all_in [lit "email"; lit "password"; lit "message"] (JObj items) = inr false.
Proof.
  intros H. simpl.
  destruct (lookup_item (lit "email") items); [|reflexivity].
  destruct (lookup_item (lit "password") items); [|reflexivity].
  destruct (lookup_item (lit "message") items); [|reflexivity].
  destruct H as [H|[H|H]]; discriminate.
Qed.

(** X7: a create is refused before the datastore is called, with status
    400 and nothing stored: when the body is absent or empty ("Request
    body is empty"); when [json.loads] returns an object without one of
    [email], [password], [message] ("Missing required fields: email,
    password, message"); when [json.loads] returns a value that is not an
    object; and when [json.loads] raises ("Invalid JSON format" for
    [JSONDecodeError], the text of the exception for any other). *)
Theorem X7_create_refused parameters w :
  (forall body,
      truthy body = false ->
      handle_users (lit "POST") parameters body w
      = (inr tt,
         after_send
           (json_reply 400 (error_payload (lit "Request body is empty"))) w))
  /\ (forall body items,
         body <> [] -> json_loads body = inr (JObj items) ->
         lookup_item (lit "email") items = None
         \/ lookup_item (lit "password") items = None
         \/ lookup_item (lit "message") items = None ->
         handle_users (lit "POST") parameters (Some body) w
         = (inr tt,
            after_send
              (json_reply 400
                 (error_payload
                    (lit "Missing required fields: email, password, message")))
              w))
  /\ (forall body data,
         body <> [] -> json_loads body = inr data ->
         (forall items, data <> JObj items) ->
         exists msg,
           handle_users (lit "POST") parameters (Some body) w
           = (inr tt, after_send (json_reply 400 (error_payload msg)) w))
  /\ (forall body err,
         body <> [] -> json_loads body = inl err ->
         handle_users (lit "POST") parameters (Some body) w
         = (inr tt,
            after_send
              (json_reply 400
                 (error_payload (refusal_text runtime_message err)))
              w)).
Proof.
  split; [|split; [|split]]; cycle 3.
  { intros body err Hne Hload.
    rewrite <- (refused_body_text runtime_message err).
    apply (handle_users_raise _ _ _ _ _ _ _ _ (refused_body err)).
    rewrite dispatch_post. apply create_invalid_json; assumption. }
  - intros body Hbody.
    apply (handle_users_raise _ _ _ _ _ _ _ _ (ValueError (lit "Request body is empty"))).
    rewrite dispatch_post. unfold _create_user. rewrite Hbody. reflexivity.
  - intros body items Hne Hload Hmiss.
    apply (handle_users_raise _ _ _ _ _ _ _ _
             (ValueError (lit "Missing required fields: email, password, message"))).
    rewrite dispatch_post. unfold _create_user.
    destruct body as [|c body']; [congruence|].
    cbn [truthy negb default from_option id].
    unfold try_except, bind at 1, loads. rewrite Hload. unfold ret at 1.
    unfold bind, lift. rewrite (all_in_missing _ Hmiss). reflexivity.
  - intros body data Hne Hload Hobj.
    assert (exists e, create_user (Some body) w = (inl e, w)) as [e He].
    { unfold _create_user. destruct body as [|c body']; [congruence|].
      cbn [truthy negb default from_option id].
      unfold try_except, bind at 1, loads. rewrite Hload. unfold ret at 1.
      unfold bind at 1, lift at 1.
      destruct (all_in _ data) as [e0|[|]] eqn:Hall; unfold raise, ret.
      - pose proof (all_in_error _ _ _ Hall) as Hs.
        destruct e0 as [msg|[]]; try discriminate; eexists; reflexivity.
      - cbn [negb]. unfold bind, lift.
        rewrite (getitem_not_object _ _ Hobj). eexists. reflexivity.
      - eexists. reflexivity. }
    exists (message_of e). apply handle_users_raise.
    rewrite dispatch_post. exact He.
Qed.



(** *** Partial update *)

Lemma collect_object c key items sets w :
  collect c key (JObj items) sets w
  = (inr (sets ++ match lookup_item key items with
                  | Some v => [(c, v)]
                  | None => []
                  end), w).
Proof.
  unfold collect, bind, lift. cbn [py_in getitem].
  destruct (lookup_item key items); unfold ret; [reflexivity|].
  rewrite app_nil_r. reflexivity.
Qed.

(** On a JSON object the handler collects [supplied], refuses an empty
    list and otherwise issues one UPDATE. *)
Lemma update_user_object parameters uid body items w :
  parameters !! lit "id" = Some uid -> uid <> [] ->
  body <> [] -> json_loads body = inr (JObj items) ->
  update_user_h parameters (Some body) w
  = match supplied items with
    | [] => (inl (ValueError (lit "No fields to update")), w)
    | sets =>
        bind (db_execute (update_user sqlite_real_text sql_id_eq sets uid))
          (fun _ =>
             _send_response 200
               (PDict [(lit "message",
                        PStr (lit "User " ++ uid ++ lit " updated"))])) w
    end.
Proof.
  intros Hid Hne Hbne Hload. unfold _update_user. rewrite Hid.
  destruct uid as [|c0 uid']; [congruence|].
  destruct body as [|c body']; [congruence|].
  cbn [truthy negb default from_option id].
  unfold try_except, bind at 1, loads. rewrite Hload. unfold ret at 1.
  unfold bind at 1. rewrite collect_object.
  unfold bind at 1. rewrite collect_object.
  unfold bind at 1. rewrite collect_object.
  cbn [app]. fold (supplied items).
  destruct (supplied items) as [|s0 sets] eqn:Hs; [reflexivity|].
  destruct (bind _ _ w) as [[e|[]] w'] eqn:E; [|reflexivity].
  assert (is_storage_error e = true) as He.
  { revert E. unfold bind. rewrite db_execute_eq.
    destruct (execute _ (store w)) as [[e0|[]] d] eqn:Hx; cbn [fst snd].
    - intros [= <- _].
      apply (execute_raises _ _ _ _
               (update_user_error sqlite_real_text sql_id_eq _ _) Hx).
    - rewrite _send_response_ok. discriminate. }
  rewrite except_JSONDecodeError_storage by exact He. reflexivity.
Qed.








(** X10: a PATCH that carries a non-empty id is refused with status 400
    before the datastore is called: when its body is absent or empty
    ("Request body is empty"); when [json.loads] returns an object with
    none of [email], [password], [message] ("No fields to update"); and
    when [json.loads] raises ("Invalid JSON format" for
    [JSONDecodeError], the text of the exception for any other). *)
Theorem X10_patch_refused parameters w :
  truthy (parameters !! lit "id") = true ->
  (forall body,
      truthy body = false ->
      handle_users (lit "PATCH") parameters body w
      = (inr tt,
         after_send
           (json_reply 400 (error_payload (lit "Request body is empty"))) w))
  /\ (forall body items,
         body <> [] -> json_loads body = inr (JObj items) ->
         lookup_item (lit "email") items = None ->
         lookup_item (lit "password") items = None ->
         lookup_item (lit "message") items = None ->
         handle_users (lit "PATCH") parameters (Some body) w
         = (inr tt,
            after_send
              (json_reply 400 (error_payload (lit "No fields to update"))) w))
  /\ (forall body err,
         body <> [] -> json_loads body = inl err ->
         handle_users (lit "PATCH") parameters (Some body) w
         = (inr tt,
            after_send
              (json_reply 400
                 (error_payload (refusal_text runtime_message err)))
              w)).
Proof.
  intros Hid. split; [|split]; cycle 2.
  { intros body err Hne Hload.
    rewrite <- (refused_body_text runtime_message err).
    apply (handle_users_raise _ _ _ _ _ _ _ _ (refused_body err)).
    rewrite dispatch_patch. apply update_invalid_json; assumption. }
  - intros body Hbody.
    apply (handle_users_raise _ _ _ _ _ _ _ _ (ValueError (lit "Request body is empty"))).
    rewrite dispatch_patch. unfold _update_user. rewrite Hid, Hbody. reflexivity.
  - intros body items Hne Hload He Hp Hm.
    apply (handle_users_raise _ _ _ _ _ _ _ _ (ValueError (lit "No fields to update"))).
    rewrite dispatch_patch.
    destruct (truthy_some _ Hid) as (c & uid & Hsome).
    rewrite (update_user_object _ (c :: uid) _ _ _ Hsome ltac:(discriminate) Hne Hload).
    unfold supplied. rewrite He, Hp, Hm. reflexivity.
Qed.

(** *** Create, list and look up *)





End Handlers.

(** ** Reading a request *)

Section Requests.

Variable json_loads : pystr -> loads_error + json.
Variable sqlite_real_text : N -> option pystr.
Variable sql_id_eq : pystr -> Z -> bool.
Variable runtime_message : runtime_error -> pystr.
Variable server_name : pystr.

Local Abbreviation client :=
  (handle_client json_loads sqlite_real_text sql_id_eq runtime_message server_name).

(** *** The request line *)

Lemma split_ws_run t cur s :
  Forall (fun c => isspace c = false) t ->
  split_ws_from cur (t ++ s) = split_ws_from (rev t ++ cur) s.
Proof.
  intros H. revert cur. induction H as [|c t Hc _ IH]; intros cur; [reflexivity|].
  cbn [app split_ws_from rev]. rewrite Hc, IH, <- app_assoc. reflexivity.
Qed.

Lemma split_ws_token t s :
  token t ->
  split_ws_from [] (t ++ 32%N :: s) = t :: split_ws_from [] s.
Proof.
  intros [Hne H]. rewrite (split_ws_run _ _ _ H), app_nil_r.
  cbn [split_ws_from]. change (isspace 32) with true. cbv iota.
  destruct (rev t) as [|x l] eqn:E.
  - apply (f_equal (@rev N)) in E. rewrite rev_involutive in E. contradiction.
  - rewrite <- E, rev_involutive. reflexivity.
Qed.

Lemma split_ws_last t :
  token t -> split_ws_from [] t = [t].
Proof.
  intros [Hne H]. rewrite <- (app_nil_r t) at 1.
  rewrite (split_ws_run _ _ _ H), app_nil_r. cbn [split_ws_from].
  destruct (rev t) as [|x l] eqn:E.
  - apply (f_equal (@rev N)) in E. rewrite rev_involutive in E. contradiction.
  - rewrite <- E, rev_involutive. reflexivity.
Qed.

Lemma split_ws_three_tokens method target version :
  token method -> token target -> token version ->
  split_ws (request_line method target version) = [method; target; version].
Proof.
  intros Hm Ht Hv. unfold split_ws, request_line.
  change (lit " ") with [32%N]. cbn [app].
  rewrite (split_ws_token _ _ Hm), (split_ws_token _ _ Ht), (split_ws_last _ Hv).
  reflexivity.
Qed.

Lemma token_no_CR t : token t -> no_CR t.
Proof.
  intros [_ H]. revert H. apply List.Forall_impl. intros c Hc ->.
  discriminate Hc.
Qed.

Lemma request_line_no_CR method target version :
  token method -> token target -> token version ->
  no_CR (request_line method target version).
Proof.
  intros Hm Ht Hv. unfold request_line, no_CR.
  repeat (apply Forall_app; split); try (apply token_no_CR; assumption);
    repeat constructor; discriminate.
Qed.

Lemma frame_header_lines first_line header_lines body :
  no_CR first_line -> Forall header_line_ok header_lines ->
  tl (split CRLF (header_block (frame first_line header_lines body)))
  = header_lines.
Proof.
  intros Hf Hh. rewrite (frame_header_block _ _ _ Hf Hh).
  change CRLF with (CR :: [LF]).
  rewrite (split_join CR [LF]); [reflexivity|discriminate|].
  constructor; [exact Hf|]. revert Hh. apply List.Forall_impl.
  intros h [_ H]. exact H.
Qed.

(** What the parser makes of a well-formed request. *)
Lemma parse_request_frame method target version header_lines body raw :
  token method -> token target -> token version ->
  Forall header_line_ok header_lines ->
  utf8_decode raw
  = Some (frame (request_line method target version) header_lines body) ->
  parse_request raw
  = and_then (read_headers header_lines ∅) (fun headers_dict =>
      and_then
        (if contains (lit "?") target then
           and_then (unpack2 (split1 (lit "?") target)) (fun ps =>
             and_then (_parse_parameters (snd ps)) (fun parameters =>
               inr (fst ps, parameters)))
         else inr (target, ∅))
        (fun pp => inr (mk_request method (fst pp) (snd pp) body headers_dict))).
Proof.
  intros Hm Ht Hv Hh Hraw.
  pose proof (request_line_no_CR _ _ _ Hm Ht Hv) as Hline.
  unfold parse_request. rewrite Hraw. cbn [and_then].
  rewrite (frame_first_line _ _ _ Hline Hh), (frame_body _ _ _ Hline Hh),
    (frame_header_lines _ _ _ Hline Hh),
    (split_ws_three_tokens _ _ _ Hm Ht Hv).
  reflexivity.
Qed.

(** X13: a request that cannot be read is answered with the generic 500
    and the datastore is not called: bytes that are not UTF-8, a first
    line that does not have exactly three blank-separated parts, or a
    query string that [_parse_parameters] refuses. *)
Theorem X13_malformed_request start_time raw_request w :
  raw_request <> [] ->
  utf8_decode raw_request = None
  \/ (exists t,
         utf8_decode raw_request = Some t
         /\ length (split_ws (first_line_of t)) <> 3%nat)
  \/ (exists t method target version path query e,
         utf8_decode raw_request = Some t
         /\ split_ws (first_line_of t) = [method; target; version]
         /\ partition_at (lit "?") target = Some (path, query)
         /\ _parse_parameters query = inl e) ->
  client start_time raw_request w
  = (inr tt,
     mk_world
       (sent w ++ [json_reply 500 (error_payload (lit "Internal server error"))])
       true (store w)).
Proof.
  intros Hne Hcause.
  assert (exists e, parse_request raw_request = inl e) as [e He].
  { unfold parse_request.
    destruct Hcause as [->|[(t & -> & Hlen)|
                            (t & m & target & v & path & query & e & -> & Hl & Hq & Hp)]].
    - eauto.
    - cbn [and_then].
      destruct (split_ws (first_line_of t)) as [|a [|b [|c [|x l]]]];
        cbn [unpack3 and_then]; eauto.
      exfalso. apply Hlen. reflexivity.
    - cbn [and_then]. rewrite Hl. cbn [unpack3 and_then fst snd].
      destruct (read_headers_total (tl (split CRLF (header_block t))) ∅)
        as [hd ->].
      cbn [and_then]. unfold contains, split1. rewrite Hq.
      cbn [unpack2 and_then fst snd]. rewrite Hp. cbn [and_then]. eauto. }
  unfold handle_client, try_except, handle_request, bind.
  destruct raw_request as [|b raw']; [congruence|].
  rewrite He. cbn [lift]. unfold raise. rewrite _send_response_ok.
  reflexivity.
Qed.

(** X14: of a well-formed request (three tokens on the first line, header
    lines without carriage return, then the blank line and the body) the
    parser keeps the method, the body, and the target cut at its first
    question mark: the text before it is the path and the text after it
    the query string; a target without question mark is the path, with no
    parameters.  The version and the header lines are not checked. *)
Theorem X14_request_line method target version header_lines body raw_request :
  token method -> token target -> token version ->
  Forall header_line_ok header_lines ->
  utf8_decode raw_request
  = Some (frame (request_line method target version) header_lines body) ->
  (contains (lit "?") target = false ->
   exists headers_dict,
     parse_request raw_request
     = inr (mk_request method target ∅ body headers_dict))
  /\ (forall path query,
         Forall (fun c => c <> 63%N) path ->
         target = path ++ lit "?" ++ query ->
         match _parse_parameters query with
         | inr parameters =>
             exists headers_dict,
               parse_request raw_request
               = inr (mk_request method path parameters body headers_dict)
         | inl e => parse_request raw_request = inl e
         end).
Proof.
  intros Hm Ht Hv Hh Hraw.
  rewrite (parse_request_frame _ _ _ _ _ _ Hm Ht Hv Hh Hraw).
  destruct (read_headers_total header_lines ∅) as [hd ->]. cbn [and_then].
  split.
  - intros ->. cbn [and_then fst snd]. eauto.
  - intros path query Hpath ->. change (lit "?") with [63%N].
    unfold contains, split1.
    rewrite (partition_at_free 63 [] path query Hpath).
    cbn [unpack2 and_then fst snd].
    destruct (_parse_parameters query) as [e|parameters]; cbn [and_then fst snd];
      eauto.
Qed.

(** *** When the query string is refused *)

Lemma partition_char c s :
  match partition_at [c] s with
  | Some (a, b) => occurrences c s = S (occurrences c b)
  | None => occurrences c s = 0%nat
  end.
Proof.
  unfold occurrences. induction s as [|x s IH]; [reflexivity|].
  cbn [partition_at strip_prefix].
  destruct (N.eqb_spec c x) as [->|Hx].
  - rewrite count_occ_cons_eq by reflexivity. reflexivity.
  - rewrite count_occ_cons_neq by congruence.
    destruct (partition_at [c] s) as [[a b]|]; exact IH.
Qed.

Lemma split_count c s : length (split [c] s) = S (occurrences c s).
Proof.
  remember (length s) as n eqn:Hn. revert s Hn.
  induction n as [n IH] using lt_wf_ind. intros s Hn.
  pose proof (partition_char c s) as Hc.
  destruct (partition_at [c] s) as [[a b]|] eqn:E.
  - assert ([c] <> []) as Hsep by discriminate.
    rewrite (split_cut _ _ _ _ Hsep E). cbn [length].
    rewrite Hc. f_equal. apply (IH (length b)); [|reflexivity].
    rewrite Hn, (partition_at_app _ _ _ _ E), !length_app. simpl. lia.
  - rewrite (split_whole _ _ E), Hc. reflexivity.
Qed.

Lemma dict_of_raises (items : list (list pystr)) d :
  Exists (fun item => length item <> 2%nat) items ->
  dict_of items d = inl (Runtime DictUpdateError).
Proof.
  intros H. revert d. induction items as [|item items IH]; intros d.
  - inversion H.
  - destruct item as [|k [|v [|x item]]]; try reflexivity.
    cbn [dict_of]. apply IH. inversion H as [? ? Hbad|]; [|assumption].
    exfalso. apply Hbad. reflexivity.
Qed.

Lemma dict_of_total (items : list (list pystr)) d :
  Forall (fun item => length item = 2%nat) items ->
  exists d', dict_of items d = inr d'.
Proof.
  intros H. revert d. induction H as [|item items Hitem _ IH]; intros d.
  - simpl. eauto.
  - cbv beta in Hitem.
    destruct item as [|k [|v [|x item]]]; try discriminate Hitem.
    cbn [dict_of]. apply IH.
Qed.

(** X15: [_parse_parameters] raises exactly when one of the pieces
    between the [&] holds two or more [=]; the error is the one
    [dict()] raises for an element that is not a pair. *)
Theorem X15_parse_parameters_raises params_str :
  ((exists param,
       In param (split (lit "&") params_str)
       /\ (2 <= occurrences 61 param)%nat) ->
   _parse_parameters params_str = inl (Runtime DictUpdateError))
  /\ ((forall param,
          In param (split (lit "&") params_str) ->
          (occurrences 61 param <= 1)%nat) ->
      exists parameters, _parse_parameters params_str = inr parameters).
Proof.
  unfold _parse_parameters. change (lit "=") with [61%N]. split.
  - intros (param & Hin & Hcount). apply dict_of_raises.
    apply List.Exists_exists. exists (split [61%N] param). split.
    + apply List.in_map. apply List.filter_In. split; [exact Hin|].
      unfold contains. pose proof (partition_char 61 param) as Hc.
      destruct (partition_at [61%N] param) as [[a b]|]; [reflexivity|lia].
    + rewrite split_count. lia.
  - intros Hall. apply dict_of_total.
    apply List.Forall_forall. intros item Hitem.
    apply List.in_map_iff in Hitem as (param & <- & Hparam).
    apply List.filter_In in Hparam as [Hin Hc].
    rewrite split_count. specialize (Hall param Hin).
    unfold contains in Hc. pose proof (partition_char 61 param) as Hp.
    destruct (partition_at [61%N] param) as [[a b]|]; [lia|discriminate].
Qed.

(** C3: a pair with a second [=] is not truncated.  [param.split('=')]
    is called without the maxsplit its siblings [split(': ', 1)] and
    [split('?', 1)] pass, so such a pair is cut in three parts or more,
    [dict()] refuses it, [_parse_parameters] raises, and the request is
    answered with the generic 500 whatever its path, the datastore not
    being called. *)
Theorem C3_second_equals_raises start_time raw_request t method target
    version path query param w :
  raw_request <> [] -> utf8_decode raw_request = Some t ->
  split_ws (first_line_of t) = [method; target; version] ->
  partition_at (lit "?") target = Some (path, query) ->
  In param (split (lit "&") query) -> (2 <= occurrences 61 param)%nat ->
  (3 <= length (split (lit "=") param))%nat
  /\ _parse_parameters query = inl (Runtime DictUpdateError)
  /\ client start_time raw_request w
     = (inr tt,
        mk_world
          (sent w
           ++ [json_reply 500 (error_payload (lit "Internal server error"))])
          true (store w)).
Proof.
  intros Hne Hraw Hline Hcut Hin Hcount.
  change (lit "=") with [61%N].
  assert (3 <= length (split [61%N] param))%nat as Hparts
    by (rewrite split_count; lia).
  assert (_parse_parameters query = inl (Runtime DictUpdateError)) as Hquery.
  { unfold _parse_parameters. change (lit "=") with [61%N].
    apply dict_of_raises, List.Exists_exists.
    exists (split [61%N] param). split; [|lia].
    apply List.in_map, List.filter_In. split; [exact Hin|].
    unfold contains. pose proof (partition_char 61 param) as Hc.
    destruct (partition_at [61%N] param) as [[a b]|]; [reflexivity|lia]. }
  split; [exact Hparts|]. split; [exact Hquery|].
  assert (parse_request raw_request = inl (Runtime DictUpdateError)) as Hparse.
  { unfold parse_request. rewrite Hraw. cbn [and_then]. rewrite Hline.
    cbn [unpack3 and_then fst snd].
    destruct (read_headers_total (tl (split CRLF (header_block t))) ∅)
      as [hd ->].
    cbn [and_then]. unfold contains, split1. rewrite Hcut.
    cbn [unpack2 and_then fst snd]. rewrite Hquery. reflexivity. }
  unfold handle_client, try_except, handle_request, bind.
  destruct raw_request as [|b raw']; [congruence|].
  rewrite Hparse. cbn [lift]. unfold raise. rewrite _send_response_ok.
  reflexivity.
Qed.

(** *** The header lines *)

Lemma read_headers_lines (lines : list header_line) (d : gmap pystr pystr) :
  Forall header_ok lines ->
  read_headers (map header_text lines) d = inr (fold_left record_header lines d).
Proof.
  intros H. revert d. induction H as [|h lines [_ Hh] _ IH]; intros d;
    [reflexivity|].
  change (lit ": ") with (58%N :: [32%N]) in *.
  destruct h as [key value|t]; cbn [map header_text read_headers fold_left
                                     record_header].
  - change (lit ": ") with (58%N :: [32%N]).
    rewrite (contains_around 58 [32%N] key value Hh).
    unfold split1. rewrite (partition_at_free 58 [32%N] key value Hh).
    cbn [unpack2 and_then fst snd]. apply IH.
  - change (lit ": ") with (58%N :: [32%N]). rewrite Hh. apply IH.
Qed.

(** X16: the loop over the header lines fills [headers_dict] line by
    line: a field [key: value] whose key has no colon binds the key to
    everything after the first [": "], a later field replacing an earlier
    one with the same key, and a line without [": "] is skipped. *)
Theorem X16_headers_dict method target version (lines : list header_line)
    body raw_request r :
  token method -> token target -> token version ->
  Forall header_ok lines ->
  utf8_decode raw_request
  = Some (frame (request_line method target version)
            (map header_text lines) body) ->
  parse_request raw_request = inr r ->
  req_headers_dict r = fold_left record_header lines ∅.
Proof.
  intros Hm Ht Hv Hlines Hraw.
  assert (Forall header_line_ok (map header_text lines)) as Hh.
  { apply List.Forall_map. revert Hlines. apply List.Forall_impl.
    intros h [H _]. exact H. }
  rewrite (parse_request_frame _ _ _ _ _ _ Hm Ht Hv Hh Hraw).
  rewrite (read_headers_lines _ _ Hlines). cbn [and_then].
  destruct (if contains (lit "?") target then _ else _) as [e|pp];
    cbn [and_then]; [discriminate|].
  intros [= <-]. reflexivity.
Qed.

End Requests.

(** ** The about page *)

Section About.

Variable server_name : pystr.

Lemma encodable_app s t : encodable s -> encodable t -> encodable (s ++ t).
Proof. intros Hs Ht. apply Forall_app. auto. Qed.

Lemma encodable_join sep (l : list pystr) :
  encodable sep -> Forall encodable l -> encodable (join sep l).
Proof.
  intros Hsep. induction 1 as [|s l Hs Hl IH]; [constructor|].
  destruct l as [|t l']; [exact Hs|].
  rewrite join_cons. repeat apply encodable_app; assumption.
Qed.

Lemma excess_app s t : excess (s ++ t) = (excess s + excess t)%nat.
Proof. unfold excess. rewrite map_app, list_sum_app. reflexivity. Qed.

Lemma excess_cons c s : excess (c :: s) = (extra_bytes c + excess s)%nat.
Proof. reflexivity. Qed.

Lemma excess_join sep (l : list pystr) :
  excess (join sep l)
  = (list_sum (map excess l) + (length l - 1) * excess sep)%nat.
Proof.
  induction l as [|s l IH]; [reflexivity|].
  destruct l as [|t l']; [cbn [join map list_sum fold_right length Nat.sub Nat.mul]; lia|].
  rewrite join_cons, !excess_app, IH. cbn [map list_sum fold_right length Nat.sub]. lia.
Qed.

Lemma excess_ascii s : excess s = 0%nat <-> is_ascii s = true.
Proof.
  unfold excess, is_ascii. induction s as [|c s IH]; [tauto|].
  cbn [map list_sum fold_right forallb]. fold (list_sum (map extra_bytes s)). unfold extra_bytes at 1.
  destruct (c <? 128)%N; cbn [andb].
  - rewrite <- IH. lia.
  - split; [|discriminate].
    destruct (c <? 2048)%N; [lia|]. destruct (c <? 65536)%N; lia.
Qed.

Lemma utf8_encode_char_length c b :
  utf8_encode_char c = Some b -> length b = S (extra_bytes c).
Proof.
  unfold utf8_encode_char, extra_bytes.
  destruct (c <? 128)%N; [intros [= <-]; reflexivity|].
  destruct (c <? 2048)%N; [intros [= <-]; reflexivity|].
  destruct (is_surrogate c); [discriminate|].
  destruct (c <? 65536)%N; [intros [= <-]; reflexivity|].
  destruct (c <? 1114112)%N; [intros [= <-]; reflexivity|discriminate].
Qed.

(** The UTF-8 form of a text is as long as the text plus its excess. *)
Lemma utf8_encode_length s b :
  utf8_encode s = Some b -> length b = (length s + excess s)%nat.
Proof.
  revert b. induction s as [|c s IH]; intros b; cbn [utf8_encode].
  - intros [= <-]. reflexivity.
  - destruct (utf8_encode_char c) as [x|] eqn:Ec; [|discriminate].
    destruct (utf8_encode s) as [bs|]; [|discriminate].
    intros [= <-]. rewrite length_app, (utf8_encode_char_length _ _ Ec), (IH _ eq_refl).
    rewrite excess_cons. cbn [length]. lia.
Qed.

Lemma about_head_ascii n : is_ascii (about_head n) = true.
Proof. unfold about_head. rewrite !is_ascii_app, !str_int_ascii. reflexivity. Qed.

Ltac text_is_encodable :=
  repeat first
    [ assumption
    | apply ascii_encodable; vm_compute; reflexivity
    | apply encodable_app ].

Lemma html_content_encodable start_time :
  encodable server_name -> encodable start_time ->
  encodable (html_content server_name start_time).
Proof.
  intros Hn Ht. unfold html_content. apply encodable_join.
  - apply ascii_encodable. reflexivity.
  - unfold html_lines. cbn [app].
    repeat (apply List.Forall_cons; [text_is_encodable|]).
    apply List.Forall_nil.
Qed.

(** Only the server name, twice, and the clock reading can bring
    characters beyond ASCII into the page. *)
Lemma html_content_excess start_time :
  excess (html_content server_name start_time)
  = (2 * excess server_name + excess start_time)%nat.
Proof.
  unfold html_content. rewrite excess_join. unfold html_lines.
  cbn [app map list_sum fold_right length].
  repeat match goal with
         | |- context [excess (lit ?x)] =>
             rewrite (proj2 (excess_ascii (lit x)) eq_refl)
         | |- context [excess (concat ?x)] =>
             rewrite (proj2 (excess_ascii (concat x)) eq_refl)
         | |- context [excess (?a ++ ?b)] => rewrite (excess_app a b)
         | |- context [excess (?c :: ?s)] => rewrite (excess_cons c s)
         end.
  change (excess version) with 0%nat. change (excess []) with 0%nat.
  change (extra_bytes DQUOTE) with 0%nat. change (extra_bytes LF) with 0%nat.
  lia.
Qed.

(** X17: when the server name and the clock reading have a UTF-8 form,
    [_about] makes one [sendall] of the head
    [HTTP/1.1 200 OK / Content-Type: text/html / Content-Length: n]
    followed by the UTF-8 form of the page, where [n] is the number of
    characters of the page.  The body has that many bytes plus the excess
    of the server name, twice, and of the clock reading: the declared
    length is the length of the body exactly when both are ASCII. *)
Theorem X17_about_page start_time w :
  encodable server_name -> encodable start_time ->
  exists body,
    utf8_encode (html_content server_name start_time) = Some body
    /\ _about server_name start_time w
       = (inr tt,
          after_send
            (ascii_bytes
               (about_head (len (html_content server_name start_time)))
             ++ body) w)
    /\ Z.of_nat (length body)
       = len (html_content server_name start_time)
         + Z.of_nat (2 * excess server_name + excess start_time)
    /\ (Z.of_nat (length body) = len (html_content server_name start_time)
        <-> is_ascii server_name && is_ascii start_time = true).
Proof.
  intros Hn Ht.
  destruct (encodable_encode _ (html_content_encodable start_time Hn Ht))
    as [body Hbody].
  pose proof (utf8_encode_length _ _ Hbody) as Hlen.
  rewrite html_content_excess in Hlen.
  exists body. split; [exact Hbody|]. split; [|split].
  - unfold _about, bind.
    fold (about_head (len (html_content server_name start_time))).
    rewrite encode_ascii by apply about_head_ascii.
    unfold encode. rewrite Hbody. reflexivity.
  - unfold len. lia.
  - rewrite andb_true_iff, <- !excess_ascii. unfold len. lia.
Qed.

End About.

(** ** Clients served one after another *)

Section Sessions.

Variable json_loads : pystr -> loads_error + json.
Variable sqlite_real_text : N -> option pystr.
Variable sql_id_eq : pystr -> Z -> bool.
Variable runtime_message : runtime_error -> pystr.
Variable server_name : pystr.

Local Abbreviation client :=
  (handle_client json_loads sqlite_real_text sql_id_eq runtime_message server_name).

(** X18: the passwords stored in the table have no influence on what any
    later client receives: over any sequence of requests, served one
    after another, two datastores that differ only in the password column
    give every client the same bytes and still differ only in the
    password column at the end. *)
Theorem X18_passwords_stay_hidden (requests : list (pystr * pybytes)) d1 d2 :
  same_public d1 d2 ->
  let serve := fun request => client (fst request) (snd request) in
  fst (one_after_another serve requests d1)
  = fst (one_after_another serve requests d2)
  /\ same_public (snd (one_after_another serve requests d1))
       (snd (one_after_another serve requests d2)).
Proof.
  cbv zeta. revert d1 d2.
  induction requests as [|[start_time raw_request] rest IH]; intros d1 d2 H.
  - split; [reflexivity|exact H].
  - cbn [one_after_another fst snd].
    assert (same_view (mk_world [] false d1) (mk_world [] false d2)) as Hview
      by (repeat split; apply H).
    destruct (handle_client_blind json_loads sqlite_real_text sql_id_eq
                runtime_message server_name start_time raw_request _ _ Hview)
      as [_ (Hsent & _ & Hstore)].
    specialize (IH _ _ Hstore).
    destruct (one_after_another _ rest (store (snd (client start_time raw_request
                                                      (mk_world [] false d1)))))
      as [replies1 e1].
    destruct (one_after_another _ rest (store (snd (client start_time raw_request
                                                      (mk_world [] false d2)))))
      as [replies2 e2].
    cbn [fst snd] in *. destruct IH as [-> He]. rewrite Hsent. auto.
Qed.

End Sessions.

(** ** More worked cases *)

Module MoreCases.

Import Sample.

(** A token in base64 with its padding, [GET /users?token=YWJj==]. *)
Lemma C3_token_with_padding :
  let request := raw (request_to "GET /users?token=YWJj== HTTP/1.1" []) in
  let t :=
    join CRLF (request_to "GET /users?token=YWJj== HTTP/1.1" []) in
  let w := fresh one_user in
  request <> []
  /\ utf8_decode request = Some t
  /\ split_ws (first_line_of t)
     = [lit "GET"; lit "/users?token=YWJj=="; lit "HTTP/1.1"]
  /\ partition_at (lit "?") (lit "/users?token=YWJj==")
     = Some (lit "/users", lit "token=YWJj==")
  /\ In (lit "token=YWJj==") (split (lit "&") (lit "token=YWJj=="))
  /\ (2 <= occurrences 61 (lit "token=YWJj=="))%nat
  /\ (3 <= length (split (lit "=") (lit "token=YWJj==")))%nat
  /\ _parse_parameters (lit "token=YWJj==") = inl (Runtime DictUpdateError)
  /\ handle_client json_loads sqlite_real_text sql_id_eq runtime_message
       server_name (lit "2024-01-01 00:00:00") request w
     = (inr tt,
        mk_world
          (sent w
           ++ [json_reply 500 (error_payload (lit "Internal server error"))])
          true (store w)).
Proof.
  cbv zeta.
  assert (raw (request_to "GET /users?token=YWJj== HTTP/1.1" []) <> []) as H1
    by (vm_compute; discriminate).
  assert (utf8_decode (raw (request_to "GET /users?token=YWJj== HTTP/1.1" []))
          = Some (join CRLF (request_to "GET /users?token=YWJj== HTTP/1.1" [])))
    as H2 by (vm_compute; reflexivity).
  assert (split_ws
            (first_line_of
               (join CRLF (request_to "GET /users?token=YWJj== HTTP/1.1" [])))
          = [lit "GET"; lit "/users?token=YWJj=="; lit "HTTP/1.1"]) as H3
    by (vm_compute; reflexivity).
  assert (partition_at (lit "?") (lit "/users?token=YWJj==")
          = Some (lit "/users", lit "token=YWJj==")) as H4
    by (vm_compute; reflexivity).
  assert (In (lit "token=YWJj==") (split (lit "&") (lit "token=YWJj==")))
    as H5 by (left; reflexivity).
  assert (2 <= occurrences 61 (lit "token=YWJj=="))%nat as H6
    by (vm_compute; lia).
  refine (conj H1 (conj H2 (conj H3 (conj H4 (conj H5 (conj H6 _)))))).
  exact (C3_second_equals_raises json_loads sqlite_real_text sql_id_eq
           runtime_message server_name (lit "2024-01-01 00:00:00")
           _ _ _ _ _ _ _ _ (fresh one_user) H1 H2 H3 H4 H5 H6).
Defined.

(** A peer that has gone away: every [sendall] raises
    [BrokenPipeError]. *)
Lemma X1_broken_pipe :
  let refuses := fun (_ : list pybytes) (_ : pybytes) => Some 32%N in
  let request := raw (request_to "GET /users HTTP/1.1" []) in
  let w := fresh one_user in
  let outcome :=
    @handle_client (unreliable refuses) json_loads sqlite_real_text sql_id_eq
      runtime_message server_name (lit "2024-01-01 00:00:00") request w in
  request <> []
  /\ ((fst outcome = inr tt
       /\ exists data, sent (snd outcome) = sent w ++ [data])
      \/ (exists errno,
             fst outcome = inl (Runtime (SocketError errno))
             /\ refuses (sent w)
                  (json_reply 500 (error_payload (lit "Internal server error")))
                = Some errno
             /\ sent (snd outcome) = sent w)).
Proof.
  cbv zeta.
  assert (raw (request_to "GET /users HTTP/1.1" []) <> []) as H1
    by (vm_compute; discriminate).
  refine (conj H1 _).
  exact (proj1 (proj2 (proj2
           (X1_one_answer json_loads sqlite_real_text sql_id_eq
              runtime_message server_name (fun _ _ => Some 32%N)
              (lit "2024-01-01 00:00:00") _ (fresh one_user)))) H1).
Defined.

(** On that connection the list is fetched, the three attempts to answer
    (200, then 400, then 500) are refused, and the last error leaves
    [handle_client] with the socket closed. *)
Lemma broken_pipe_escapes :
  @handle_client (unreliable (fun _ _ => Some 32%N)) json_loads
    sqlite_real_text sql_id_eq runtime_message server_name
    (lit "2024-01-01 00:00:00") (raw (request_to "GET /users HTTP/1.1" []))
    (fresh one_user)
  = (inl (Runtime (SocketError 32)), mk_world [] true one_user).
Proof. vm_compute. reflexivity. Qed.

(** When only a reply with a status 2xx is refused, the client gets the
    400 that carries the text of the socket error. *)
Lemma refused_once :
  let refuses :=
    fun (_ : list pybytes) (data : pybytes) =>
      match nth 9 data Byte.x00 with
      | Byte.x32 => Some 32%N
      | _ => None
      end in
  @handle_client (unreliable refuses) json_loads sqlite_real_text sql_id_eq
    runtime_message server_name (lit "2024-01-01 00:00:00")
    (raw (request_to "GET /users HTTP/1.1" [])) (fresh one_user)
  = (inr tt,
     mk_world [json_reply 400 (error_payload (lit "[Errno 32] Broken pipe"))]
       true one_user).
Proof. vm_compute. reflexivity. Qed.

(** A DELETE without id: the answer is one of the five statuses. *)
Lemma X2_delete_without_id :
  let request := raw (request_to "DELETE /users HTTP/1.1" []) in
  let r := parsed "DELETE" "/users" ∅ [] in
  let w := fresh one_user in
  request <> []
  /\ parse_request request = inr r
  /\ req_path r = lit "/users"
  /\ exists status_code content,
       In status_code [200; 201; 400; 404; 405]
       /\ sent (snd (handle_client json_loads sqlite_real_text sql_id_eq
                       runtime_message server_name
                       (lit "2024-01-01 00:00:00") request w))
          = sent w ++ [json_reply status_code content].
Proof.
  cbv zeta.
  assert (raw (request_to "DELETE /users HTTP/1.1" []) <> []) as H1
    by (vm_compute; discriminate).
  assert (parse_request (raw (request_to "DELETE /users HTTP/1.1" []))
          = inr (parsed "DELETE" "/users" ∅ [])) as H2
    by (vm_compute; reflexivity).
  assert (req_path (parsed "DELETE" "/users" ∅ []) = lit "/users") as H3
    by reflexivity.
  refine (conj H1 (conj H2 (conj H3 _))).
  exact (X2_users_never_500 json_loads sqlite_real_text sql_id_eq
           runtime_message server_name (lit "2024-01-01 00:00:00")
           _ _ (fresh one_user) H1 H2 H3).
Defined.

(** The POST of the scenario can only append one row with id 1. *)
Lemma X4_post_on_empty_table :
  let request := raw (request_to "POST /users HTTP/1.1" json_ok) in
  let r := parsed "POST" "/users" ∅ json_ok in
  let d := store (fresh empty_db) in
  let d' :=
    store (snd (handle_client json_loads sqlite_real_text sql_id_eq
                  runtime_message server_name (lit "2024-01-01 00:00:00")
                  request (fresh empty_db))) in
  parse_request request = inr r
  /\ req_path r = lit "/users"
  /\ req_method r = lit "POST"
  /\ ((users d' = users d /\ sequence d' = sequence d)
      \/ exists u, user_id u = sequence d + 1
                   /\ users d' = users d ++ [u]
                   /\ sequence d' = sequence d + 1).
Proof.
  cbv zeta.
  assert (parse_request (raw (request_to "POST /users HTTP/1.1" json_ok))
          = inr (parsed "POST" "/users" ∅ json_ok)) as H1
    by (vm_compute; reflexivity).
  assert (req_path (parsed "POST" "/users" ∅ json_ok) = lit "/users") as H2
    by reflexivity.
  assert (req_method (parsed "POST" "/users" ∅ json_ok) = lit "POST") as H3
    by reflexivity.
  refine (conj H1 (conj H2 (conj H3 _))).
  exact (proj1 (proj2 (X4_effect_by_method json_loads sqlite_real_text
                         sql_id_eq runtime_message server_name
                         (lit "2024-01-01 00:00:00") _ (fresh empty_db))
                  _ H1) H2 H3).
Defined.

(** Deleting the only row keeps the table well formed and the sequence
    at 1. *)
Lemma X5_delete_alice :
  let request := raw (request_to "DELETE /users?id=1 HTTP/1.1" []) in
  let w := fresh one_user in
  let d' :=
    store (snd (handle_client json_loads sqlite_real_text sql_id_eq
                  runtime_message server_name (lit "2024-01-01 00:00:00")
                  request w)) in
  ids_bounded (store w) /\ ids_unique (store w)
  /\ ids_bounded d' /\ ids_unique d' /\ sequence (store w) <= sequence d'.
Proof.
  cbv zeta.
  assert (ids_bounded (store (fresh one_user))) as H1
    by (repeat constructor; vm_compute; discriminate).
  assert (ids_unique (store (fresh one_user))) as H2
    by (apply NoDup_cons_2; [inversion 1|apply NoDup_nil_2]).
  refine (conj H1 (conj H2 _)).
  exact (X5_ids_stay_unique json_loads sqlite_real_text sql_id_eq
           runtime_message server_name (lit "2024-01-01 00:00:00")
           _ (fresh one_user) H1 H2).
Defined.

(** A POST without body. *)
Lemma X7_post_without_body :
  let w := fresh empty_db in
  truthy None = false
  /\ users_endpoint (lit "POST") ∅ None w
     = (inr tt,
        after_send
          (json_reply 400 (error_payload (lit "Request body is empty"))) w).
Proof.
  cbv zeta.
  assert (truthy None = false) as H1 by reflexivity.
  refine (conj H1 _).
  exact (proj1 (X7_create_refused json_loads sqlite_real_text sql_id_eq
                  runtime_message ∅ (fresh empty_db)) None H1).
Defined.



(** A PATCH with an id and no body. *)
Lemma X10_patch_without_body :
  let parameters : gmap pystr pystr := {[ lit "id" := lit "1" ]} in
  let w := fresh one_user in
  truthy (parameters !! lit "id") = true
  /\ truthy None = false
  /\ users_endpoint (lit "PATCH") parameters None w
     = (inr tt,
        after_send
          (json_reply 400 (error_payload (lit "Request body is empty"))) w).
Proof.
  cbv zeta.
  assert (truthy (({[ lit "id" := lit "1" ]} : gmap pystr pystr) !! lit "id")
          = true) as H1 by (vm_compute; reflexivity).
  assert (truthy None = false) as H2 by reflexivity.
  refine (conj H1 (conj H2 _)).
  exact (proj1 (X10_patch_refused json_loads sqlite_real_text sql_id_eq
                  runtime_message {[ lit "id" := lit "1" ]} (fresh one_user) H1)
           None H2).
Defined.



(** A first line with two parts only. *)
Lemma X13_no_version :
  let request := raw [lit "GET /users"] in
  let w := fresh one_user in
  request <> []
  /\ utf8_decode request = Some (lit "GET /users")
  /\ length (split_ws (first_line_of (lit "GET /users"))) <> 3%nat
  /\ handle_client json_loads sqlite_real_text sql_id_eq runtime_message
       server_name (lit "2024-01-01 00:00:00") request w
     = (inr tt,
        mk_world
          (sent w
           ++ [json_reply 500 (error_payload (lit "Internal server error"))])
          true (store w)).
Proof.
  cbv zeta.
  assert (raw [lit "GET /users"] <> []) as H1 by (vm_compute; discriminate).
  assert (utf8_decode (raw [lit "GET /users"]) = Some (lit "GET /users")) as H2
    by (vm_compute; reflexivity).
  assert (length (split_ws (first_line_of (lit "GET /users"))) <> 3%nat) as H3
    by (vm_compute; discriminate).
  refine (conj H1 (conj H2 (conj H3 _))).
  exact (X13_malformed_request json_loads sqlite_real_text sql_id_eq
           runtime_message server_name (lit "2024-01-01 00:00:00")
           _ (fresh one_user) H1
           (or_intror (or_introl (ex_intro _ (lit "GET /users") (conj H2 H3))))).
Defined.

(** The request line of a browser asking for the about page. *)
Lemma X14_get_about :
  let header_lines := [lit "Host: localhost"; lit "Accept: */*"] in
  let request :=
    ascii_bytes
      (frame (request_line (lit "GET") (lit "/about") (lit "HTTP/1.1"))
         header_lines None) in
  token (lit "GET") /\ token (lit "/about") /\ token (lit "HTTP/1.1")
  /\ Forall header_line_ok header_lines
  /\ utf8_decode request
     = Some (frame (request_line (lit "GET") (lit "/about") (lit "HTTP/1.1"))
               header_lines None)
  /\ contains (lit "?") (lit "/about") = false
  /\ exists headers_dict,
       parse_request request
       = inr (mk_request (lit "GET") (lit "/about") ∅ None headers_dict).
Proof.
  cbv zeta.
  assert (token (lit "GET")) as H1
    by (split; [vm_compute; discriminate|repeat constructor]).
  assert (token (lit "/about")) as H2
    by (split; [vm_compute; discriminate|repeat constructor]).
  assert (token (lit "HTTP/1.1")) as H3
    by (split; [vm_compute; discriminate|repeat constructor]).
  assert (Forall header_line_ok [lit "Host: localhost"; lit "Accept: */*"]) as H4
    by (unfold header_line_ok, no_CR;
        repeat (constructor; try (vm_compute; discriminate))).
  assert (utf8_decode
            (ascii_bytes
               (frame (request_line (lit "GET") (lit "/about") (lit "HTTP/1.1"))
                  [lit "Host: localhost"; lit "Accept: */*"] None))
          = Some (frame (request_line (lit "GET") (lit "/about") (lit "HTTP/1.1"))
                    [lit "Host: localhost"; lit "Accept: */*"] None)) as H5
    by (vm_compute; reflexivity).
  assert (contains (lit "?") (lit "/about") = false) as H6
    by (vm_compute; reflexivity).
  refine (conj H1 (conj H2 (conj H3 (conj H4 (conj H5 (conj H6 _)))))).
  exact (proj1 (X14_request_line (lit "GET") (lit "/about") (lit "HTTP/1.1")
                  _ None _ H1 H2 H3 H4 H5) H6).
Defined.

(** The query string [a=b=c]. *)
Lemma X15_two_equals_signs :
  In (lit "a=b=c") (split (lit "&") (lit "a=b=c"))
  /\ (2 <= occurrences 61 (lit "a=b=c"))%nat
  /\ _parse_parameters (lit "a=b=c") = inl (Runtime DictUpdateError).
Proof.
  assert (In (lit "a=b=c") (split (lit "&") (lit "a=b=c"))) as H1
    by (left; reflexivity).
  assert (2 <= occurrences 61 (lit "a=b=c"))%nat as H2
    by (vm_compute; lia).
  refine (conj H1 (conj H2 _)).
  exact (proj1 (X15_parse_parameters_raises (lit "a=b=c"))
           (ex_intro _ (lit "a=b=c") (conj H1 H2))).
Defined.

(** A header block with a repeated field, a value that holds [": "] and a
    line that is no field. *)
Lemma X16_repeated_host :
  let lines :=
    [Field (lit "Host") (lit "localhost"); Loose (lit "garbage");
     Field (lit "Host") (lit "example.org: 80")] in
  let request :=
    ascii_bytes
      (frame (request_line (lit "GET") (lit "/about") (lit "HTTP/1.1"))
         (map header_text lines) None) in
  let r :=
    mk_request (lit "GET") (lit "/about") ∅ None
      {[ lit "Host" := lit "example.org: 80" ]} in
  token (lit "GET") /\ token (lit "/about") /\ token (lit "HTTP/1.1")
  /\ Forall header_ok lines
  /\ utf8_decode request
     = Some (frame (request_line (lit "GET") (lit "/about") (lit "HTTP/1.1"))
               (map header_text lines) None)
  /\ parse_request request = inr r
  /\ req_headers_dict r = fold_left record_header lines ∅.
Proof.
  cbv zeta.
  pose (lines := [Field (lit "Host") (lit "localhost"); Loose (lit "garbage");
                  Field (lit "Host") (lit "example.org: 80")]).
  assert (token (lit "GET")) as H1
    by (split; [vm_compute; discriminate|repeat constructor]).
  assert (token (lit "/about")) as H2
    by (split; [vm_compute; discriminate|repeat constructor]).
  assert (token (lit "HTTP/1.1")) as H3
    by (split; [vm_compute; discriminate|repeat constructor]).
  assert (Forall header_ok lines) as H4
    by (unfold header_ok, header_line_ok, no_CR;
        repeat (constructor; try (vm_compute; discriminate);
                try (vm_compute; reflexivity))).
  assert (utf8_decode
            (ascii_bytes
               (frame (request_line (lit "GET") (lit "/about") (lit "HTTP/1.1"))
                  (map header_text lines) None))
          = Some (frame (request_line (lit "GET") (lit "/about") (lit "HTTP/1.1"))
                    (map header_text lines) None)) as H5
    by (vm_compute; reflexivity).
  assert (parse_request
            (ascii_bytes
               (frame (request_line (lit "GET") (lit "/about") (lit "HTTP/1.1"))
                  (map header_text lines) None))
          = inr (mk_request (lit "GET") (lit "/about") ∅ None
                   {[ lit "Host" := lit "example.org: 80" ]})) as H6
    by (vm_compute; reflexivity).
  refine (conj H1 (conj H2 (conj H3 (conj H4 (conj H5 (conj H6 _)))))).
  exact (X16_headers_dict (lit "GET") (lit "/about") (lit "HTTP/1.1") lines
           None _ _ H1 H2 H3 H4 H5 H6).
Defined.

(** The about page of the server as [__main__] names it. *)
Lemma X17_about_of_main :
  let start_time := lit "2024-01-01 00:00:00" in
  let w := fresh empty_db in
  encodable server_name /\ encodable start_time
  /\ exists body,
       utf8_encode (html_content server_name start_time) = Some body
       /\ _about server_name start_time w
          = (inr tt,
             after_send
               (ascii_bytes
                  (about_head (len (html_content server_name start_time)))
                ++ body) w)
       /\ Z.of_nat (length body)
          = len (html_content server_name start_time)
            + Z.of_nat (2 * excess server_name + excess start_time)
       /\ (Z.of_nat (length body) = len (html_content server_name start_time)
           <-> is_ascii server_name && is_ascii start_time = true).
Proof.
  cbv zeta.
  assert (encodable server_name) as H1 by (apply ascii_encodable; reflexivity).
  assert (encodable (lit "2024-01-01 00:00:00")) as H2
    by (apply ascii_encodable; reflexivity).
  refine (conj H1 (conj H2 _)).
  exact (X17_about_page server_name (lit "2024-01-01 00:00:00")
           (fresh empty_db) H1 H2).
Defined.

(** Two tables that differ in the password of row 1, asked for that row
    and then sent the PATCH of the scenario. *)
Lemma X18_another_password :
  let d1 := one_user in
  let d2 :=
    mk_database [mk_user 1 (lit "a@b.com") (lit "secret") (lit "hi")] 1 [] in
  let requests :=
    [(lit "2024-01-01 00:00:00",
      raw (request_to "GET /users?id=1 HTTP/1.1" []));
     (lit "2024-01-01 00:00:01",
      raw (request_to "PATCH /users?id=1 HTTP/1.1" (dq "{'message': 'bye'}")))] in
  let serve :=
    fun request : pystr * pybytes =>
      handle_client json_loads sqlite_real_text sql_id_eq runtime_message
        server_name (fst request) (snd request) in
  same_public d1 d2
  /\ fst (one_after_another serve requests d1)
     = fst (one_after_another serve requests d2)
  /\ same_public (snd (one_after_another serve requests d1))
       (snd (one_after_another serve requests d2)).
Proof.
  cbv zeta.
  assert (same_public one_user
            (mk_database [mk_user 1 (lit "a@b.com") (lit "secret") (lit "hi")]
               1 [])) as H1
    by (repeat split; reflexivity).
  refine (conj H1 _).
  exact (X18_passwords_stay_hidden json_loads sqlite_real_text sql_id_eq
           runtime_message server_name _ _ _ H1).
Defined.

End MoreCases.
